(** * The healing agent: classification, autonomy gate, executor, orchestrator

    A shallow embedding of [aiops/healing-agent/src]:
    - [classifiers/pattern_matcher.py]   as [PatternMatcher],
    - [classifiers/ai_analyzer.py]       as [AIAnalyzer],
    - [classifiers/hybrid_classifier.py] as [HybridClassifier],
    - [remediators/k8s_remediator.py]    as [KubernetesRemediator],
    - [notifiers/slack_notifier.py]      as [SlackNotifier],
    - [main.py] ([process_alert], [webhook], [get_alerts], [get_actions])
                                         as [Main],
    - [utils/prometheus_client.py]       as [PrometheusClient].

    Python values that the code treats dynamically (the fields of a reply of
    the reasoner, the values of an action's [parameters]) are values of
    [Py.pyval]; exceptions are values of [Py.exn]; a computation that may
    raise returns an [outcome], and a method of an object is a function of
    the object's state ([Py.M]).  Log lines are left out, but for the
    arguments of a log line that can raise.

    The services outside the process are arguments of the model: the cluster
    API and [kubectl] ([KubernetesRemediator.Cluster]), the reasoning service
    ([AIAnalyzer.GroqClient]), the chat webhook ([SlackNotifier.Webhook]),
    the metrics endpoint ([PrometheusClient.Http]), the clock, and
    [json.loads].  The general theorems hold whatever these
    answer; the theorems about one run use the stand-ins of [Scenario] and
    the decoder [Json.loads]. *)

From Stdlib Require Import ZArith List String Ascii Bool Lia.
From Stdlib Require Import PrimFloat SpecFloat FloatOps.
From stdpp Require Import base option list gmap strings.

Set Warnings "-inexact-float,-register-all".
Open Scope string_scope.

(** ** Python values, exceptions and outcomes *)

Module Py.

(** A Python exception, by class; [msg] is what [str(e)] gives.
    [ApiException] is the cluster client's, with its [status] and [reason];
    [OtherError cls msg] is any other subclass of [Exception]. *)
Inductive exn : Type :=
| ApiException (status : Z) (reason : string) (msg : string)
| JSONDecodeError (msg : string)
| AttributeError (msg : string)
| TypeError (msg : string)
| ValueError (msg : string)
| OverflowError (msg : string)
| IndexError (msg : string)
| OtherError (cls : string) (msg : string).

Definition exn_str (e : exn) : string :=
  match e with
  | ApiException _ _ m | JSONDecodeError m | AttributeError m | TypeError m
  | ValueError m | OverflowError m | IndexError m | OtherError _ m => m
  end.

Definition is_ApiException (e : exn) : bool :=
  match e with ApiException _ _ _ => true | _ => false end.

Definition is_JSONDecodeError (e : exn) : bool :=
  match e with JSONDecodeError _ => true | _ => false end.

(** [e.reason] of an [ApiException]. *)
Definition api_reason (e : exn) : string :=
  match e with ApiException _ r _ => r | _ => EmptyString end.

(** The result of running a piece of Python: a value, or an exception. *)
Inductive outcome (A : Type) : Type :=
| Ret (a : A)
| Raise (e : exn).
Arguments Ret {A} a.
Arguments Raise {A} e.

Definition obind {A B} (c : outcome A) (k : A -> outcome B) : outcome B :=
  match c with Ret a => k a | Raise e => Raise e end.

(** [try: c  except C1: h1 ...  except Cn: hn]: each handler is the test of
    its exception classes and its body; the first clause whose classes
    contain the exception runs, an exception of no clause propagates. *)
Definition handler (A : Type) : Type := ((exn -> bool) * (exn -> A))%type.

Fixpoint handle {A} (hs : list (handler (outcome A))) (e : exn) : outcome A :=
  match hs with
  | [] => Raise e
  | (catches, h) :: hs' => if catches e then h e else handle hs' e
  end.

Definition try_ {A} (c : outcome A) (hs : list (handler (outcome A))) : outcome A :=
  match c with
  | Ret a => Ret a
  | Raise e => handle hs e
  end.

(** [except Exception] and a bare [except]. *)
Definition Exception (e : exn) : bool := true.

Definition returns {A} (c : outcome A) : Prop := exists a, c = Ret a.

(** A method of an object with state [S]: it returns or raises, and leaves
    the object in a new state either way. *)
Definition M (S A : Type) : Type := S -> outcome A * S.

Definition ret {S A} (a : A) : M S A := fun s => (Ret a, s).
Definition raise {S A} (e : exn) : M S A := fun s => (Raise e, s).
Definition bind {S A B} (c : M S A) (k : A -> M S B) : M S B :=
  fun s => match c s with
           | (Ret a, s') => k a s'
           | (Raise e, s') => (Raise e, s')
           end.
Definition lift {S A} (c : outcome A) : M S A := fun s => (c, s).
Definition gets {S A} (f : S -> A) : M S A := fun s => (Ret (f s), s).
Definition modify {S} (f : S -> S) : M S unit := fun s => (Ret tt, f s).

Fixpoint handle_M {S A} (hs : list (handler (M S A))) (e : exn) : M S A :=
  match hs with
  | [] => raise e
  | (catches, h) :: hs' => if catches e then h e else handle_M hs' e
  end.

(** [try ... except] around a method body: what the body did to the state
    before it raised stays done. *)
Definition try_M {S A} (c : M S A) (hs : list (handler (M S A))) : M S A :=
  fun s => match c s with
           | (Ret a, s') => (Ret a, s')
           | (Raise e, s') => handle_M hs e s'
           end.

Declare Scope py_scope.
Delimit Scope py_scope with py.
Notation "x <- c ;; k" := (bind c (fun x => k))
  (at level 62, c at next level, right associativity) : py_scope.
Notation "c ;;; k" := (bind c (fun _ => k))
  (at level 62, right associativity) : py_scope.
Notation "x <~ c ;; k" := (obind c (fun x => k))
  (at level 62, c at next level, right associativity) : py_scope.

(** A dynamically typed value: what [json.loads] builds and what a dict
    literal of the source holds.  A dict keeps its items in insertion order. *)
Inductive pyval : Type :=
| PNone
| PBool (b : bool)
| PInt (z : Z)
| PFloat (f : float)
| PStr (s : string)
| PList (l : list pyval)
| PDict (d : list (string * pyval)).

Definition type_name (v : pyval) : string :=
  match v with
  | PNone => "NoneType" | PBool _ => "bool" | PInt _ => "int"
  | PFloat _ => "float" | PStr _ => "str" | PList _ => "list"
  | PDict _ => "dict"
  end.

(** Truth value of an object, as [if v:] tests it. *)
Definition truthy (v : pyval) : bool :=
  match v with
  | PNone => false
  | PBool b => b
  | PInt z => negb (z =? 0)%Z
  | PFloat f => negb (f =? 0)%float
  | PStr s => negb (String.eqb s EmptyString)
  | PList l => match l with [] => false | _ => true end
  | PDict d => match d with [] => false | _ => true end
  end.

(** [v == "s"] for a string literal [s]. *)
Definition eq_str (v : pyval) (s : string) : bool :=
  match v with PStr t => String.eqb t s | _ => false end.

Fixpoint dict_lookup (d : list (string * pyval)) (k : string) : option pyval :=
  match d with
  | [] => None
  | (k', v) :: d' => if String.eqb k' k then Some v else dict_lookup d' k
  end.

(** [d[k] = v] on a dict: replaces the value of an existing key in place,
    appends a new key. *)
Fixpoint dict_set (d : list (string * pyval)) (k : string) (v : pyval)
  : list (string * pyval) :=
  match d with
  | [] => [(k, v)]
  | (k', v') :: d' =>
      if String.eqb k' k then (k', v) :: d' else (k', v') :: dict_set d' k v
  end.

(** [obj.get(k, dflt)]: only a dict has the method. *)
Definition get (obj : pyval) (k : string) (dflt : pyval) : outcome pyval :=
  match obj with
  | PDict d => Ret (default dflt (dict_lookup d k))
  | _ => Raise (AttributeError
                  ("'" +:+ type_name obj +:+ "' object has no attribute 'get'"))
  end.

(** A string built by an f-string: literal pieces and replacement fields.
    [Fmt v] stands for [str(v)] at that place; the rendering of numbers and
    containers is left to the reader of the text, the code never inspects
    it. *)
Inductive piece : Type :=
| Lit (s : string)
| Fmt (v : pyval).

Definition text : Type := list piece.

(** The text as a plain string, when every replacement field is a [str]. *)
Fixpoint render (t : text) : option string :=
  match t with
  | [] => Some EmptyString
  | Lit s :: t' => option_map (String.append s) (render t')
  | Fmt (PStr s) :: t' => option_map (String.append s) (render t')
  | Fmt _ :: _ => None
  end.

(** *** Numbers *)

(** [float(n)] for an int: the nearest binary64 value, ties to even;
    a magnitude beyond the range raises. *)
Definition float_of_Z (z : Z) : outcome float :=
  let f := SF2Prim (binary_normalize prec emax z 0 false) in
  if is_infinity f
  then Raise (OverflowError "int too large to convert to float")
  else Ret f.

Definition Z_of_bool (b : bool) : Z := if b then 1%Z else 0%Z.

Definition binop_error (op : string) (l r : pyval) : exn :=
  TypeError ("unsupported operand type(s) for " +:+ op +:+ ": '"
             +:+ type_name l +:+ "' and '" +:+ type_name r +:+ "'").

(** [a + v] and [a - v] for an int [a]. *)
Definition int_add (a : Z) (v : pyval) : outcome pyval :=
  match v with
  | PInt b => Ret (PInt (a + b))
  | PBool b => Ret (PInt (a + Z_of_bool b))
  | PFloat f => obind (float_of_Z a) (fun fa => Ret (PFloat (fa + f)%float))
  | _ => Raise (binop_error "+" (PInt a) v)
  end.

Definition int_sub (a : Z) (v : pyval) : outcome pyval :=
  match v with
  | PInt b => Ret (PInt (a - b))
  | PBool b => Ret (PInt (a - Z_of_bool b))
  | PFloat f => obind (float_of_Z a) (fun fa => Ret (PFloat (fa - f)%float))
  | _ => Raise (binop_error "-" (PInt a) v)
  end.

(** [max(1, v)]: [v] when [v > 1], else the first argument. *)
Definition max_1 (v : pyval) : outcome pyval :=
  match v with
  | PInt z => Ret (if (1 <? z)%Z then PInt z else PInt 1)
  | PBool _ => Ret (PInt 1)
  | PFloat f => Ret (if (1 <? f)%float then PFloat f else PInt 1)
  | _ => Raise (TypeError ("'>' not supported between instances of '"
                           +:+ type_name v +:+ "' and 'int'"))
  end.

(** *** Strings.  A character is a code point below 256. *)

Fixpoint take_s (n : nat) (s : string) : string :=
  match n, s with
  | S n', String c s' => String c (take_s n' s')
  | _, _ => EmptyString
  end.

Fixpoint drop_s (n : nat) (s : string) : string :=
  match n, s with
  | S n', String _ s' => drop_s n' s'
  | _, _ => s
  end.

(** [s[:n]] and [s[-n:]] (for [n > 0]). *)
Definition slice_to (n : nat) (s : string) : string := take_s n s.
Definition slice_last (n : nat) (s : string) : string :=
  drop_s (String.length s - n) s.

Definition startswith (s p : string) : bool := String.prefix p s.

(** [str.isspace] on one character. *)
Definition isspace (c : ascii) : bool :=
  let n := nat_of_ascii c in
  (((9 <=? n) && (n <=? 13)) || ((28 <=? n) && (n <=? 32))
   || (n =? 133) || (n =? 160))%nat.

Fixpoint lstrip (s : string) : string :=
  match s with
  | String c s' => if isspace c then lstrip s' else s
  | EmptyString => EmptyString
  end.

Definition strip (s : string) : string :=
  String.rev (lstrip (String.rev (lstrip s))).

Definition lower_char (c : ascii) : ascii :=
  let n := nat_of_ascii c in
  if (((65 <=? n) && (n <=? 90))
      || ((192 <=? n) && (n <=? 222) && negb (n =? 215)))%nat
  then ascii_of_nat (n + 32) else c.

Fixpoint lower (s : string) : string :=
  match s with
  | String c s' => String (lower_char c) (lower s')
  | EmptyString => EmptyString
  end.

(** [s.split(sep)] for a non-empty [sep]: [skip] characters of the separator
    just found are still to be passed over, [cur] is the part being read,
    last character first. *)
Fixpoint split_go (sep s : string) (skip : nat) (cur : string) : list string :=
  match s with
  | EmptyString => [String.rev cur]
  | String c s' =>
      match skip with
      | S k => split_go sep s' k cur
      | O =>
          if String.prefix sep s
          then String.rev cur :: split_go sep s' (String.length sep - 1) EmptyString
          else split_go sep s' 0 (String c cur)
      end
  end.

Definition split (s sep : string) : list string := split_go sep s 0 EmptyString.

(** *** Lists *)

(** [l[-limit:]] for any int [limit]: the start is [-limit], counted from
    the end when it is negative, and brought into the bounds of the list. *)
Definition slice_from_minus {A} (limit : Z) (l : list A) : list A :=
  let len := Z.of_nat (length l) in
  let start := (- limit)%Z in
  let start := if (start <? 0)%Z then Z.max (len + start) 0 else Z.min start len in
  drop (Z.to_nat start) l.

(** [v[i]] for an index [i >= 0] written as a literal. *)
Definition index (v : pyval) (i : nat) : outcome pyval :=
  match v with
  | PList l =>
      match l !! i with
      | Some x => Ret x
      | None => Raise (IndexError "list index out of range")
      end
  | PStr s =>
      match String.get i s with
      | Some c => Ret (PStr (String c EmptyString))
      | None => Raise (IndexError "string index out of range")
      end
  | PDict _ => Raise (OtherError "KeyError" "0")
  | _ => Raise (TypeError ("'" +:+ type_name v +:+ "' object is not subscriptable"))
  end.

End Py.

(** ** Regular expressions: the fragment of [re] the rule table uses

    Literal characters, [.] (any character but a newline), [*] after an
    atom and [|] between branches.  Matching is by derivatives; a search
    succeeds when some substring is in the language, which is what
    [re.search] returns as a truth value. *)

Module Re.

Inductive regex : Type :=
| RNone
| REps
| RChr (c : ascii)
| RAny
| RSeq (r1 r2 : regex)
| RAlt (r1 r2 : regex)
| RStar (r : regex).

Fixpoint regex_eqb (r s : regex) : bool :=
  match r, s with
  | RNone, RNone | REps, REps | RAny, RAny => true
  | RChr c, RChr d => Ascii.eqb c d
  | RSeq r1 r2, RSeq s1 s2 | RAlt r1 r2, RAlt s1 s2 =>
      regex_eqb r1 s1 && regex_eqb r2 s2
  | RStar r', RStar s' => regex_eqb r' s'
  | _, _ => false
  end.

Fixpoint nullable (r : regex) : bool :=
  match r with
  | RNone | RChr _ | RAny => false
  | REps | RStar _ => true
  | RSeq r1 r2 => nullable r1 && nullable r2
  | RAlt r1 r2 => nullable r1 || nullable r2
  end.

Definition seq (r1 r2 : regex) : regex :=
  match r1, r2 with
  | RNone, _ | _, RNone => RNone
  | REps, r | r, REps => r
  | _, _ => RSeq r1 r2
  end.

Definition alt (r1 r2 : regex) : regex :=
  match r1, r2 with
  | RNone, r | r, RNone => r
  | _, _ => if regex_eqb r1 r2 then r1 else RAlt r1 r2
  end.

(** With [re.IGNORECASE] two characters match when they agree up to case. *)
Definition chr_matches (ignorecase : bool) (p c : ascii) : bool :=
  if ignorecase then Ascii.eqb (Py.lower_char p) (Py.lower_char c)
  else Ascii.eqb p c.

Definition newline : ascii := ascii_of_nat 10.

Fixpoint deriv (ic : bool) (c : ascii) (r : regex) : regex :=
  match r with
  | RNone | REps => RNone
  | RChr p => if chr_matches ic p c then REps else RNone
  | RAny => if Ascii.eqb c newline then RNone else REps
  | RSeq r1 r2 =>
      if nullable r1
      then alt (seq (deriv ic c r1) r2) (deriv ic c r2)
      else seq (deriv ic c r1) r2
  | RAlt r1 r2 => alt (deriv ic c r1) (deriv ic c r2)
  | RStar r' => seq (deriv ic c r') (RStar r')
  end.

(** Some prefix of [s] is in the language of [r]. *)
Fixpoint match_here (ic : bool) (r : regex) (s : string) : bool :=
  nullable r ||
  match s with
  | String c s' => match_here ic (deriv ic c r) s'
  | EmptyString => false
  end.

(** Some substring of [s] is in the language of [r]. *)
Fixpoint search_regex (ic : bool) (r : regex) (s : string) : bool :=
  match_here ic r s ||
  match s with
  | String _ s' => search_regex ic r s'
  | EmptyString => false
  end.

(** The reader of a pattern.  [alts] are the branches closed by a [|] so
    far, [cur] the branch being read and [pend] its last atom, which a
    following [*] still may repeat. *)
Definition flush (cur : regex) (pend : option regex) : regex :=
  match pend with Some a => RSeq cur a | None => cur end.

Definition close (alts : option regex) (cur : regex) : regex :=
  match alts with Some a => RAlt a cur | None => cur end.

Definition unsupported (c : ascii) : bool :=
  existsb (Ascii.eqb c)
    (list_ascii_of_string "\()[]{}+?^$").

Fixpoint compile_go (p : string) (alts : option regex) (cur : regex)
    (pend : option regex) : option regex :=
  match p with
  | EmptyString => Some (close alts (flush cur pend))
  | String c p' =>
      if Ascii.eqb c "*" then
        match pend with
        | Some a => compile_go p' alts (RSeq cur (RStar a)) None
        | None => None
        end
      else if Ascii.eqb c "|" then
        compile_go p' (Some (close alts (flush cur pend))) REps None
      else if Ascii.eqb c "." then
        compile_go p' alts (flush cur pend) (Some RAny)
      else if unsupported c then None
      else compile_go p' alts (flush cur pend) (Some (RChr c))
  end.

Definition compile (p : string) : option regex := compile_go p None REps None.

(** [bool(re.search(p, s, re.IGNORECASE))]; a pattern outside the fragment
    matches nothing here (the rule table has none, see
    [PatternMatcherSpec.table_patterns_compile]). *)
Definition search_ignorecase (p s : string) : bool :=
  match compile p with
  | Some r => search_regex true r s
  | None => false
  end.

End Re.

(** ** Alerts *)

(** An alert of the webhook payload: [alert.get("labels", {})] and
    [alert.get("annotations", {})] as finite maps (an absent mapping is the
    empty one), and [alert.get("startsAt")]. *)
Record Alert : Type := mkAlert {
  labels : gmap string string;
  annotations : gmap string string;
  startsAt : option string
}.

(** [m.get(k, dflt)] on a mapping of strings. *)
Definition get_label (m : gmap string string) (k dflt : string) : string :=
  default dflt (m !! k).

(** ** classifiers/pattern_matcher.py *)

Module PatternMatcher.
Import Py.

Record RemediationAction : Type := mkAction {
  action_type : pyval;
  target : pyval;
  parameters : pyval;
  confidence : float;
  reason : text
}.

(** One entry of the rule table (a dict of the source with these four keys). *)
Record pattern_def : Type := mkPattern {
  name : string;
  alert_name : string;
  pattern : string;
  action : RemediationAction
}.

Definition _load_patterns : list pattern_def :=
  [ mkPattern "pod_crash_loop" "PodCrashLooping" "crash.*loop"
      (mkAction (PStr "restart") (PStr "pod")
         (PDict [("grace_period", PInt 30)])
         0.95 [Lit "Pod is crash looping - restart with fresh state"]);
    mkPattern "service_down" "ServiceDown" "service.*down|up.*== 0"
      (mkAction (PStr "restart") (PStr "deployment")
         (PDict [("replicas", PStr "current")])
         0.90 [Lit "Service is down - restart all pods"]);
    mkPattern "pod_not_ready" "PodNotReady" "pod.*not ready|pending|unknown"
      (mkAction (PStr "investigate") (PStr "pod")
         (PDict [("check_events", PBool true); ("check_logs", PBool true)])
         0.70 [Lit "Pod not ready - needs investigation"]);
    mkPattern "memory_leak" "MemoryLeakDetected" "memory.*leak|memory.*95"
      (mkAction (PStr "restart") (PStr "pod")
         (PDict [("drain_connections", PBool true); ("grace_period", PInt 60)])
         0.92 [Lit "Memory leak detected - restart to reclaim memory"]);
    mkPattern "high_memory_usage" "HighMemoryUsage" "memory.*85|high memory"
      (mkAction (PStr "scale") (PStr "deployment")
         (PDict [("direction", PStr "up"); ("increment", PInt 1)])
         0.80 [Lit "High memory usage - scale horizontally"]);
    mkPattern "high_cpu" "HighCPUUsage" "cpu.*80|high cpu"
      (mkAction (PStr "scale") (PStr "deployment")
         (PDict [("direction", PStr "up"); ("increment", PInt 1)])
         0.85 [Lit "High CPU usage - scale horizontally"]);
    mkPattern "high_error_rate" "HighErrorRate" "error rate.*5|errors.*high"
      (mkAction (PStr "rollback") (PStr "deployment")
         (PDict [("revisions_back", PInt 1)])
         0.88 [Lit "High error rate - likely bad deployment, rollback"]);
    mkPattern "high_latency" "HighLatency" "latency.*0.5|slow.*response"
      (mkAction (PStr "scale") (PStr "deployment")
         (PDict [("direction", PStr "up"); ("increment", PInt 2)])
         0.82 [Lit "High latency - scale to handle load"]);
    mkPattern "too_few_replicas" "TooFewReplicas" "too few replicas|replicas.*low"
      (mkAction (PStr "scale") (PStr "deployment")
         (PDict [("direction", PStr "up"); ("to_spec", PBool true)])
         0.95 [Lit "Replicas below specification - scale to match spec"]) ].

(** The object: its only field is the rule table. *)
Record t : Type := mk { patterns : list pattern_def }.

Definition init : t := mk _load_patterns.

(** The loop of [classify]: the first rule, in table order, whose
    [alert_name] is the alert's name or whose [pattern] is found in the
    description; within a rule the name is tested first. *)
Fixpoint first_match (rules : list pattern_def) (alert_name_ description : string)
  : option RemediationAction :=
  match rules with
  | [] => None
  | pattern_def :: rest =>
      if String.eqb (alert_name pattern_def) alert_name_ then
        Some (action pattern_def)
      else if Re.search_ignorecase (pattern pattern_def) description then
        Some (action pattern_def)
      else first_match rest alert_name_ description
  end.

Definition classify (self : t) (alert : Alert) : option RemediationAction :=
  let alert_name_ := get_label (labels alert) "alertname" EmptyString in
  let description := lower (get_label (annotations alert) "description" EmptyString) in
  first_match (patterns self) alert_name_ description.

Definition get_confidence_threshold (self : t) : float := 0.85.

End PatternMatcher.

(** ** Reading numbers: [int(s)], [float(s)], [float(v)] *)

Module Num.
Import Py.

Definition is_digit (c : ascii) : bool :=
  let n := nat_of_ascii c in ((48 <=? n) && (n <=? 57))%nat.

Definition digit_val (c : ascii) : Z := Z.of_nat (nat_of_ascii c - 48).

(** The value of a run of decimal digits, and the digits read. *)
Fixpoint digits_val (s : string) (acc : Z) : Z :=
  match s with
  | String c s' => digits_val s' (10 * acc + digit_val c)
  | EmptyString => acc
  end.

(** The longest prefix of characters satisfying [p], and the rest. *)
Fixpoint span (p : ascii -> bool) (s : string) : string * string :=
  match s with
  | String c s' =>
      if p c then let '(a, b) := span p s' in (String c a, b)
      else (EmptyString, s)
  | EmptyString => (EmptyString, EmptyString)
  end.

(** The decimal value [(-1)^neg * m * 10^e] as a binary64 number, rounded
    once, to nearest, ties to even.  For a negative exponent the quotient is
    taken with more than 64 bits and a sticky last bit, so the one rounding
    of [binary_normalize] is the rounding of the exact value. *)
Definition float_of_decimal (neg : bool) (m e : Z) : float :=
  let sgn z := if neg then (- z)%Z else z in
  if (m =? 0)%Z then (if neg then neg_zero else zero)
  else if (0 <=? e)%Z then
    SF2Prim (binary_normalize prec emax (sgn (m * 10 ^ e)%Z) 0 false)
  else
    let d := (10 ^ (- e))%Z in
    let s := Z.max 0 (Z.log2 d + 66 - Z.log2 m) in
    let n := (m * 2 ^ s)%Z in
    let q := (n / d)%Z in
    let sticky := if (n mod d =? 0)%Z then 0%Z else 1%Z in
    SF2Prim (binary_normalize prec emax (sgn (2 * q + sticky)%Z) (- s - 1) false).

(** A digit part of a Python numeric literal: digits, with single
    underscores between digits only.  [None] when [s] is not one. *)
Fixpoint digitpart_ok (s : string) (prev_digit : bool) : bool :=
  match s with
  | EmptyString => prev_digit
  | String c s' =>
      if is_digit c then digitpart_ok s' true
      else if Ascii.eqb c "_" then prev_digit && digitpart_ok s' false
      else false
  end.

Fixpoint strip_underscores (s : string) : string :=
  match s with
  | String c s' =>
      if Ascii.eqb c "_" then strip_underscores s'
      else String c (strip_underscores s')
  | EmptyString => EmptyString
  end.

Definition digitpart (s : string) : option string :=
  if digitpart_ok s false then Some (strip_underscores s) else None.

Definition is_digit_or_underscore (c : ascii) : bool :=
  is_digit c || Ascii.eqb c "_".

(** An optional sign: [(negative, rest)]. *)
Definition read_sign (s : string) : bool * string :=
  match s with
  | String "-" s' => (true, s')
  | String "+" s' => (false, s')
  | _ => (false, s)
  end.

(** [int(s)] on a string, base 10. *)
Definition int_of_string (s : string) : outcome Z :=
  let '(neg, body) := read_sign (strip s) in
  match digitpart body with
  | Some ds => let n := digits_val ds 0 in Ret (if neg then (- n)%Z else n)
  | None => Raise (ValueError
                     ("invalid literal for int() with base 10: '" +:+ s +:+ "'"))
  end.

(** The exponent part of a float literal, [e], sign and digit part; with no
    exponent part the exponent is 0. *)
Definition read_exponent (s : string) : option Z :=
  match s with
  | EmptyString => Some 0%Z
  | String c s' =>
      if Ascii.eqb (lower_char c) "e" then
        let '(neg, body) := read_sign s' in
        match digitpart body with
        | Some ds => let n := digits_val ds 0 in Some (if neg then (- n)%Z else n)
        | None => None
        end
      else None
  end.

(** The finite literals of [float(s)]: [digits[.[digits]][exponent]] or
    [.digits[exponent]]. *)
Definition finite_literal (neg : bool) (s : string) : option float :=
  let '(ip, r1) := span is_digit_or_underscore s in
  let '(fp, r2) :=
    match r1 with
    | String "." r => let '(f, r') := span is_digit_or_underscore r in (Some f, r')
    | _ => (None, r1)
    end in
  let part p := if String.eqb p EmptyString then Some EmptyString else digitpart p in
  match part ip, part (default EmptyString fp), read_exponent r2 with
  | Some i, Some f, Some e =>
      if String.eqb i EmptyString && String.eqb f EmptyString then None
      else Some (float_of_decimal neg (digits_val (i +:+ f) 0)
                   (e - Z.of_nat (String.length f)))
  | _, _, _ => None
  end.

(** [float(s)] on a string. *)
Definition float_of_string (s : string) : outcome float :=
  let '(neg, body) := read_sign (strip s) in
  let word := lower body in
  if String.eqb word "inf" || String.eqb word "infinity" then
    Ret (if neg then neg_infinity else infinity)
  else if String.eqb word "nan" then Ret nan
  else match finite_literal neg body with
       | Some f => Ret f
       | None => Raise (ValueError
                          ("could not convert string to float: '" +:+ s +:+ "'"))
       end.

(** [float(v)]. *)
Definition float_of (v : pyval) : outcome float :=
  match v with
  | PFloat f => Ret f
  | PInt z => float_of_Z z
  | PBool b => Ret (if b then 1 else 0)%float
  | PStr s => float_of_string s
  | _ => Raise (TypeError
                  ("float() argument must be a string or a real number, not '"
                   +:+ type_name v +:+ "'"))
  end.

(** [a / b] for two ints that are not negative: the quotient as a binary64
    number, rounded once (more than 64 bits of quotient and a sticky last
    bit, as in [float_of_decimal]); division by zero raises. *)
Definition truediv (a b : nat) : outcome float :=
  match b with
  | O => Raise (OtherError "ZeroDivisionError" "division by zero")
  | S _ =>
      match a with
      | O => Ret zero
      | S _ =>
          let m := Z.of_nat a in
          let d := Z.of_nat b in
          let s := Z.max 0 (Z.log2 d + 66 - Z.log2 m) in
          let n := (m * 2 ^ s)%Z in
          let sticky := if (n mod d =? 0)%Z then 0%Z else 1%Z in
          let f := SF2Prim (binary_normalize prec emax (2 * (n / d) + sticky)%Z
                              (- s - 1) false) in
          if is_infinity f
          then Raise (OverflowError "integer division result too large for a float")
          else Ret f
      end
  end.

End Num.

(** ** A reference decoder for JSON text

    [json.loads] is the standard library's; the classifier below takes the
    decoder as an argument, and its theorems hold for every decoder.
    [Json.loads] is a decoder for running the pipeline on concrete replies:
    objects, arrays, strings with the escapes of the grammar (a [\u] escape
    only for a code point below 256), numbers as Python reads them ([int]
    without fraction and exponent, else the nearest [float]), the literals
    [true], [false], [null], [NaN], [Infinity], [-Infinity].  The text of a
    [JSONDecodeError] is not modelled. *)

Module Json.
Import Py.

Definition dquote : ascii := ascii_of_nat 34.

Definition is_ws (c : ascii) : bool :=
  existsb (Ascii.eqb c) [" "%char; ascii_of_nat 9; ascii_of_nat 10; ascii_of_nat 13].

Fixpoint skip_ws (s : string) : string :=
  match s with
  | String c s' => if is_ws c then skip_ws s' else s
  | EmptyString => EmptyString
  end.

Definition hex_val (c : ascii) : option nat :=
  let n := nat_of_ascii c in
  if ((48 <=? n) && (n <=? 57))%nat then Some (n - 48)
  else if ((97 <=? n) && (n <=? 102))%nat then Some (n - 87)
  else if ((65 <=? n) && (n <=? 70))%nat then Some (n - 55)
  else None.

Definition simple_escape (c : ascii) : option ascii :=
  if Ascii.eqb c dquote then Some dquote
  else match c with
       | "\"%char => Some "\"%char
       | "/"%char => Some "/"%char
       | "b"%char => Some (ascii_of_nat 8)
       | "f"%char => Some (ascii_of_nat 12)
       | "n"%char => Some (ascii_of_nat 10)
       | "r"%char => Some (ascii_of_nat 13)
       | "t"%char => Some (ascii_of_nat 9)
       | _ => None
       end.

(** The characters of a string literal after its opening quote, up to the
    closing one; [acc] holds what was read, last character first. *)
Fixpoint scan_string (s : string) (acc : string) : option (string * string) :=
  match s with
  | EmptyString => None
  | String c r =>
      if Ascii.eqb c dquote then Some (String.rev acc, r)
      else if Ascii.eqb c "\" then
        match r with
        | String "u" (String h1 (String h2 (String h3 (String h4 r')))) =>
            match hex_val h1, hex_val h2, hex_val h3, hex_val h4 with
            | Some 0, Some 0, Some a, Some b =>
                scan_string r' (String (ascii_of_nat (16 * a + b)) acc)
            | _, _, _, _ => None
            end
        | String e r' =>
            match simple_escape e with
            | Some x => scan_string r' (String x acc)
            | None => None
            end
        | EmptyString => None
        end
      else if (nat_of_ascii c <? 32)%nat then None
      else scan_string r (String c acc)
  end.

(** A number at the head of [s]: the longest prefix made of an optional
    minus sign, an integer part (a lone 0, or digits not starting with 0),
    an optional fraction (a dot and at least one digit) and an optional
    exponent (e or E, an optional sign, at least one digit). *)
Definition scan_number (s : string) : option (pyval * string) :=
  let '(neg, s0) := match s with String "-" r => (true, r) | _ => (false, s) end in
  let '(ip, r1) :=
    match s0 with
    | String "0" r => ("0", r)
    | _ => Num.span Num.is_digit s0
    end in
  if String.eqb ip EmptyString then None else
  let '(fp, r2) :=
    match r1 with
    | String "." r =>
        let '(f, r') := Num.span Num.is_digit r in
        if String.eqb f EmptyString then (EmptyString, r1) else (f, r')
    | _ => (EmptyString, r1)
    end in
  let '(ex, r3) :=
    match r2 with
    | String c r =>
        if Ascii.eqb c "e" || Ascii.eqb c "E" then
          let '(eneg, r') := Num.read_sign r in
          let '(ds, r'') := Num.span Num.is_digit r' in
          if String.eqb ds EmptyString then (None, r2)
          else (Some (if eneg then (- Num.digits_val ds 0)%Z else Num.digits_val ds 0), r'')
        else (None, r2)
    | EmptyString => (None, r2)
    end in
  match fp, ex with
  | EmptyString, None =>
      let n := Num.digits_val ip 0 in Some (PInt (if neg then (- n)%Z else n), r3)
  | _, _ =>
      Some (PFloat (Num.float_of_decimal neg (Num.digits_val (ip +:+ fp) 0)
                      (default 0%Z ex - Z.of_nat (String.length fp))), r3)
  end.

Definition scan_literal (s : string) : option (pyval * string) :=
  let lit w v :=
    if String.prefix w s then Some (v, drop_s (String.length w) s) else None in
  match lit "null" PNone, lit "true" (PBool true), lit "false" (PBool false),
        lit "NaN" (PFloat nan), lit "Infinity" (PFloat infinity),
        lit "-Infinity" (PFloat neg_infinity) with
  | Some r, _, _, _, _, _ | _, Some r, _, _, _, _ | _, _, Some r, _, _, _
  | _, _, _, Some r, _, _ | _, _, _, _, Some r, _ | _, _, _, _, _, Some r => Some r
  | _, _, _, _, _, _ => None
  end.

(** One value at the head of [s] and the text after it.  [fuel] bounds the
    number of nested calls; the length of the text is enough. *)
Fixpoint value (fuel : nat) (s : string) : option (pyval * string) :=
  match fuel with
  | O => None
  | S fuel' =>
      match s with
      | EmptyString => None
      | String c r =>
          if Ascii.eqb c dquote then
            match scan_string r EmptyString with
            | Some (str, r') => Some (PStr str, r')
            | None => None
            end
          else if Ascii.eqb c "{" then
            match skip_ws r with
            | String "}" r' => Some (PDict [], r')
            | r' => members fuel' r' []
            end
          else if Ascii.eqb c "[" then
            match skip_ws r with
            | String "]" r' => Some (PList [], r')
            | r' => elements fuel' r' []
            end
          else
            match scan_number s with
            | Some res => Some res
            | None => scan_literal s
            end
      end
  end
(** The members of an object from the start of a key on; [acc] is the dict
    built so far (a repeated key keeps its place and takes the later value). *)
with members (fuel : nat) (s : string) (acc : list (string * pyval))
  : option (pyval * string) :=
  match fuel with
  | O => None
  | S fuel' =>
      match s with
      | String c r =>
          if Ascii.eqb c dquote then
            match scan_string r EmptyString with
            | Some (k, r1) =>
                match skip_ws r1 with
                | String ":" r2 =>
                    match value fuel' (skip_ws r2) with
                    | Some (v, r3) =>
                        let acc' := dict_set acc k v in
                        match skip_ws r3 with
                        | String "," r4 => members fuel' (skip_ws r4) acc'
                        | String "}" r4 => Some (PDict acc', r4)
                        | _ => None
                        end
                    | None => None
                    end
                | _ => None
                end
            | None => None
            end
          else None
      | EmptyString => None
      end
  end
(** The elements of an array from the start of a value on; [acc] holds the
    elements read, last one first. *)
with elements (fuel : nat) (s : string) (acc : list pyval)
  : option (pyval * string) :=
  match fuel with
  | O => None
  | S fuel' =>
      match value fuel' s with
      | Some (v, r) =>
          match skip_ws r with
          | String "," r' => elements fuel' (skip_ws r') (v :: acc)
          | String "]" r' => Some (PList (rev (v :: acc)), r')
          | _ => None
          end
      | None => None
      end
  end.

Definition loads (s : string) : outcome pyval :=
  match value (S (String.length s)) (skip_ws s) with
  | Some (v, r) =>
      if String.eqb (skip_ws r) EmptyString then Ret v
      else Raise (JSONDecodeError "Extra data")
  | None => Raise (JSONDecodeError "Expecting value")
  end.

End Json.

(** ** classifiers/ai_analyzer.py *)

Module AIAnalyzer.
Import Py PatternMatcher.
Local Open Scope py_scope.

(** The request of [client.chat.completions.create]. *)
Record ChatRequest : Type := mkChatRequest {
  req_model : string;
  req_system : string;
  req_user : text;
  req_temperature : float;
  req_max_tokens : Z;
  req_top_p : float
}.

(** The reasoning service as the analyzer sees it: the call raises, or
    returns a response, of which the analyzer reads [choices] and each
    choice's [message.content] (a string or [None]). *)
Definition GroqClient : Type := ChatRequest -> outcome (list (option string)).

(** The object.  [client] is [None] when no API key was given. *)
Record t : Type := mk {
  client : option GroqClient;
  model : string
}.

Definition init (groq : option GroqClient) : t :=
  mk groq "llama-3.3-70b-versatile".

Definition is_available (self : t) : bool :=
  match client self with Some _ => true | None => false end.

Definition q (s : string) : string :=
  String Json.dquote s +:+ String Json.dquote EmptyString.

Definition _get_system_prompt : string :=
  "You are an expert SRE (Site Reliability Engineer) analyzing Kubernetes alerts.

Your task is to:
1. Analyze the alert, metrics, and logs provided
2. Determine the root cause
3. Recommend a safe remediation action

Available remediation actions:
- restart: Restart pods (for crashes, memory leaks)
- scale: Scale deployment up/down (for load issues)
- rollback: Rollback to previous version (for bad deployments)
- investigate: Flag for human review (for complex issues)

CRITICAL RULES:
- Always choose the SAFEST action
- If unsure, choose " +:+ q "investigate" +:+ "
- Never recommend destructive actions
- Consider blast radius (impact on users)

Response format (JSON):
{
    " +:+ q "action_type" +:+ ": " +:+ q "restart|scale|rollback|investigate" +:+ ",
    " +:+ q "target" +:+ ": " +:+ q "pod|deployment" +:+ ",
    " +:+ q "confidence" +:+ ": 0.0-1.0,
    " +:+ q "reason" +:+ ": " +:+ q "Clear explanation of root cause and why this action" +:+ ",
    " +:+ q "parameters" +:+ ": {" +:+ q "key" +:+ ": " +:+ q "value" +:+ "}
}

Be concise but thorough. Focus on actionable insights.".

(** [metric.get('name')]: the default of a one-argument [get] is [None]. *)
Fixpoint metric_lines (metrics : list pyval) : outcome text :=
  match metrics with
  | [] => Ret []
  | metric :: rest =>
      n <~ get metric "name" PNone ;;
      v <~ get metric "value" PNone ;;
      ls <~ metric_lines rest ;;
      Ret ([Lit "- "; Fmt n; Lit ": "; Fmt v; Lit "
"] ++ ls)%list
  end.

Definition _build_context (alert : Alert) (recent_metrics : option (list pyval))
    (pod_logs : option string) : outcome text :=
  let labels_ := labels alert in
  let annotations_ := annotations alert in
  let context :=
    [Lit "# ALERT ANALYSIS REQUEST

## Alert Details
- **Name**: "; Lit (get_label labels_ "alertname" "Unknown"); Lit "
- **Severity**: "; Lit (get_label labels_ "severity" "unknown"); Lit "
- **Service**: "; Lit (get_label labels_ "service" "unknown"); Lit "
- **Namespace**: "; Lit (get_label labels_ "namespace" "unknown"); Lit "
- **Fired At**: "; Lit (default "unknown" (startsAt alert)); Lit "

## Description
"; Lit (get_label annotations_ "description" "No description available"); Lit "

## Summary
"; Lit (get_label annotations_ "summary" "No summary available"); Lit "
"] in
  with_metrics <~
    match recent_metrics with
    | Some (m :: ms) =>
        ls <~ metric_lines (take 5 (m :: ms)) ;;
        Ret (context ++ [Lit "
## Recent Metrics (last 15 minutes)
"] ++ ls)%list
    | _ => Ret context
    end ;;
  let with_logs :=
    match pod_logs with
    | Some (String c l) =>
        (with_metrics ++ [Lit "
## Recent Pod Logs (last 50 lines)
```
"; Lit (slice_last 2000 (String c l)); Lit "
```
"])%list
    | _ => with_metrics
    end in
  Ret (with_logs ++ [Lit "
## Your Task
Analyze the above information and provide:
1. Root cause analysis
2. Recommended remediation action
3. Confidence level (0.0-1.0)

Respond ONLY with valid JSON in the format specified in the system prompt.
"])%list.

Section WithDecoder.

(** [json.loads]. *)
Variable json_loads : string -> outcome pyval.

(** The text handed to the decoder: the reply without surrounding blanks,
    and, when it opens with a code fence, what stands between the first
    two fences, without a leading [json]. *)
Definition response_text (ai_response : string) : outcome string :=
  let response_text := strip ai_response in
  response_text <~
    (if startswith response_text "```" then
       match split response_text "```" with
       | _ :: inner :: _ =>
           Ret (if startswith inner "json" then drop_s 4 inner else inner)
       | _ => Raise (IndexError "list index out of range")
       end
     else Ret response_text) ;;
  Ret (strip response_text).

Definition _parse_ai_response (ai_response : string) (alert : Alert)
  : outcome RemediationAction :=
  try_
    (response_text <~ response_text ai_response ;;
     parsed <~ json_loads response_text ;;
     action_type_ <~ get parsed "action_type" (PStr "investigate") ;;
     target_ <~ get parsed "target" (PStr "pod") ;;
     parameters_ <~ get parsed "parameters" (PDict []) ;;
     confidence_raw <~ get parsed "confidence" (PFloat 0.5) ;;
     confidence_ <~ Num.float_of confidence_raw ;;
     reason_ <~ get parsed "reason" (PStr "No reason provided") ;;
     Ret (mkAction action_type_ target_ parameters_ confidence_
            [Lit "AI Analysis: "; Fmt reason_]))
    [ (is_JSONDecodeError, fun e =>
         Ret (mkAction (PStr "investigate") (PStr "pod")
                (PDict [("ai_response", PStr (slice_to 500 ai_response))])
                0.3
                [Lit "AI analysis inconclusive. Response: ";
                 Lit (slice_to 200 ai_response); Lit "..."]));
      (Exception, fun e =>
         Ret (mkAction (PStr "investigate") (PStr "pod") (PDict [])
                0.0
                [Lit "AI analysis error: "; Lit (exn_str e)])) ].

(** [response.choices[0].message.content], then [len(ai_response)] for the
    log line: an empty [choices] and a [None] content both raise. *)
Definition first_content (choices : list (option string)) : outcome string :=
  match choices with
  | [] => Raise (IndexError "list index out of range")
  | None :: _ => Raise (TypeError "object of type 'NoneType' has no len()")
  | Some ai_response :: _ => Ret ai_response
  end.

Definition analyze_alert (self : t) (alert : Alert)
    (recent_metrics : option (list pyval)) (pod_logs : option string)
  : outcome (option RemediationAction) :=
  match client self with
  | None => Ret None
  | Some create =>
      try_
        (context <~ _build_context alert recent_metrics pod_logs ;;
         choices <~ create (mkChatRequest (model self) _get_system_prompt context
                              0.1 1000 0.9) ;;
         ai_response <~ first_content choices ;;
         action <~ _parse_ai_response ai_response alert ;;
         Ret (Some action))
        [ (Exception, fun e => Ret None) ]
  end.

End WithDecoder.

End AIAnalyzer.

(** ** classifiers/hybrid_classifier.py *)

Module HybridClassifier.
Import Py PatternMatcher.
Local Open Scope py_scope.

(** The [stats] dict, a counter per key. *)
Record Stats : Type := mkStats {
  total_alerts : nat;
  rule_based_matches : nat;
  ai_analysis_used : nat;
  auto_executed : nat;
  manual_review : nat
}.

Record t : Type := mk {
  pattern_matcher : PatternMatcher.t;
  ai_analyzer : AIAnalyzer.t;
  stats : Stats
}.

Definition init (groq : option AIAnalyzer.GroqClient) : t :=
  mk PatternMatcher.init (AIAnalyzer.init groq) (mkStats 0 0 0 0 0).

Definition set_stats (f : Stats -> Stats) (self : t) : t :=
  mk (pattern_matcher self) (ai_analyzer self) (f (stats self)).

Definition incr_total_alerts (s : Stats) : Stats :=
  mkStats (S (total_alerts s)) (rule_based_matches s) (ai_analysis_used s)
          (auto_executed s) (manual_review s).
Definition incr_rule_based_matches (s : Stats) : Stats :=
  mkStats (total_alerts s) (S (rule_based_matches s)) (ai_analysis_used s)
          (auto_executed s) (manual_review s).
Definition incr_ai_analysis_used (s : Stats) : Stats :=
  mkStats (total_alerts s) (rule_based_matches s) (S (ai_analysis_used s))
          (auto_executed s) (manual_review s).
Definition incr_auto_executed (s : Stats) : Stats :=
  mkStats (total_alerts s) (rule_based_matches s) (ai_analysis_used s)
          (S (auto_executed s)) (manual_review s).
Definition incr_manual_review (s : Stats) : Stats :=
  mkStats (total_alerts s) (rule_based_matches s) (ai_analysis_used s)
          (auto_executed s) (S (manual_review s)).

(** The action of step 3 of [classify]. *)
Definition manual_investigation : RemediationAction :=
  mkAction (PStr "investigate") (PStr "pod")
    (PDict [("reason", PStr "No pattern match and AI unavailable")])
    0.0
    [Lit "Unable to classify - requires manual investigation"].

Section WithDecoder.

Variable json_loads : string -> outcome pyval.

Definition classify (alert : Alert) (recent_metrics : option (list pyval))
    (pod_logs : option string) : M t RemediationAction :=
  modify (set_stats incr_total_alerts) ;;;
  pm <- gets pattern_matcher ;;
  match PatternMatcher.classify pm alert with
  | Some action =>
      modify (set_stats incr_rule_based_matches) ;;;
      ret action
  | None =>
      ai <- gets ai_analyzer ;;
      from_ai <-
        (if AIAnalyzer.is_available ai then
           modify (set_stats incr_ai_analysis_used) ;;;
           lift (AIAnalyzer.analyze_alert json_loads ai alert recent_metrics pod_logs)
         else ret None) ;;
      match from_ai with
      | Some action => ret action
      | None =>
          modify (set_stats incr_manual_review) ;;;
          ret manual_investigation
      end
  end.

End WithDecoder.

Definition should_auto_execute (action : RemediationAction) (dry_run : bool)
  : M t bool :=
  if dry_run then ret false
  else if eq_str (action_type action) "investigate" then ret false
  else
    pm <- gets pattern_matcher ;;
    let threshold := PatternMatcher.get_confidence_threshold pm in
    let should_execute := (threshold <=? confidence action)%float in
    (if should_execute then modify (set_stats incr_auto_executed) else ret tt) ;;;
    ret should_execute.

(** The dict of [get_stats]: the counters, and the three percentages when
    the dict has them. *)
Record StatsReport : Type := mkStatsReport {
  counters : Stats;
  rule_based_percentage : option float;
  ai_usage_percentage : option float;
  auto_execute_percentage : option float
}.

Definition get_stats (self : t) : outcome StatsReport :=
  let total := total_alerts (stats self) in
  if (total =? 0)%nat then Ret (mkStatsReport (stats self) None None None)
  else
    (rule <~ Num.truediv (rule_based_matches (stats self)) total ;;
     ai <~ Num.truediv (ai_analysis_used (stats self)) total ;;
     auto <~ Num.truediv (auto_executed (stats self)) total ;;
     Ret (mkStatsReport (stats self) (Some (rule * 100)%float)
            (Some (ai * 100)%float) (Some (auto * 100)%float)))%py.

End HybridClassifier.

(** ** remediators/k8s_remediator.py *)

Module KubernetesRemediator.
Import Py PatternMatcher.
Local Open Scope py_scope.

(** *** The cluster as the remediator sees it *)

(** What the code reads of a deployment object, and writes before it sends
    the object back as the body of a patch.  [R] is the type of
    [spec.replicas]: an int in an object read from the API, whatever the
    code computed in a body. *)
Record DeploymentOf (R : Type) : Type := mkDeployment {
  spec_replicas : R;
  template_annotations : option (gmap string string);
  metadata_annotations : option (gmap string string);
  status_available_replicas : option Z;
  status_ready_replicas : option Z;
  status_updated_replicas : option Z
}.
Arguments mkDeployment {R}.
Arguments spec_replicas {R}.
Arguments template_annotations {R}.
Arguments metadata_annotations {R}.
Arguments status_available_replicas {R}.
Arguments status_ready_replicas {R}.
Arguments status_updated_replicas {R}.

Definition Deployment : Type := DeploymentOf Z.
Definition DeploymentBody : Type := DeploymentOf pyval.

(** [deployment.spec.replicas = r]. *)
Definition set_replicas {R R'} (d : DeploymentOf R) (r : R') : DeploymentOf R' :=
  mkDeployment r (template_annotations d) (metadata_annotations d)
    (status_available_replicas d) (status_ready_replicas d)
    (status_updated_replicas d).

(** [deployment.spec.template.metadata.annotations = a]. *)
Definition set_template_annotations {R} (d : DeploymentOf R)
    (a : option (gmap string string)) : DeploymentOf R :=
  mkDeployment (spec_replicas d) a (metadata_annotations d)
    (status_available_replicas d) (status_ready_replicas d)
    (status_updated_replicas d).

Record Condition : Type := mkCondition {
  c_type : string; c_status : string; c_reason : option string
}.

Record ContainerStatus : Type := mkContainerStatus {
  cs_name : string; cs_ready : bool; cs_restart_count : Z
}.

Record Pod : Type := mkPod {
  phase : string;
  conditions : option (list Condition);
  container_statuses : option (list ContainerStatus)
}.

Record Event : Type := mkEvent {
  e_type : string; e_reason : string; e_message : string;
  e_last_timestamp : string
}.

(** A request the remediator sends: a call of [core_v1] or [apps_v1], or the
    [kubectl] command it runs. *)
Inductive request : Type :=
| delete_namespaced_pod (name namespace : string) (grace_period_seconds : pyval)
| read_namespaced_deployment (name namespace : string)
| patch_namespaced_deployment (name namespace : string) (body : DeploymentBody)
| read_namespaced_pod (name namespace : string)
| read_namespaced_pod_log (name namespace : string) (tail_lines : Z)
| list_namespaced_event (namespace : string) (field_selector : text)
| subprocess_run (cmd : list text).

(** The requests that change the cluster. *)
Definition mutating (r : request) : bool :=
  match r with
  | delete_namespaced_pod _ _ _ | patch_namespaced_deployment _ _ _
  | subprocess_run _ => true
  | _ => false
  end.

(** What a request comes back with. *)
Inductive reply : Type :=
| NoContent
| ADeployment (d : Deployment)
| APod (p : Pod)
| ALog (logs : string)
| Events (items : list Event)
| Completed (returncode : Z) (stderr : string).

(** The cluster: its answer to a request, given the requests sent before.
    It may raise anything ([ApiException] for an error of the API, another
    exception when the API cannot be reached or [kubectl] is missing). *)
Definition Cluster : Type := list request -> request -> outcome reply.

(** A reply of another kind than the call returns: the attribute the code
    reads next is missing. *)
Definition bad_reply {A} : outcome A :=
  Raise (AttributeError "object has no such attribute").

(** *** The result dict of an action *)

Record PodStatus : Type := mkPodStatus {
  ps_phase : string;
  ps_conditions : list Condition;
  ps_container_statuses : list ContainerStatus
}.

Record DeploymentInfo : Type := mkDeploymentInfo {
  di_replicas : Z;
  di_available : option Z;
  di_ready : option Z;
  di_updated : option Z
}.

(** [diagnostics["data"]]: a key is present once its fetch succeeded. *)
Record Diagnostics : Type := mkDiagnostics {
  pod_status : option PodStatus;
  recent_logs : option string;
  deployment : option DeploymentInfo;
  events : option (list Event)
}.

(** The dict an action returns; a key the dict does not have is [None]. *)
Record Result : Type := mkResult {
  r_status : string;
  r_message : text;
  r_action : option string;
  r_target : option string;
  r_from : option Z;
  r_to : option pyval;
  r_error : option string;
  r_from_revision : option string;
  r_data : option Diagnostics
}.

Definition result (status : string) (message : text) : Result :=
  mkResult status message None None None None None None None.

Definition with_action (a : string) (r : Result) : Result :=
  mkResult (r_status r) (r_message r) (Some a) (r_target r) (r_from r) (r_to r)
    (r_error r) (r_from_revision r) (r_data r).
Definition with_target (x : string) (r : Result) : Result :=
  mkResult (r_status r) (r_message r) (r_action r) (Some x) (r_from r) (r_to r)
    (r_error r) (r_from_revision r) (r_data r).
Definition with_from_to (a : Z) (b : pyval) (r : Result) : Result :=
  mkResult (r_status r) (r_message r) (r_action r) (r_target r) (Some a) (Some b)
    (r_error r) (r_from_revision r) (r_data r).
Definition with_error (e : string) (r : Result) : Result :=
  mkResult (r_status r) (r_message r) (r_action r) (r_target r) (r_from r) (r_to r)
    (Some e) (r_from_revision r) (r_data r).
Definition with_from_revision (x : string) (r : Result) : Result :=
  mkResult (r_status r) (r_message r) (r_action r) (r_target r) (r_from r) (r_to r)
    (r_error r) (Some x) (r_data r).
Definition with_data (d : Diagnostics) (r : Result) : Result :=
  mkResult (r_status r) (r_message r) (r_action r) (r_target r) (r_from r) (r_to r)
    (r_error r) (r_from_revision r) (Some d).

(** *** The object *)

(** [cluster] stands for the two API clients and the [kubectl] binary,
    [requests] for what was sent through them so far. *)
Record t : Type := mk {
  namespace : string;
  dry_run : bool;
  cluster : Cluster;
  requests : list request;
  actions_taken : list Result
}.

Definition init (namespace_ : string) (dry_run_ : bool) (c : Cluster) : t :=
  mk namespace_ dry_run_ c [] [].

(** Send a request and hand back the cluster's answer. *)
Definition send (r : request) : M t reply :=
  fun self =>
    (cluster self (requests self) r,
     mk (namespace self) (dry_run self) (cluster self)
        (requests self ++ [r])%list (actions_taken self)).

(** [self.actions_taken.append(result)]. *)
Definition append_action (r : Result) : M t unit :=
  modify (fun self =>
    mk (namespace self) (dry_run self) (cluster self) (requests self)
       (actions_taken self ++ [r])%list).

Definition read_deployment (name_ : string) : M t Deployment :=
  ns <- gets namespace ;;
  rep <- send (read_namespaced_deployment name_ ns) ;;
  match rep with ADeployment d => ret d | _ => lift bad_reply end.

(** [if pod_name:] a name that is present and not empty. *)
Definition given (pod_name : option string) : option string :=
  match pod_name with
  | Some (String c s) => Some (String c s)
  | _ => None
  end.

Definition api_error (what : string) (e : exn) : Result :=
  with_error (exn_str e)
    (result "error" [Lit ("Failed to " +:+ what +:+ ": "); Lit (api_reason e)]).

Definition _restart (service_name : string) (pod_name : option string)
    (action : RemediationAction) (now : string) : M t Result :=
  dry <- gets dry_run ;;
  if dry then
    ret (with_action "restart"
           (result "dry_run" [Lit "Would restart pod(s) for "; Lit service_name]))
  else
    try_M
      (ns <- gets namespace ;;
       res <-
         match given pod_name with
         | Some pod_name =>
             grace <- lift (get (parameters action) "grace_period" (PInt 30)) ;;
             send (delete_namespaced_pod pod_name ns grace) ;;;
             ret (with_target pod_name (with_action "restart"
                    (result "success" [Lit "Restarted pod "; Lit pod_name])))
         | None =>
             let deployment_name := service_name in
             deployment <- read_deployment deployment_name ;;
             let annotations_ := default ∅ (template_annotations deployment) in
             let body :=
               set_template_annotations
                 (set_replicas deployment (PInt (spec_replicas deployment)))
                 (Some (<["kubectl.kubernetes.io/restartedAt" := now]> annotations_)) in
             send (patch_namespaced_deployment deployment_name ns body) ;;;
             ret (with_target deployment_name (with_action "restart"
                    (result "success"
                       [Lit "Triggered rolling restart of "; Lit deployment_name])))
         end ;;
       append_action res ;;;
       ret res)
      [ (is_ApiException, fun e => ret (api_error "restart" e)) ].

Definition _scale (service_name : string) (action : RemediationAction)
  : M t Result :=
  let deployment_name := service_name in
  direction <- lift (get (parameters action) "direction" (PStr "up")) ;;
  increment <- lift (get (parameters action) "increment" (PInt 1)) ;;
  to_spec <- lift (get (parameters action) "to_spec" (PBool false)) ;;
  dry <- gets dry_run ;;
  if dry then
    ret (with_action "scale"
           (result "dry_run"
              [Lit "Would scale "; Lit deployment_name; Lit " "; Fmt direction;
               Lit " by "; Fmt increment]))
  else
    try_M
      (ns <- gets namespace ;;
       deployment <- read_deployment deployment_name ;;
       let current_replicas := spec_replicas deployment in
       let spec_replicas_ := spec_replicas deployment in
       new_replicas <- lift
         (if truthy to_spec then Ret (PInt spec_replicas_)
          else if eq_str direction "up" then int_add current_replicas increment
          else (d <~ int_sub current_replicas increment ;; max_1 d)) ;;
       send (patch_namespaced_deployment deployment_name ns
               (set_replicas deployment new_replicas)) ;;;
       let res :=
         with_from_to current_replicas new_replicas
           (with_target deployment_name (with_action "scale"
              (result "success"
                 [Lit "Scaled "; Lit deployment_name; Lit " from ";
                  Fmt (PInt current_replicas); Lit " to "; Fmt new_replicas]))) in
       append_action res ;;;
       ret res)
      [ (is_ApiException, fun e => ret (api_error "scale" e)) ].

Definition _rollback (service_name : string) (action : RemediationAction)
  : M t Result :=
  let deployment_name := service_name in
  revisions_back <- lift (get (parameters action) "revisions_back" (PInt 1)) ;;
  dry <- gets dry_run ;;
  if dry then
    ret (with_action "rollback"
           (result "dry_run"
              [Lit "Would rollback "; Lit deployment_name; Lit " by ";
               Fmt revisions_back; Lit " revision(s)"]))
  else
    try_M
      (ns <- gets namespace ;;
       deployment <- read_deployment deployment_name ;;
       current_revision <- lift
         match metadata_annotations deployment with
         | Some a => Ret (get_label a "deployment.kubernetes.io/revision" "1")
         | None => Raise (AttributeError "'NoneType' object has no attribute 'get'")
         end ;;
       rev <- lift (Num.int_of_string current_revision) ;;
       to_revision <- lift (int_sub rev revisions_back) ;;
       let cmd :=
         [ [Lit "kubectl"]; [Lit "rollout"]; [Lit "undo"];
           [Lit "deployment/"; Lit deployment_name];
           [Lit "-n"]; [Lit ns];
           [Lit "--to-revision="; Fmt to_revision] ] in
       rep <- send (subprocess_run cmd) ;;
       match rep with
       | Completed returncode stderr =>
           if (returncode =? 0)%Z then
             let result_dict :=
               with_from_revision current_revision
                 (with_target deployment_name (with_action "rollback"
                    (result "success"
                       [Lit "Rolled back "; Lit deployment_name; Lit " by ";
                        Fmt revisions_back; Lit " revision(s)"]))) in
             append_action result_dict ;;;
             ret result_dict
           else raise (OtherError "Exception" stderr)
       | _ => lift bad_reply
       end)
      [ (Exception, fun e =>
           ret (with_error (exn_str e)
                  (result "error" [Lit "Failed to rollback: "; Lit (exn_str e)]))) ].

Definition with_pod_status (x : PodStatus) (d : Diagnostics) : Diagnostics :=
  mkDiagnostics (Some x) (recent_logs d) (deployment d) (events d).
Definition with_recent_logs (x : string) (d : Diagnostics) : Diagnostics :=
  mkDiagnostics (pod_status d) (Some x) (deployment d) (events d).
Definition with_deployment (x : DeploymentInfo) (d : Diagnostics) : Diagnostics :=
  mkDiagnostics (pod_status d) (recent_logs d) (Some x) (events d).
Definition with_events (x : list Event) (d : Diagnostics) : Diagnostics :=
  mkDiagnostics (pod_status d) (recent_logs d) (deployment d) (Some x).

Definition _investigate (service_name : string) (pod_name : option string)
    (action : RemediationAction) : M t Result :=
  let data := mkDiagnostics None None None None in
  try_M
    (ns <- gets namespace ;;
     data <-
       match given pod_name with
       | Some pod_name =>
           rep <- send (read_namespaced_pod pod_name ns) ;;
           pod <- match rep with APod p => ret p | _ => lift bad_reply end ;;
           let data :=
             with_pod_status
               (mkPodStatus (phase pod) (default [] (conditions pod))
                  (default [] (container_statuses pod))) data in
           try_M
             (rep <- send (read_namespaced_pod_log pod_name ns 50) ;;
              match rep with
              | ALog logs => ret (with_recent_logs logs data)
              | _ => lift bad_reply
              end)
             [ (Exception, fun _ => ret data) ]
       | None => ret data
       end ;;
     let deployment_name := service_name in
     data <-
       try_M
         (deployment <- read_deployment deployment_name ;;
          ret (with_deployment
                 (mkDeploymentInfo (spec_replicas deployment)
                    (status_available_replicas deployment)
                    (status_ready_replicas deployment)
                    (status_updated_replicas deployment)) data))
         [ (Exception, fun _ => ret data) ] ;;
     data <-
       try_M
         (rep <- send (list_namespaced_event ns
                         [Lit "involvedObject.name=";
                          Lit (default deployment_name (given pod_name))]) ;;
          match rep with
          | Events items => ret (with_events (take 10 items) data)
          | _ => lift bad_reply
          end)
         [ (Exception, fun _ => ret data) ] ;;
     ret (with_data data (with_action "investigate"
            (result "investigation"
               [Lit "Gathered diagnostic data - requires manual review"]))))
    [ (Exception, fun e =>
         ret (with_error (exn_str e)
                (result "error"
                   [Lit "Failed to gather diagnostics: "; Lit (exn_str e)]))) ].

(** [now] is what [time.strftime] returns, should the action read the
    clock. *)
Definition execute (action : RemediationAction) (alert : Alert) (now : string)
  : M t Result :=
  let service_name := get_label (labels alert) "service" "unknown" in
  let pod_name := labels alert !! "pod" in
  if eq_str (action_type action) "restart" then
    _restart service_name pod_name action now
  else if eq_str (action_type action) "scale" then
    _scale service_name action
  else if eq_str (action_type action) "rollback" then
    _rollback service_name action
  else if eq_str (action_type action) "investigate" then
    _investigate service_name pod_name action
  else
    ret (result "error" [Lit "Unknown action type: "; Fmt (action_type action)]).

Definition get_action_history (self : t) : list Result := actions_taken self.

(** [sum(1 for a in self.actions_taken if a.get("action") == kind)]. *)
Definition count_actions (kind : string) (taken : list Result) : nat :=
  length (filter (fun a => r_action a = Some kind) taken).

(** The dict of [get_stats]. *)
Record RemediationStats : Type := mkRemediationStats {
  total_actions : nat;
  restart_actions : nat;
  scale_actions : nat;
  rollback_actions : nat;
  dry_run_mode : bool
}.

Definition get_stats (self : t) : RemediationStats :=
  mkRemediationStats (length (actions_taken self))
    (count_actions "restart" (actions_taken self))
    (count_actions "scale" (actions_taken self))
    (count_actions "rollback" (actions_taken self))
    (dry_run self).

End KubernetesRemediator.

(** ** notifiers/slack_notifier.py *)

Module SlackNotifier.
Import Py PatternMatcher.
Local Open Scope py_scope.

(** The message of [_build_alert_message], by the data it carries; the
    layout in blocks, the emoji and the time stamp of the message are left
    out.  [msg_action_type] is the string whose upper case the message
    shows, [msg_executed] the block of an executed action: whether its
    status is [success], and its message. *)
Record Message : Type := mkMessage {
  msg_color : string;
  msg_alertname : string;
  msg_severity : string;
  msg_service : string;
  msg_namespace : string;
  msg_description : string;
  msg_action_type : string;
  msg_confidence : float;
  msg_reason : text;
  msg_executed : option (bool * text);
  msg_runbook : option string
}.

(** [requests.post(webhook_url, json=message, timeout=5)]: the status code
    of the response, or an exception. *)
Definition Webhook : Type := Message -> outcome Z.

Record t : Type := mk {
  webhook : option Webhook;
  notifications_sent : nat;
  notifications_failed : nat
}.

Definition init (w : option Webhook) : t := mk w 0 0.

Definition is_enabled (self : t) : bool :=
  match webhook self with Some _ => true | None => false end.

(** [emoji_map.get(action.action_type, ...)] hashes the action type, then
    [action.action_type.upper()] needs a string. *)
Definition action_label (action_type_ : pyval) : outcome string :=
  match action_type_ with
  | PStr s => Ret s
  | PList _ | PDict _ =>
      Raise (TypeError ("unhashable type: '" +:+ type_name action_type_ +:+ "'"))
  | _ => Raise (AttributeError
                  ("'" +:+ type_name action_type_
                   +:+ "' object has no attribute 'upper'"))
  end.

Definition _build_alert_message (alert : Alert) (action : RemediationAction)
    (execution_result : option KubernetesRemediator.Result) (auto_executed : bool)
  : outcome Message :=
  let labels_ := labels alert in
  let annotations_ := annotations alert in
  let severity := get_label labels_ "severity" "warning" in
  let color :=
    if String.eqb severity "critical" then "#dc3545"
    else if String.eqb severity "warning" then "#ffc107"
    else if String.eqb severity "info" then "#17a2b8"
    else "#6c757d" in
  label <~ action_label (action_type action) ;;
  let executed :=
    match auto_executed, execution_result with
    | true, Some r =>
        Some (String.eqb (KubernetesRemediator.r_status r) "success",
              KubernetesRemediator.r_message r)
    | _, _ => None
    end in
  let runbook :=
    match annotations_ !! "runbook" with
    | Some (String c s) => Some (String c s)
    | _ => None
    end in
  Ret (mkMessage color (get_label labels_ "alertname" "Unknown") severity
         (get_label labels_ "service" "Unknown")
         (get_label labels_ "namespace" "Unknown")
         (get_label annotations_ "description" "No description")
         label (confidence action) (reason action) executed runbook).

Definition count_sent (self : t) : t :=
  mk (webhook self) (S (notifications_sent self)) (notifications_failed self).
Definition count_failed (self : t) : t :=
  mk (webhook self) (notifications_sent self) (S (notifications_failed self)).

Definition _send (post : Webhook) (message : Message) : M t bool :=
  try_M
    (status_code <- lift (post message) ;;
     if (status_code =? 200)%Z then modify count_sent ;;; ret true
     else modify count_failed ;;; ret false)
    [ (Exception, fun e => modify count_failed ;;; ret false) ].

Definition send_alert_notification (alert : Alert) (action : RemediationAction)
    (execution_result : option KubernetesRemediator.Result) (auto_executed : bool)
  : M t bool :=
  w <- gets webhook ;;
  match w with
  | None => ret false
  | Some post =>
      message <- lift (_build_alert_message alert action execution_result
                         auto_executed) ;;
      _send post message
  end.

(** The dict of [get_stats].  [success_rate] is the int 0 as long as nothing
    was sent or failed, a float after that. *)
Record NotificationStats : Type := mkNotificationStats {
  stats_enabled : bool;
  stats_sent : nat;
  stats_failed : nat;
  success_rate : pyval
}.

Definition get_stats (self : t) : outcome NotificationStats :=
  let sent := notifications_sent self in
  let failed := notifications_failed self in
  (rate <~
     (if (0 <? sent + failed)%nat
      then (ratio <~ Num.truediv sent (sent + failed) ;;
            Ret (PFloat (ratio * 100)%float))
      else Ret (PInt (0 * 100))) ;;
   Ret (mkNotificationStats (is_enabled self) sent failed rate))%py.

End SlackNotifier.

(** ** main.py *)

Module Main.
Import Py PatternMatcher.
Local Open Scope py_scope.

(** [alert_entry["action"]]. *)
Record ActionSummary : Type := mkActionSummary {
  s_type : pyval;
  s_confidence : float;
  s_auto_executed : bool;
  s_result : option KubernetesRemediator.Result
}.

(** An entry of [alert_history]; the keys [action] and [error] are set when
    the processing ends. *)
Record AlertHistoryEntry : Type := mkAlertEntry {
  a_alert : Alert;
  a_timestamp : string;
  a_status : string;
  a_action : option ActionSummary;
  a_error : option string
}.

(** An entry of [action_history]. *)
Record ActionHistoryEntry : Type := mkActionEntry {
  h_alert : string;
  h_action : pyval;
  h_result : KubernetesRemediator.Result;
  h_timestamp : string
}.

(** The module's globals. *)
Record t : Type := mk {
  DRY_RUN : bool;
  classifier : HybridClassifier.t;
  remediator : KubernetesRemediator.t;
  notifier : SlackNotifier.t;
  alert_history : list AlertHistoryEntry;
  action_history : list ActionHistoryEntry
}.

(** The start of the process: the remediator gets the same dry-run flag. *)
Definition init (dry : bool) (namespace_ : string)
    (groq : option AIAnalyzer.GroqClient) (c : KubernetesRemediator.Cluster)
    (w : option SlackNotifier.Webhook) : t :=
  mk dry (HybridClassifier.init groq)
     (KubernetesRemediator.init namespace_ dry c)
     (SlackNotifier.init w) [] [].

(** A method of one of the three objects, run on the globals. *)
Definition on_classifier {A} (c : M HybridClassifier.t A) : M t A :=
  fun g => let '(r, x) := c (classifier g) in
           (r, mk (DRY_RUN g) x (remediator g) (notifier g)
                  (alert_history g) (action_history g)).
Definition on_remediator {A} (c : M KubernetesRemediator.t A) : M t A :=
  fun g => let '(r, x) := c (remediator g) in
           (r, mk (DRY_RUN g) (classifier g) x (notifier g)
                  (alert_history g) (action_history g)).
Definition on_notifier {A} (c : M SlackNotifier.t A) : M t A :=
  fun g => let '(r, x) := c (notifier g) in
           (r, mk (DRY_RUN g) (classifier g) (remediator g) x
                  (alert_history g) (action_history g)).

(** [alert_history.append(alert_entry)]: the entry is the one at the index
    returned, where the later assignments to [alert_entry] find it. *)
Definition append_alert (e : AlertHistoryEntry) : M t nat :=
  fun g => (Ret (length (alert_history g)),
            mk (DRY_RUN g) (classifier g) (remediator g) (notifier g)
               (alert_history g ++ [e])%list (action_history g)).

Definition update_alert (i : nat) (f : AlertHistoryEntry -> AlertHistoryEntry)
  : M t unit :=
  modify (fun g =>
    mk (DRY_RUN g) (classifier g) (remediator g) (notifier g)
       (alter f i (alert_history g)) (action_history g)).

Definition append_action (e : ActionHistoryEntry) : M t unit :=
  modify (fun g =>
    mk (DRY_RUN g) (classifier g) (remediator g) (notifier g)
       (alert_history g) (action_history g ++ [e])%list).

Definition completed (s : ActionSummary) (e : AlertHistoryEntry)
  : AlertHistoryEntry :=
  mkAlertEntry (a_alert e) (a_timestamp e) "completed" (Some s) (a_error e).

Definition failed (msg : string) (e : AlertHistoryEntry) : AlertHistoryEntry :=
  mkAlertEntry (a_alert e) (a_timestamp e) "failed" (a_action e) (Some msg).

(** The dict [process_alert] returns. *)
Inductive Processed : Type :=
| Done (alert : string) (action : pyval) (confidence : float)
       (auto_executed : bool) (execution_result : option KubernetesRemediator.Result)
| Error (alert : string) (error : string).

(** The readings of the clock during one call, each taken at most once. *)
Record Clock : Type := mkClock {
  at_receipt : string;
  at_restart : string;
  at_execution : string
}.

(** *** The body of a request to [webhook], as [request.json] gives it *)

(** A JSON value that is no object and has no length: [null], a bool or a
    number. *)
Inductive Atom : Type :=
| Null
| Boolean (b : bool)
| Integer (z : Z)
| Real (f : float).

(** A JSON value that is no object. *)
Inductive NonObject : Type :=
| Atomic (a : Atom)
| Str (s : string)
| Array (items : list pyval).

Definition atom_value (a : Atom) : pyval :=
  match a with
  | Null => PNone
  | Boolean b => PBool b
  | Integer z => PInt z
  | Real f => PFloat f
  end.

Definition value_of (v : NonObject) : pyval :=
  match v with
  | Atomic a => atom_value a
  | Str s => PStr s
  | Array items => PList items
  end.

(** What [process_alert] is called with: an alert as [Alert] has it (an
    object whose labels and annotations are mappings of strings, an absent
    mapping being the empty one), a value that is no object, or an object
    whose [labels] are no object.  (An object whose labels or annotations
    hold a value that is no string, or whose annotations are no object, is
    not among them.) *)
Inductive RawAlert : Type :=
| AnAlert (alert : Alert)
| NoObject (v : NonObject)
| LabelsNoObject (labels_ : NonObject).

(** The value of the key [alerts]: a list, a string, an object (of which
    the loop sees the keys) or a value without length. *)
Inductive AlertsValue : Type :=
| AlertList (items : list RawAlert)
| AlertString (s : string)
| AlertObject (keys : list string)
| AlertAtom (a : Atom).

(** The body: a JSON object, of which the code reads the key [alerts]
    ([others] says whether the object has more keys), or a value that is no
    object. *)
Inductive Payload : Type :=
| Object (others : bool) (alerts : option AlertsValue)
| NotAnObject (v : NonObject).

(** [if not payload]: a dict is true when it has a key. *)
Definition payload_truthy (payload : Payload) : bool :=
  match payload with
  | Object others alerts => others || bool_decide (is_Some alerts)
  | NotAnObject v => truthy (value_of v)
  end.

(** The exception of [v.get] for a [v] that is no dict. *)
Definition no_get (v : pyval) : exn :=
  AttributeError ("'" +:+ type_name v +:+ "' object has no attribute 'get'").

(** [payload.get("alerts", [])]. *)
Definition payload_alerts (payload : Payload) : outcome AlertsValue :=
  match payload with
  | Object _ alerts => Ret (default (AlertList []) alerts)
  | NotAnObject v => Raise (no_get (value_of v))
  end.

(** [len(alerts)], an argument of the log line. *)
Definition len (alerts : AlertsValue) : outcome nat :=
  match alerts with
  | AlertList items => Ret (length items)
  | AlertString s => Ret (String.length s)
  | AlertObject keys => Ret (length keys)
  | AlertAtom a =>
      Raise (TypeError ("object of type '" +:+ type_name (atom_value a)
                        +:+ "' has no len()"))
  end.

(** What [for alert in alerts] goes through: the items of a list, the
    characters of a string, the keys of an object. *)
Definition iterate (alerts : AlertsValue) : outcome (list RawAlert) :=
  match alerts with
  | AlertList items => Ret items
  | AlertString s =>
      Ret (map (fun c => NoObject (Str (String c EmptyString)))
             (list_ascii_of_string s))
  | AlertObject keys => Ret (map (fun k => NoObject (Str k)) keys)
  | AlertAtom a =>
      Raise (TypeError ("'" +:+ type_name (atom_value a)
                        +:+ "' object is not iterable"))
  end.

(** What [webhook] answers with, beside the status code. *)
Inductive Body : Type :=
| ProcessedAlerts (alerts_processed : nat) (results : list Processed)
| Failure (error : string).

Section WithDecoder.

Variable json_loads : string -> outcome pyval.

Definition process_alert (alert : Alert) (clock : Clock) : M t Processed :=
  let alert_name_ := get_label (labels alert) "alertname" "Unknown" in
  alert_entry <- append_alert
    (mkAlertEntry alert (at_receipt clock) "processing" None None) ;;
  try_M
    (action <- on_classifier (HybridClassifier.classify json_loads alert None None) ;;
     dry <- gets DRY_RUN ;;
     should_auto <- on_classifier (HybridClassifier.should_auto_execute action dry) ;;
     execution_result <-
       (if should_auto then
          r <- on_remediator
                 (KubernetesRemediator.execute action alert (at_restart clock)) ;;
          append_action
            (mkActionEntry alert_name_ (action_type action) r (at_execution clock)) ;;;
          ret (Some r)
        else ret None) ;;
     on_notifier (SlackNotifier.send_alert_notification alert action
                    execution_result should_auto) ;;;
     update_alert alert_entry
       (completed (mkActionSummary (action_type action) (confidence action)
                     should_auto execution_result)) ;;;
     ret (Done alert_name_ (action_type action) (confidence action)
            should_auto execution_result))
    [ (Exception, fun e =>
         update_alert alert_entry (failed (exn_str e)) ;;;
         ret (Error alert_name_ (exn_str e))) ].

(** [process_alert] on what the payload holds.  The first statement,
    [alert.get("labels", {}).get("alertname", "Unknown")], stands before
    the [try] and before the entry is made: it raises for a value that is
    no object and for labels that are no object. *)
Definition process_raw_alert (raw : RawAlert) (clock : Clock) : M t Processed :=
  match raw with
  | AnAlert alert => process_alert alert clock
  | NoObject v => raise (no_get (value_of v))
  | LabelsNoObject labels_ => raise (no_get (value_of labels_))
  end.

(** The loop of [webhook]: the alerts in the order of the payload, the
    [i]-th with the clock readings [clocks i]. *)
Fixpoint process_each (alerts : list RawAlert) (clocks : nat -> Clock) (i : nat)
  : M t (list Processed) :=
  match alerts with
  | [] => ret []
  | alert :: rest =>
      result <- process_raw_alert alert (clocks i) ;;
      results <- process_each rest clocks (S i) ;;
      ret (result :: results)
  end.

(** [request_json] is what reading [request.json] gives: the body, or the
    exception of a body that cannot be read as JSON. *)
Definition webhook (request_json : outcome Payload) (clocks : nat -> Clock)
  : M t (Body * Z) :=
  try_M
    (payload <- lift request_json ;;
     if negb (payload_truthy payload) then
       ret (Failure "Empty payload", 400%Z)
     else
       alerts <- lift (payload_alerts payload) ;;
       lift (len alerts) ;;;
       alerts <- lift (iterate alerts) ;;
       results <- process_each alerts clocks 0 ;;
       ret (ProcessedAlerts (length results) results, 200%Z))
    [ (Exception, fun e => ret (Failure (exn_str e), 500%Z)) ].

End WithDecoder.

(** The dict of [get_alerts] and of [get_actions]: the entries shown, and
    [total]. *)
Record Page (A : Type) : Type := mkPage {
  shown : list A;
  total : nat
}.
Arguments mkPage {A}.
Arguments shown {A}.
Arguments total {A}.

(** [limit] is the int that [request.args.get("limit", 50, type=int)] reads
    from the query string, when there is one. *)
Definition get_alerts (limit : option Z) (g : t) : Page AlertHistoryEntry * Z :=
  let limit := default 50%Z limit in
  (mkPage (slice_from_minus limit (alert_history g)) (length (alert_history g)),
   200%Z).

Definition get_actions (limit : option Z) (g : t) : Page ActionHistoryEntry * Z :=
  let limit := default 50%Z limit in
  (mkPage (slice_from_minus limit (action_history g)) (length (action_history g)),
   200%Z).

End Main.

(** ** utils/prometheus_client.py *)

Module PrometheusClient.
Import Py.
Local Open Scope py_scope.

(** The response of [requests.get]: its status code, and what
    [response.json()] gives. *)
Record Response : Type := mkResponse {
  status_code : Z;
  json : outcome pyval
}.

(** The HTTP endpoint: the response to a GET of an address with the
    parameter [query], or an exception. *)
Definition Http : Type := string -> string -> outcome Response.

Record t : Type := mk {
  url : string;
  http : Http
}.

Definition init (http_ : Http) : t :=
  mk "http://prometheus-kube-prometheus-prometheus.monitoring:9090" http_.

(** The result of the query, [None] when the query failed. *)
Definition query (self : t) (query_ : string) : outcome pyval :=
  try_
    (response <~ http self (url self +:+ "/api/v1/query") query_ ;;
     if (status_code response =? 200)%Z then json response
     else Ret PNone)
    [ (Exception, fun e => Ret PNone) ].

Definition error_rate_query (service namespace : string) : string :=
  "
        sum(rate(http_requests_total{service=" +:+ AIAnalyzer.q service
  +:+ ",namespace=" +:+ AIAnalyzer.q namespace
  +:+ ",status=~" +:+ AIAnalyzer.q "5.." +:+ "}[5m]))
        /
        sum(rate(http_requests_total{service=" +:+ AIAnalyzer.q service
  +:+ ",namespace=" +:+ AIAnalyzer.q namespace +:+ "}[5m]))
        * 100
        ".

Definition cpu_query (service namespace : string) : string :=
  "
        sum(rate(container_cpu_usage_seconds_total{namespace="
  +:+ AIAnalyzer.q namespace +:+ ",pod=~" +:+ AIAnalyzer.q (service +:+ ".*")
  +:+ "}[5m]))
        ".

(** [result.get("data", {}).get("result", [{}])[0].get("value", [None, "0"])[1]]. *)
Definition sample_value (result : pyval) : outcome pyval :=
  data <~ get result "data" (PDict []) ;;
  series <~ get data "result" (PList [PDict []]) ;;
  first <~ index series 0 ;;
  value <~ get first "value" (PList [PNone; PStr "0"]) ;;
  index value 1.

Definition metric (name value : pyval) : pyval :=
  PDict [("name", name); ("value", value)].

Definition get_service_metrics (self : t) (service namespace : string)
  : outcome (list pyval) :=
  let metrics := [] in
  result <~ query self (error_rate_query service namespace) ;;
  metrics <~
    (if truthy result then
       value <~ sample_value result ;;
       Ret (metrics ++ [metric (PStr "error_rate") value])%list
     else Ret metrics) ;;
  result <~ query self (cpu_query service namespace) ;;
  metrics <~
    (if truthy result then
       value <~ sample_value result ;;
       Ret (metrics ++ [metric (PStr "cpu_usage") value])%list
     else Ret metrics) ;;
  Ret metrics.

End PrometheusClient.

(** ** Test doubles, for running the code on concrete inputs *)

Module Scenario.
Import Py PatternMatcher.

(** JSON text is written with ['] for the quote character. *)
Fixpoint json (s : string) : string :=
  match s with
  | String c r => String (if Ascii.eqb c "'" then Json.dquote else c) (json r)
  | EmptyString => EmptyString
  end.

Definition alert_named (alertname description service : string) : Alert :=
  mkAlert {[ "alertname" := alertname; "service" := service ]}
          {[ "description" := description ]} None.

Definition clock : Main.Clock :=
  Main.mkClock "2024-01-15T10:30:00" "2024-01-15T10:30:01Z" "2024-01-15T10:30:02".

(** A deployment with this replica count and nothing else set. *)
Definition deployment_with (replicas : Z) : KubernetesRemediator.Deployment :=
  KubernetesRemediator.mkDeployment replicas None (Some ∅) None None None.

Definition not_found : exn := ApiException 404 "Not Found" "(404) Reason: Not Found".

(** A patch that was accepted replaces the deployment. *)
Definition apply_request (ds : gmap string KubernetesRemediator.Deployment)
    (r : KubernetesRemediator.request) : gmap string KubernetesRemediator.Deployment :=
  match r with
  | KubernetesRemediator.patch_namespaced_deployment name _ body =>
      match ds !! name, KubernetesRemediator.spec_replicas body with
      | Some _, PInt n =>
          if (0 <=? n)%Z then <[name := KubernetesRemediator.set_replicas body n]> ds
          else ds
      | _, _ => ds
      end
  | _ => ds
  end.

(** A cluster that starts with the deployments [ds0] and no pod: it answers
    from the deployments as the accepted patches left them, refuses a
    replica count that is not a natural number, and knows no [kubectl]. *)
Definition cluster_of (ds0 : gmap string KubernetesRemediator.Deployment)
  : KubernetesRemediator.Cluster :=
  fun history r =>
    let ds := foldl apply_request ds0 history in
    match r with
    | KubernetesRemediator.read_namespaced_deployment name _ =>
        match ds !! name with
        | Some d => Ret (KubernetesRemediator.ADeployment d)
        | None => Raise not_found
        end
    | KubernetesRemediator.patch_namespaced_deployment name _ body =>
        match ds !! name, KubernetesRemediator.spec_replicas body with
        | Some _, PInt n =>
            if (0 <=? n)%Z then Ret KubernetesRemediator.NoContent
            else Raise (ApiException 422 "Unprocessable Entity" "(422)")
        | Some _, _ => Raise (ApiException 400 "Bad Request" "(400)")
        | None, _ => Raise not_found
        end
    | KubernetesRemediator.list_namespaced_event _ _ =>
        Ret (KubernetesRemediator.Events [])
    | KubernetesRemediator.subprocess_run _ =>
        Raise (OtherError "FileNotFoundError"
                 "[Errno 2] No such file or directory: 'kubectl'")
    | _ => Raise not_found
    end.

(** A reasoning service that answers every request with [reply]. *)
Definition groq_replying (reply : string) : AIAnalyzer.GroqClient :=
  fun _ => Ret [Some reply].

(** A reasoning service that cannot be reached. *)
Definition groq_down : AIAnalyzer.GroqClient :=
  fun _ => Raise (OtherError "APIConnectionError" "Connection error.").

(** The agent at its start, on a cluster with one deployment. *)
Definition agent (dry : bool) (groq : option AIAnalyzer.GroqClient)
    (service : string) (replicas : Z) : Main.t :=
  Main.init dry "helix-dev" groq
    (cluster_of {[ service := deployment_with replicas ]}) None.

(** An alert no rule of the table matches, and the agent with a reasoner
    that answers [reply]. *)
Definition odd_alert : Alert := alert_named "Odd" "nothing known" "svc".

Definition agent_replying (reply : string) : Main.t :=
  agent false (Some (groq_replying reply)) "svc" 2.

(** *** The inputs of the counterexamples and witnesses *)

(** The alert of the counterexample to C3: the name of the second rule and
    a description the first rule's pattern is found in. *)
Definition service_down_in_crash_loop : Alert :=
  alert_named "ServiceDown" "pod in crash loop" "svc".

(** The action of the counterexample to C2: direction [down], with
    [to_spec] set. *)
Definition scale_down_to_spec : RemediationAction :=
  mkAction (PStr "scale") (PStr "deployment")
    (PDict [("direction", PStr "down"); ("to_spec", PBool true)])
    0.9 [Lit "scale down to the specified count"].

(** The executor of the counterexample to C2: a deployment scaled to 0. *)
Definition no_replicas : KubernetesRemediator.t :=
  KubernetesRemediator.init "helix-dev" false
    (cluster_of {[ "svc" := deployment_with 0 ]}).

(** The scale action of the rule [high_cpu], and an executor in dry run. *)
Definition scale_up_by_one : RemediationAction :=
  mkAction (PStr "scale") (PStr "deployment")
    (PDict [("direction", PStr "up"); ("increment", PInt 1)])
    0.85 [Lit "High CPU usage - scale horizontally"].


(** The executor and the action of the witness of the amended C2: 3
    replicas, and a scale down by 5. *)
Definition three_replicas : KubernetesRemediator.t :=
  KubernetesRemediator.init "helix-dev" false
    (cluster_of {[ "svc" := deployment_with 3 ]}).

(** The alert and the two deployments of the scenario of C8.  The code reads
    one replica count, [spec.replicas]: in [two_replicas] it is the 2 the
    scenario calls current; in [two_of_five] it is the 5 the scenario calls
    specified, and the status reports 2 replicas. *)
Definition too_few_replicas : Alert :=
  alert_named "TooFewReplicas" "fewer replicas than specified" "svc".

Definition two_replicas : KubernetesRemediator.t :=
  KubernetesRemediator.init "helix-dev" false
    (cluster_of {[ "svc" := deployment_with 2 ]}).

Definition two_of_five : KubernetesRemediator.t :=
  KubernetesRemediator.init "helix-dev" false
    (cluster_of {[ "svc" := KubernetesRemediator.mkDeployment 5%Z None (Some ∅)
                              (Some 2%Z) (Some 2%Z) (Some 2%Z) ]}).

Definition scale_down_by_five : RemediationAction :=
  mkAction (PStr "scale") (PStr "deployment")
    (PDict [("direction", PStr "down"); ("increment", PInt 5)])
    0.9 [Lit "scale down"].

(** A scale action as the reasoner can return it: the increment is the
    string ["2"]. *)
Definition scale_by_string : RemediationAction :=
  mkAction (PStr "scale") (PStr "deployment")
    (PDict [("increment", PStr "2")])
    0.9 [Lit "AI Analysis: "; Fmt (PStr "load is high")].

(** The reply of the counterexample to C5: a JSON object without the keys
    [action_type], [confidence], [reason] and [parameters]. *)
Definition reply_without_keys : string := json "{'target': 'pod'}".

(** A reply of the reasoner that recommends a scale by the string ["2"]. *)
Definition reply_scale_by_string : string :=
  json ("{'action_type': 'scale', 'target': 'deployment', 'confidence': 0.9, "
        +:+ "'reason': 'load is high', 'parameters': {'increment': '2'}}").

(** The reply of the counterexample to C10: JSON, with an action type and a
    confidence that [float] refuses. *)
Definition reply_null_confidence : string :=
  json "{'action_type': 'restart', 'confidence': null}".

(** A reply that names an action type outside the four. *)
Definition reply_delete_namespace : string :=
  json "{'action_type': 'delete_namespace', 'confidence': 0.95}".

(** *** Inputs of the properties beyond the scenarios *)

(** An alert that names its pod. *)
Definition crash_looping_pod : Alert :=
  mkAlert {[ "alertname" := "PodCrashLooping"; "service" := "svc";
             "pod" := "svc-7d9f" ]}
          {[ "description" := "pod svc-7d9f is in a crash loop" ]} None.

(** The actions of the rules [pod_crash_loop], [service_down] and
    [high_error_rate]. *)
Definition restart_pod : RemediationAction :=
  mkAction (PStr "restart") (PStr "pod") (PDict [("grace_period", PInt 30)])
    0.95 [Lit "Pod is crash looping - restart with fresh state"].

Definition restart_deployment : RemediationAction :=
  mkAction (PStr "restart") (PStr "deployment") (PDict [("replicas", PStr "current")])
    0.90 [Lit "Service is down - restart all pods"].

Definition rollback_by_one : RemediationAction :=
  mkAction (PStr "rollback") (PStr "deployment") (PDict [("revisions_back", PInt 1)])
    0.88 [Lit "High error rate - likely bad deployment, rollback"].

(** A scale action whose direction is written with a capital. *)
Definition scale_Down_by_five : RemediationAction :=
  mkAction (PStr "scale") (PStr "deployment")
    (PDict [("direction", PStr "Down"); ("increment", PInt 5)])
    0.9 [Lit "scale down"].

(** The cluster [c] with a [kubectl] that succeeds. *)
Definition with_kubectl (c : KubernetesRemediator.Cluster)
  : KubernetesRemediator.Cluster :=
  fun history r =>
    match r with
    | KubernetesRemediator.subprocess_run _ =>
        Ret (KubernetesRemediator.Completed 0 EmptyString)
    | _ => c history r
    end.

(** An executor on a deployment at revision 3. *)
Definition at_revision_3 : KubernetesRemediator.t :=
  KubernetesRemediator.init "helix-dev" false
    (with_kubectl
       (cluster_of
          {[ "svc" := KubernetesRemediator.mkDeployment 2%Z None
                        (Some {[ "deployment.kubernetes.io/revision" := "3" ]})
                        None None None ]})).



(** A chat webhook that accepts every message. *)
Definition webhook_ok : SlackNotifier.Webhook := fun _ => Ret 200%Z.

(** A Prometheus that cannot be reached, and one that answers every query
    with the samples [result]. *)
Definition prometheus_down : PrometheusClient.t :=
  PrometheusClient.init
    (fun _ _ => Raise (OtherError "ConnectionError" "connection refused")).

Definition vector (result : list pyval) : pyval :=
  PDict [("status", PStr "success");
         ("data", PDict [("resultType", PStr "vector"); ("result", PList result)])].

Definition prometheus_answering (result : list pyval) : PrometheusClient.t :=
  PrometheusClient.init
    (fun _ _ => Ret (PrometheusClient.mkResponse 200 (Ret (vector result)))).

(** A sample as Prometheus writes it: the labels, and the time stamp with
    the value. *)
Definition sample (value : string) : pyval :=
  PDict [("metric", PDict []);
         ("value", PList [PFloat 1705314600; PStr value])].

End Scenario.

(** ** Notions the properties are stated with *)

Module Notions.
Import Py PatternMatcher KubernetesRemediator.

(** A value that is a mapping, as the data model has an action's
    parameters. *)
Definition is_mapping (v : pyval) : Prop := exists d, v = PDict d.

(** The requests sent between two states of the executor. *)
Definition sent (self self' : t) : list request :=
  drop (length (requests self)) (requests self').

(** A replica count of at least 1: an int from 1 on, or a float above 1
    (what [max(1, x)] returns when it does not return its first argument). *)
Definition at_least_one (v : pyval) : Prop :=
  match v with
  | PInt n => (1 <= n)%Z
  | PFloat f => (1 <? f)%float = true
  | _ => False
  end.

(** From [self] to [self'] the executor only sent reads: its configuration
    and its action history are the same, and no request added mutates. *)
Definition frame (self self' : t) : Prop :=
  namespace self' = namespace self /\ dry_run self' = dry_run self
  /\ cluster self' = cluster self /\ actions_taken self' = actions_taken self
  /\ exists new, requests self' = (requests self ++ new)%list
                 /\ Forall (fun r => mutating r = false) new.

Definition reads_only {A} (c : M t A) : Prop :=
  forall self, frame self (snd (c self)).

(** How the message of a dry-run result begins. *)
Definition would (kind : string) : string :=
  if String.eqb kind "restart" then "Would restart pod(s) for "
  else "Would " +:+ kind +:+ " ".

(** The rule a name match or a description match selects. *)
Definition fires (rule : pattern_def) (alert_name_ description : string) : bool :=
  String.eqb (alert_name rule) alert_name_
  || Re.search_ignorecase (pattern rule) description.

(** The decision of [should_auto_execute], without the counter. *)
Definition decision (self : HybridClassifier.t) (action : RemediationAction)
    (dry_run : bool) : outcome bool :=
  fst (HybridClassifier.should_auto_execute action dry_run self).

(** The four action types the executor knows. *)
Definition known_action_types : list pyval :=
  [PStr "restart"; PStr "scale"; PStr "rollback"; PStr "investigate"].

(** The executor after a series of calls of [execute], each with its
    action, its alert and the reading of the clock. *)
Definition after_executions (calls : list (RemediationAction * Alert * string))
    (self : t) : t :=
  foldl (fun s call => snd (execute call.1.1 call.1.2 call.2 s)) self calls.

(** A cluster whose API fails with [ApiException] only, and answers the
    read of a deployment with a deployment.  Nothing is asked of [kubectl]. *)
Definition api_failures_only (c : Cluster) : Prop :=
  forall history r,
    match r, c history r with
    | subprocess_run _, _ => True
    | _, Raise e => is_ApiException e = true
    | read_namespaced_deployment _ _, Ret rep => exists d, rep = ADeployment d
    | _, Ret _ => True
    end.

(** The command of a rollback to [revision]. *)
Definition rollout_undo (deployment_name ns : string) (revision : pyval) : request :=
  subprocess_run
    [ [Lit "kubectl"]; [Lit "rollout"]; [Lit "undo"];
      [Lit "deployment/"; Lit deployment_name];
      [Lit "-n"]; [Lit ns];
      [Lit "--to-revision="; Fmt revision] ].




(** No character of [s] is [c]. *)
Fixpoint free_of (c : ascii) (s : string) : bool :=
  match s with
  | EmptyString => true
  | String c' s' => negb (Ascii.eqb c' c) && free_of c s'
  end.

(** The alerts of [items] before the first item that is no alert as [Alert]
    has it, and the exception [process_alert] raises on that item. *)
Fixpoint alerts_before_failure (items : list Main.RawAlert) : list Alert :=
  match items with
  | Main.AnAlert alert :: rest => alert :: alerts_before_failure rest
  | _ => []
  end.

Fixpoint first_failure (items : list Main.RawAlert) : option exn :=
  match items with
  | [] => None
  | Main.AnAlert _ :: rest => first_failure rest
  | Main.NoObject v :: _ => Some (Main.no_get (Main.value_of v))
  | Main.LabelsNoObject v :: _ => Some (Main.no_get (Main.value_of v))
  end.

(** An entry of the alert history that is no longer [processing]. *)
Definition settled (entry : Main.AlertHistoryEntry) : Prop :=
  Main.a_status entry = "completed" \/ Main.a_status entry = "failed".

(** [webhook] went through [items], from [g] to [g'], and answered [body]
    with [code]: an entry was added for each alert before the first item
    that makes [process_alert] raise, in their order; the answer is 200
    with a result for each item when no item does, and 500 with the text of
    the exception when one does. *)
Definition went_through (items : list Main.RawAlert) (g g' : Main.t)
    (body : Main.Body) (code : Z) : Prop :=
  exists new,
    Main.alert_history g' = (Main.alert_history g ++ new)%list
    /\ map Main.a_alert new = alerts_before_failure items
    /\ Forall settled new
    /\ match first_failure items with
       | None =>
           code = 200%Z
           /\ exists results,
                body = Main.ProcessedAlerts (length items) results
                /\ length results = length items
       | Some e => code = 500%Z /\ body = Main.Failure (exn_str e)
       end.

(** [webhook] refused the request with the exception [e], and left the
    agent as it was. *)
Definition refused (e : exn) (g g' : Main.t) (body : Main.Body) (code : Z) : Prop :=
  code = 500%Z /\ body = Main.Failure (exn_str e) /\ g' = g.

(** *** Tactics that run the code *)

Ltac run_executor :=
  unfold execute, _restart, _scale, _rollback, read_deployment, append_action,
    send, try_M, handle_M, bind, lift, gets, modify, ret, raise, bad_reply in *;
  cbn beta iota in *.

(** Closes the goals of a finished run: the requests sent are known, and the
    result is known not to be a success. *)
Ltac finished Hrun :=
  cbn in Hrun; try destruct (is_ApiException _);
  injection Hrun as <- <-; cbn [requests];
  rewrite ?drop_all, <- ?app_assoc, ?drop_app_length.

Ltac run_main :=
  unfold Main.process_alert, Main.append_alert, Main.update_alert,
    Main.append_action, Main.on_classifier, Main.on_remediator,
    Main.on_notifier, try_M, handle_M, bind, lift, gets, modify, ret, raise in *;
  cbn beta iota in *.

(** Reads the fields of the globals that the run has set. *)
Ltac proj :=
  cbn [Main.DRY_RUN Main.classifier Main.remediator Main.notifier
       Main.alert_history Main.action_history fst snd Exception] in *.

(** Case analysis on what the run in [Hrun] met: each test and each answer of
    the cluster, the innermost first. *)
Ltac cases_in Hrun :=
  repeat (cbn in Hrun;
          match type of Hrun with
          | context [match ?x with _ => _ end] =>
              lazymatch x with
              | context [match _ with _ => _ end] => fail
              | _ => destruct x eqn:?
              end
          end);
  cbn in Hrun; injection Hrun as <- <-; cbn.

(** The same on a run in the goal. *)
Ltac cases_of_goal :=
  repeat (cbn;
          match goal with
          | |- context [match ?x with _ => _ end] =>
              lazymatch x with
              | context [match _ with _ => _ end] => fail
              | _ => destruct x eqn:?
              end
          end);
  cbn.

(** [s1 +:+ s2] with the characters of [s1] that are known written out. *)
Ltac norm :=
  repeat match goal with
         | |- context [String ?c ?a +:+ ?b] =>
             change (String c a +:+ b) with (String c (a +:+ b))
         | |- context [EmptyString +:+ ?b] => change (EmptyString +:+ b) with b
         end.

End Notions.

(** * Properties *)

(** ** The outcome and state monads *)

Module PyFacts.
Import Py.

Lemma eq_str_true (v : pyval) (s : string) : eq_str v s = true <-> v = PStr s.
Proof.
  destruct v; simpl; try (split; [discriminate | intros H; discriminate H]).
  rewrite String.eqb_eq. split; [intros -> | intros [= ->]]; reflexivity.
Qed.

Lemma eq_str_false (v : pyval) (s : string) : eq_str v s = false <-> v <> PStr s.
Proof.
  rewrite <- eq_str_true. destruct (eq_str v s); split; congruence.
Qed.

Lemma get_dict (d : list (string * pyval)) (k : string) (dflt : pyval) :
  get (PDict d) k dflt = Ret (default dflt (dict_lookup d k)).
Proof. reflexivity. Qed.

(** [s[:n]] is a prefix of [s]. *)
Lemma slice_to_prefix (n : nat) (s : string) : String.prefix (slice_to n s) s = true.
Proof.
  unfold slice_to. revert s; induction n as [|n IH]; intros [|c s]; simpl; trivial.
  destruct (ascii_dec c c) as [_|ne]; [apply IH | now destruct ne].
Qed.

Lemma split_go_cons (sep s : string) (skip : nat) (cur : string) :
  exists part parts, split_go sep s skip cur = part :: parts.
Proof.
  revert skip cur; induction s as [|c s IH]; intros skip cur; cbn [split_go]; [eauto|].
  destruct skip as [|k]; [|apply IH].
  destruct (String.prefix sep (String c s)); [eauto | apply IH].
Qed.

(** A string that starts with the separator splits into an empty first part
    and at least one more. *)
Lemma split_startswith (s sep : string) (c : ascii) (sep' : string) :
  sep = String c sep' -> startswith s sep = true ->
  exists inner parts, split s sep = EmptyString :: inner :: parts.
Proof.
  intros -> Hp. unfold startswith in Hp. unfold split.
  destruct s as [|c0 s]; [discriminate Hp|].
  cbn [split_go]. rewrite Hp.
  destruct (split_go_cons (String c sep') s (String.length (String c sep') - 1) EmptyString)
    as (part & parts & ->).
  simpl. eauto.
Qed.

Lemma split_startswith_fence (s : string) :
  startswith s "```" = true ->
  exists inner parts, split s "```" = EmptyString :: inner :: parts.
Proof. now apply (split_startswith s "```" "`" "``"). Qed.

End PyFacts.

(** ** The rule classifier *)

Module PatternMatcherSpec.
Import Py PatternMatcher Notions.

(** Every pattern of the table is in the fragment [Re] reads. *)
Lemma table_patterns_compile :
  Forall (fun rule => is_Some (Re.compile (pattern rule))) _load_patterns.
Proof. repeat constructor; vm_compute; eauto. Qed.

(** The names of the table are pairwise distinct. *)
Lemma table_names_distinct : NoDup (map alert_name _load_patterns).
Proof. apply (bool_decide_unpack _). vm_compute. reflexivity. Qed.

Lemma first_match_cons (rule : pattern_def) (rest : list pattern_def)
    (n d : string) :
  first_match (rule :: rest) n d =
    if fires rule n d then Some (action rule) else first_match rest n d.
Proof.
  unfold fires; simpl.
  destruct (String.eqb (alert_name rule) n); simpl; [reflexivity|].
  destruct (Re.search_ignorecase (pattern rule) d); reflexivity.
Qed.

(** No rule fires exactly when [first_match] finds nothing. *)
Lemma first_match_None (rules : list pattern_def) (n d : string) :
  first_match rules n d = None <->
  Forall (fun rule => alert_name rule <> n
                      /\ Re.search_ignorecase (pattern rule) d = false) rules.
Proof.
  induction rules as [|rule rest IH]; [split; [constructor | reflexivity]|].
  rewrite first_match_cons, Forall_cons, <- IH. unfold fires.
  destruct (String.eqb_spec (alert_name rule) n) as [->|ne]; simpl.
  - split; [discriminate | intros [[H _] _]; now destruct H].
  - destruct (Re.search_ignorecase (pattern rule) d).
    + split; [discriminate | intros [[_ H] _]; discriminate H].
    + tauto.
Qed.

(** The first rule that fires decides. *)
Lemma first_match_at (rules : list pattern_def) (n d : string) (i : nat)
    (rule : pattern_def) :
  rules !! i = Some rule ->
  fires rule n d = true ->
  (forall j r, j < i -> rules !! j = Some r -> fires r n d = false) ->
  first_match rules n d = Some (action rule).
Proof.
  revert i; induction rules as [|r0 rest IH]; intros i Hi Hf Hb;
    [destruct i; discriminate Hi|].
  rewrite first_match_cons. destruct i as [|i]; simpl in Hi.
  - injection Hi as ->. now rewrite Hf.
  - rewrite (Hb 0 r0) by (lia || reflexivity).
    apply (IH i); trivial. intros j r Hj Hr. apply (Hb (S j)); [lia | exact Hr].
Qed.

(** C3, as stated, fails: the alert [Scenario.service_down_in_crash_loop]
    has the [alert_name] of the rule [service_down], the second of the
    table, and [classify] returns the action of the first rule,
    [pod_crash_loop], whose pattern is found in the description. *)
Lemma name_match_yields_to_earlier_description_match :
  exists first second,
    _load_patterns !! 0 = Some first /\ _load_patterns !! 1 = Some second
    /\ labels Scenario.service_down_in_crash_loop !! "alertname"
       = Some (alert_name second)
    /\ classify init Scenario.service_down_in_crash_loop = Some (action first)
    /\ classify init Scenario.service_down_in_crash_loop <> Some (action second).
Proof.
  eexists _, _. split; [reflexivity|]. split; [reflexivity|].
  split; [vm_compute; reflexivity|].
  split; [vm_compute; reflexivity|].
  vm_compute. intros H. discriminate H.
Qed.

(** C3, amended: an alert whose [alertname] label is the [alert_name] of a
    rule gets that rule's action, whatever else its description says,
    provided no earlier rule of the table has that name or a pattern found
    in the (lower-cased) description. *)
Theorem classify_name_match :
  forall (self : t) (alert : Alert) (i : nat) (rule : pattern_def),
    patterns self !! i = Some rule ->
    labels alert !! "alertname" = Some (alert_name rule) ->
    (forall j r, j < i -> patterns self !! j = Some r ->
       alert_name r <> alert_name rule /\
       Re.search_ignorecase (pattern r)
         (lower (get_label (annotations alert) "description" EmptyString)) = false) ->
    classify self alert = Some (action rule).
Proof.
  intros self alert i rule Hi Hname Hearlier. unfold classify, get_label at 1.
  rewrite Hname; simpl. apply (first_match_at _ _ _ i); trivial.
  - unfold fires. now rewrite String.eqb_refl.
  - intros j r Hj Hr. destruct (Hearlier j r Hj Hr) as [Hn Hs].
    unfold fires. rewrite Hs, orb_false_r. now apply String.eqb_neq.
Qed.

(** The amended C3 at an alert of the same name with a description in
    which the pattern of the first rule is not found. *)
Lemma classify_name_match_witness :
  classify init
    (Scenario.alert_named "ServiceDown" "the endpoint is unreachable" "svc")
  = Some (mkAction (PStr "restart") (PStr "deployment")
            (PDict [("replicas", PStr "current")]) 0.90
            [Lit "Service is down - restart all pods"]).
Proof.
  apply (classify_name_match init _ 1
           (mkPattern "service_down" "ServiceDown" "service.*down|up.*== 0" _)).
  - reflexivity.
  - vm_compute; reflexivity.
  - intros [|j] r Hj Hr; [|lia]. injection Hr as <-.
    split; [discriminate | vm_compute; reflexivity].
Defined.

(** For the first rule of the table the name alone decides: this is the
    part of C3 that holds as stated. *)
Lemma classify_first_rule_by_name (alert : Alert) :
  labels alert !! "alertname" = Some "PodCrashLooping" ->
  option_map action_type (classify init alert) = Some (PStr "restart").
Proof.
  intros H. unfold classify, get_label at 1. rewrite H. reflexivity.
Qed.

End PatternMatcherSpec.

(** ** The autonomy gate and the classification gateway *)

Module HybridClassifierSpec.
Import Py PatternMatcher HybridClassifier Notions.

(** C1: [should_auto_execute] returns false whenever [dry_run] is set;
    false whenever the action type is [investigate], whatever the confidence;
    and otherwise true exactly when the confidence is at least 0.85 (the
    comparison of binary64 numbers, as Python makes it), so true at 0.85
    itself. *)
Theorem should_auto_execute_decision :
  forall (self : HybridClassifier.t) (action : RemediationAction),
    decision self action true = Ret false
    /\ (action_type action = PStr "investigate" ->
        forall dry_run, decision self action dry_run = Ret false)
    /\ (action_type action <> PStr "investigate" ->
        decision self action false = Ret (0.85 <=? confidence action)%float
        /\ (decision self action false = Ret true
            <-> (0.85 <=? confidence action)%float = true)
        /\ (confidence action = 0.85%float -> decision self action false = Ret true)).
Proof.
  intros self action. unfold decision, should_auto_execute.
  split; [reflexivity|]. split.
  - intros Hi [|]; [reflexivity|]. rewrite Hi. reflexivity.
  - intros Hn. apply PyFacts.eq_str_false in Hn. rewrite Hn.
    unfold get_confidence_threshold, bind, gets.
    assert (Hd : fst (let (o, s') := (if (0.85 <=? confidence action)%float
                                      then modify (set_stats incr_auto_executed)
                                      else ret tt) self in
                      match o with
                      | Ret _ => ret (0.85 <=? confidence action)%float s'
                      | Raise e => (Raise e, s')
                      end) = Ret (0.85 <=? confidence action)%float)
      by (destruct (0.85 <=? confidence action)%float; reflexivity).
    cbn beta iota. split; [exact Hd|]. split.
    + rewrite Hd. split; [intros [= ->]; reflexivity | intros ->; reflexivity].
    + intros Hc. rewrite Hd, Hc. reflexivity.
Qed.

(** C1 at the rule [high_cpu], whose confidence is the threshold itself. *)
Lemma should_auto_execute_decision_witness :
  decision (HybridClassifier.init None)
    (mkAction (PStr "scale") (PStr "deployment")
       (PDict [("direction", PStr "up"); ("increment", PInt 1)])
       0.85 [Lit "High CPU usage - scale horizontally"]) false = Ret true.
Proof.
  apply (should_auto_execute_decision (HybridClassifier.init None)
           (mkAction (PStr "scale") (PStr "deployment")
              (PDict [("direction", PStr "up"); ("increment", PInt 1)])
              0.85 [Lit "High CPU usage - scale horizontally"])).
  - simpl. discriminate.
  - reflexivity.
Defined.

(** The boundary values the specification names. *)
Lemma should_auto_execute_boundaries :
  let act ty c := mkAction (PStr ty) (PStr "pod") (PDict []) c [] in
  decision (HybridClassifier.init None) (act "restart" 0.85%float) false = Ret true
  /\ decision (HybridClassifier.init None) (act "restart" 0.849999%float) false = Ret false
  /\ decision (HybridClassifier.init None) (act "investigate" 1.0%float) false = Ret false
  /\ decision (HybridClassifier.init None) (act "restart" 1.0%float) true = Ret false
  /\ decision (HybridClassifier.init None) (act "restart" nan) false = Ret false.
Proof. repeat split; vm_compute; reflexivity. Qed.

(** The one effect of the decision: the counter [auto_executed] goes up by
    one when the answer is yes, and nothing else changes. *)
Lemma should_auto_execute_counts (self : HybridClassifier.t)
    (action : RemediationAction) (dry_run : bool) :
  snd (should_auto_execute action dry_run self) =
    match decision self action dry_run with
    | Ret true => set_stats incr_auto_executed self
    | _ => self
    end.
Proof.
  unfold decision, should_auto_execute.
  destruct dry_run; [reflexivity|].
  destruct (eq_str (action_type action) "investigate"); [reflexivity|].
  unfold bind, gets, get_confidence_threshold; cbn beta iota.
  destruct (0.85 <=? confidence action)%float; reflexivity.
Qed.

End HybridClassifierSpec.

(** ** The executor *)

Module KubernetesRemediatorSpec.
Import Py PatternMatcher KubernetesRemediator Notions.

Lemma max_1_at_least_one (v w : pyval) : max_1 v = Ret w -> at_least_one w.
Proof.
  destruct v; simpl; try discriminate; intros [= <-]; simpl; try lia.
  - destruct (1 <? z)%Z eqn:E; simpl; [apply Z.ltb_lt in E|]; lia.
  - destruct (1 <? f)%float eqn:E; simpl; [exact E | lia].
Qed.

(** *** Unknown action types (the second half of C7, and C10) *)

(** An action type that is none of the four gets an [error] result that
    names it; nothing is sent and nothing recorded. *)
Lemma execute_unknown_action_type (self : t) (action : RemediationAction)
    (alert : Alert) (now : string) :
  ~ In (action_type action)
       [PStr "restart"; PStr "scale"; PStr "rollback"; PStr "investigate"] ->
  execute action alert now self =
    (Ret (result "error" [Lit "Unknown action type: "; Fmt (action_type action)]),
     self).
Proof.
  intros Hn. unfold execute.
  repeat match goal with
  | |- context [eq_str ?v ?s] =>
      let E := fresh in
      destruct (eq_str v s) eqn:E;
      [apply PyFacts.eq_str_true in E; destruct Hn; rewrite E; simpl; tauto | clear E]
  end.
  reflexivity.
Qed.

(** *** Dry run (C6) *)

(** With the dry-run flag set, a restart, scale or rollback action leaves
    the executor as it was, whether [execute] returns or raises. *)
Lemma dry_run_state (self : t) (action : RemediationAction) (alert : Alert)
    (now kind : string) :
  dry_run self = true ->
  In kind ["restart"; "scale"; "rollback"] ->
  action_type action = PStr kind ->
  snd (execute action alert now self) = self.
Proof.
  intros Hdry Hkind Hty. unfold execute. rewrite Hty.
  destruct Hkind as [<-|[<-|[<-|[]]]]; cbn [eq_str String.eqb Ascii.eqb Bool.eqb];
    run_executor; rewrite ?Hdry.
  - reflexivity.
  - repeat (match goal with
            | |- context [get ?p ?k ?d] => destruct (get p k d)
            end; cbn; [|reflexivity]).
    rewrite ?Hdry. reflexivity.
  - destruct (get _ _ _); cbn; [|reflexivity]. rewrite ?Hdry. reflexivity.
Qed.

(** With the dry-run flag set, what [execute] returns on a restart action,
    and on a scale or rollback action whose parameters are a mapping: the
    [dry_run] result that names the action, and whose message names the
    deployment and, for a scale, the direction and the increment, for a
    rollback, the number of revisions (each with its default); and the
    executor stays as it was. *)
Lemma dry_run_result (self : t) (action : RemediationAction) (alert : Alert)
    (now : string) :
  dry_run self = true ->
  let name_ := get_label (labels alert) "service" "unknown" in
  (action_type action = PStr "restart" ->
   execute action alert now self
   = (Ret (with_action "restart"
             (result "dry_run" [Lit "Would restart pod(s) for "; Lit name_])),
      self))
  /\ (forall params,
        action_type action = PStr "scale" ->
        parameters action = PDict params ->
        execute action alert now self
        = (Ret (with_action "scale"
                  (result "dry_run"
                     [Lit "Would scale "; Lit name_; Lit " ";
                      Fmt (default (PStr "up") (dict_lookup params "direction"));
                      Lit " by ";
                      Fmt (default (PInt 1) (dict_lookup params "increment"))])),
           self))
  /\ (forall params,
        action_type action = PStr "rollback" ->
        parameters action = PDict params ->
        execute action alert now self
        = (Ret (with_action "rollback"
                  (result "dry_run"
                     [Lit "Would rollback "; Lit name_; Lit " by ";
                      Fmt (default (PInt 1) (dict_lookup params "revisions_back"));
                      Lit " revision(s)"])),
           self)).
Proof.
  intros Hdry name_. subst name_. unfold execute. repeat split.
  - intros ->. cbn [eq_str String.eqb Ascii.eqb Bool.eqb]. run_executor.
    now rewrite Hdry.
  - intros params -> Hp. cbn [eq_str String.eqb Ascii.eqb Bool.eqb]. run_executor.
    rewrite Hp. cbn. now rewrite Hdry.
  - intros params -> Hp. cbn [eq_str String.eqb Ascii.eqb Bool.eqb]. run_executor.
    rewrite Hp. cbn. now rewrite Hdry.
Qed.


(** *** Requests that only read *)

Lemma frame_refl (self : t) : frame self self.
Proof.
  repeat split. exists []. split; [now rewrite app_nil_r | constructor].
Qed.

Lemma frame_trans (s1 s2 s3 : t) : frame s1 s2 -> frame s2 s3 -> frame s1 s3.
Proof.
  intros (Hn & Hd & Hc & Ha & l & Hl & Hf) (Hn' & Hd' & Hc' & Ha' & l' & Hl' & Hf').
  repeat split; try congruence.
  exists (l ++ l')%list. split; [rewrite Hl', Hl; now rewrite app_assoc|].
  now apply Forall_app.
Qed.

Lemma reads_only_ret {A} (a : A) : reads_only (ret a : M t A).
Proof. intros self. apply frame_refl. Qed.

Lemma reads_only_lift {A} (c : outcome A) : reads_only (lift c : M t A).
Proof. intros self. apply frame_refl. Qed.

Lemma reads_only_gets {A} (f : t -> A) : reads_only (gets f).
Proof. intros self. apply frame_refl. Qed.

Lemma reads_only_bind {A B} (c : M t A) (k : A -> M t B) :
  reads_only c -> (forall a, reads_only (k a)) -> reads_only (bind c k).
Proof.
  intros Hc Hk self. specialize (Hc self). unfold bind.
  destruct (c self) as [[a|e] s']; simpl in *; [|exact Hc].
  eapply frame_trans; [exact Hc | apply Hk].
Qed.

Lemma reads_only_try {A} (c : M t A) (h : exn -> M t A) :
  reads_only c -> (forall e, reads_only (h e)) ->
  reads_only (try_M c [(Exception, h)]).
Proof.
  intros Hc Hh self. specialize (Hc self). unfold try_M.
  destruct (c self) as [[a|e] s']; simpl in *; [exact Hc|].
  eapply frame_trans; [exact Hc | apply Hh].
Qed.

Lemma reads_only_send (r : request) : mutating r = false -> reads_only (send r).
Proof.
  intros Hr self. unfold send; simpl. repeat split.
  exists [r]. split; [reflexivity | now repeat constructor].
Qed.

Lemma reads_only_read_deployment (name_ : string) :
  reads_only (read_deployment name_).
Proof.
  unfold read_deployment. apply reads_only_bind; [apply reads_only_gets|]; intros ns.
  apply reads_only_bind; [now apply reads_only_send|].
  intros []; (apply reads_only_ret || apply reads_only_lift).
Qed.

(** Gathering diagnostics sends reads only and records no action, dry run
    or not. *)
Lemma investigate_reads_only (service_name : string) (pod_name : option string)
    (action : RemediationAction) :
  reads_only (_investigate service_name pod_name action).
Proof.
  unfold _investigate.
  apply reads_only_try; [|intros; apply reads_only_ret].
  apply reads_only_bind; [apply reads_only_gets|]; intros ns.
  apply reads_only_bind.
  { destruct (given pod_name); [|apply reads_only_ret].
    apply reads_only_bind; [now apply reads_only_send|]; intros rep.
    apply reads_only_bind;
      [destruct rep; (apply reads_only_ret || apply reads_only_lift)|]; intros pod.
    apply reads_only_try; [|intros; apply reads_only_ret].
    apply reads_only_bind; [now apply reads_only_send|].
    intros []; (apply reads_only_ret || apply reads_only_lift). }
  intros data. apply reads_only_bind.
  { apply reads_only_try; [|intros; apply reads_only_ret].
    apply reads_only_bind; [apply reads_only_read_deployment|].
    intros; apply reads_only_ret. }
  intros data'. apply reads_only_bind; [|intros; apply reads_only_ret].
  apply reads_only_try; [|intros; apply reads_only_ret].
  apply reads_only_bind; [now apply reads_only_send|].
  intros []; (apply reads_only_ret || apply reads_only_lift).
Qed.

(** With the dry-run flag set no action of any type, well formed or not,
    makes [execute] send a mutating request or record an action, whether it
    returns or raises. *)
Lemma dry_run_never_mutates (self : t) (action : RemediationAction)
    (alert : Alert) (now : string) :
  dry_run self = true ->
  frame self (snd (execute action alert now self)).
Proof.
  intros Hdry. unfold execute.
  destruct (eq_str (action_type action) "restart");
    [run_executor; rewrite Hdry; apply frame_refl|].
  destruct (eq_str (action_type action) "scale").
  { run_executor. repeat (match goal with
                 | |- context [get ?p ?k ?d] => destruct (get p k d)
                 end; cbn; [|apply frame_refl]).
    rewrite Hdry. apply frame_refl. }
  destruct (eq_str (action_type action) "rollback").
  { run_executor. destruct (get _ _ _); cbn; [|apply frame_refl].
    rewrite Hdry. apply frame_refl. }
  destruct (eq_str (action_type action) "investigate");
    [apply investigate_reads_only | apply frame_refl].
Qed.

(** *** The floor of a scale down (C2) *)

(** C2, as stated, fails: on a deployment with no replica the scale action
    [scale_down_to_spec], whose direction is [down], patches the deployment
    with 0 replicas and reports [to] = 0.  [to_spec] is tested before the
    direction, and then the count read is the count written. *)
Lemma scale_down_with_to_spec_patches_zero :
  exists r self' d,
    execute Scenario.scale_down_to_spec (Scenario.alert_named "Idle" "idle" "svc")
      "2024-01-15T10:30:01Z" Scenario.no_replicas
    = (Ret r, self')
    /\ r_status r = "success" /\ r_from r = Some 0%Z /\ r_to r = Some (PInt 0)
    /\ requests self' = [read_namespaced_deployment "svc" "helix-dev";
                         patch_namespaced_deployment "svc" "helix-dev" d]
    /\ spec_replicas d = PInt 0
    /\ ~ at_least_one (PInt 0).
Proof.
  eexists _, _, _. split; [vm_compute; reflexivity|].
  repeat split. simpl. lia.
Qed.

(** C2, amended: for a scale action whose direction is [down] and whose
    [to_spec] is not set, whatever the replica count read, whatever the
    increment and whatever the cluster answers, every patch [execute] sends
    carries a replica count of at least 1, and so does the [to] field of a
    [success] result. *)
Theorem scale_down_floor :
  forall (self : t) (action : RemediationAction) (alert : Alert) (now : string)
         (params : list (string * pyval)),
    action_type action = PStr "scale" ->
    parameters action = PDict params ->
    dict_lookup params "direction" = Some (PStr "down") ->
    truthy (default (PBool false) (dict_lookup params "to_spec")) = false ->
    forall res self', execute action alert now self = (res, self') ->
      (forall name ns body,
          In (patch_namespaced_deployment name ns body) (sent self self') ->
          at_least_one (spec_replicas body))
      /\ (forall r, res = Ret r -> r_status r = "success" ->
          exists v, r_to r = Some v /\ at_least_one v).
Proof.
  intros self action alert now params Hty Hpar Hdir Hspec res self' Hrun.
  unfold execute in Hrun. rewrite Hty in Hrun.
  cbn [eq_str String.eqb Ascii.eqb Bool.eqb] in Hrun.
  unfold _scale in Hrun. rewrite Hpar, !PyFacts.get_dict, Hdir in Hrun.
  run_executor. simpl default in Hrun.
  set (incr := default (PInt 1) (dict_lookup params "increment")) in *.
  set (svc := get_label (labels alert) "service" "unknown") in *.
  rewrite Hspec in Hrun. cbn [eq_str String.eqb Ascii.eqb Bool.eqb] in Hrun.
  unfold sent.
  destruct (dry_run self).
  { finished Hrun. split; [intros ? ? ? []|]. intros r [= <-]. discriminate. }
  destruct (cluster self (requests self)
              (read_namespaced_deployment svc (namespace self))) as [rep|e].
  2:{ finished Hrun;
      (split; [intros ? ? ? [[=]|[]] | intros r [= <-]; try discriminate]). }
  destruct rep as [|d|p|lg|ev|rc se];
    try (finished Hrun; (split; [intros ? ? ? [[=]|[]] | intros r [=]])).
  cbn in Hrun.
  destruct (int_sub (spec_replicas d) incr) as [diff|e]; cbn in Hrun.
  2:{ finished Hrun;
      (split; [intros ? ? ? [[=]|[]] | intros r [= <-]; try discriminate]). }
  destruct (max_1 diff) as [new|e] eqn:Hmax; cbn in Hrun.
  2:{ finished Hrun;
      (split; [intros ? ? ? [[=]|[]] | intros r [= <-]; try discriminate]). }
  apply max_1_at_least_one in Hmax.
  match type of Hrun with
  | context [match ?x with _ => _ end] => destruct x as [rep|e]
  end.
  - finished Hrun. split.
    + intros ? ? ? [[=]|[[= <- <- <-]|[]]]. exact Hmax.
    + intros r [= <-] _. exists new. split; [reflexivity | exact Hmax].
  - finished Hrun;
      (split; [intros ? ? ? [[=]|[[= <- <- <-]|[]]]; exact Hmax
              | intros r [= <-]; try discriminate]).
Qed.

(** The amended C2 there: the one patch sent carries 1 replica. *)
Lemma scale_down_floor_witness :
  sent Scenario.three_replicas
    (snd (execute Scenario.scale_down_by_five (Scenario.alert_named "Idle" "idle" "svc")
            "2024-01-15T10:30:01Z" Scenario.three_replicas))
  = [read_namespaced_deployment "svc" "helix-dev";
     patch_namespaced_deployment "svc" "helix-dev"
       (set_replicas (Scenario.deployment_with 3) (PInt 1))]
  /\ at_least_one (PInt 1).
Proof.
  split; [vm_compute; reflexivity|].
  apply (proj1 (scale_down_floor Scenario.three_replicas Scenario.scale_down_by_five
                  (Scenario.alert_named "Idle" "idle" "svc") "2024-01-15T10:30:01Z"
                  [("direction", PStr "down"); ("increment", PInt 5)]
                  eq_refl eq_refl eq_refl eq_refl
                  (fst (execute Scenario.scale_down_by_five
                          (Scenario.alert_named "Idle" "idle" "svc")
                          "2024-01-15T10:30:01Z" Scenario.three_replicas))
                  (snd (execute Scenario.scale_down_by_five
                          (Scenario.alert_named "Idle" "idle" "svc")
                          "2024-01-15T10:30:01Z" Scenario.three_replicas))
                  eq_refl)
         "svc" "helix-dev" (set_replicas (Scenario.deployment_with 3) (PInt 1))).
  vm_compute. right; left; reflexivity.
Defined.

(** *** Scaling to the specification (C2, C8) *)

(** With [to_spec] set, the count written is the count read: a [success]
    result of a scale action reports [to] equal to [from], whatever the
    cluster holds. *)
Lemma scale_to_spec_reports_current (self : t) (action : RemediationAction)
    (alert : Alert) (now : string) (params : list (string * pyval))
    (r : Result) (self' : t) :
  action_type action = PStr "scale" ->
  parameters action = PDict params ->
  truthy (default (PBool false) (dict_lookup params "to_spec")) = true ->
  execute action alert now self = (Ret r, self') ->
  r_status r = "success" ->
  exists n, r_from r = Some n /\ r_to r = Some (PInt n).
Proof.
  intros Hty Hpar Hspec Hrun Hok.
  unfold execute in Hrun. rewrite Hty in Hrun.
  cbn [eq_str String.eqb Ascii.eqb Bool.eqb] in Hrun.
  unfold _scale in Hrun. rewrite Hpar, !PyFacts.get_dict in Hrun.
  run_executor. rewrite Hspec in Hrun.
  destruct (dry_run self); [injection Hrun as <- <-; discriminate Hok|].
  destruct (cluster self _ _) as [rep|e].
  2:{ cbn in Hrun. destruct (is_ApiException e); [|discriminate Hrun].
      injection Hrun as <- <-. discriminate Hok. }
  destruct rep as [|d|p|lg|ev|rc se]; try discriminate Hrun.
  cbn in Hrun.
  match type of Hrun with
  | context [match ?x with _ => _ end] => destruct x as [rep|e]
  end; cbn in Hrun.
  - injection Hrun as <- <-. eexists; split; reflexivity.
  - destruct (is_ApiException e); [|discriminate Hrun].
    injection Hrun as <- <-. discriminate Hok.
Qed.

(** C8, on the code: the alert [TooFewReplicas] classifies to a scale
    action with [to_spec] set, and executing it succeeds with [to] equal to
    [from]: from 2 to 2 on a deployment whose replica count is 2, from 5 to
    5 on a deployment specified with 5 replicas of which 2 run.  The
    scenario's result, from 2 to 5, is reached on neither; by
    [scale_to_spec_reports_current] no deployment makes a [to_spec] scale
    report a [to] other than its [from]. *)
Theorem too_few_replicas_scales_to_current_count :
  exists action r self' r5 self5,
    PatternMatcher.classify PatternMatcher.init Scenario.too_few_replicas
    = Some action
    /\ action_type action = PStr "scale"
    /\ get (parameters action) "to_spec" (PBool false) = Ret (PBool true)
    /\ execute action Scenario.too_few_replicas "2024-01-15T10:30:01Z"
         Scenario.two_replicas = (Ret r, self')
    /\ r_status r = "success" /\ r_from r = Some 2%Z /\ r_to r = Some (PInt 2)
    /\ execute action Scenario.too_few_replicas "2024-01-15T10:30:01Z"
         Scenario.two_of_five = (Ret r5, self5)
    /\ r_status r5 = "success" /\ r_from r5 = Some 5%Z /\ r_to r5 = Some (PInt 5).
Proof.
  eexists _, _, _, _, _. split; [vm_compute; reflexivity|].
  split; [reflexivity|]. split; [reflexivity|].
  split; [vm_compute; reflexivity|].
  split; [reflexivity|]. split; [reflexivity|]. split; [reflexivity|].
  split; [vm_compute; reflexivity|].
  repeat split.
Qed.

(** *** Exceptions that pass the boundary (C7) *)

(** C7, on the code: [execute] raises on the scale action
    [scale_by_string].  The deployment is read, [current_replicas +
    increment] raises [TypeError], and [_scale] catches [ApiException]
    only. *)
Theorem execute_raises_on_string_increment :
  exists self',
    execute Scenario.scale_by_string Scenario.odd_alert
      "2024-01-15T10:30:01Z"
      Scenario.two_replicas
    = (Raise (TypeError "unsupported operand type(s) for +: 'int' and 'str'"), self')
    /\ requests self' = [read_namespaced_deployment "svc" "helix-dev"]
    /\ actions_taken self' = [].
Proof. eexists. split; [vm_compute; reflexivity|]. split; reflexivity. Qed.

(** The same in [_restart]: an exception of the cluster client that is not
    an [ApiException] (the API cannot be reached) leaves [execute] as it
    is. *)
Lemma restart_lets_other_exceptions_pass (self : t) (action : RemediationAction)
    (alert : Alert) (now : string) (e : exn) :
  dry_run self = false ->
  action_type action = PStr "restart" ->
  labels alert !! "pod" = None ->
  cluster self (requests self)
    (read_namespaced_deployment (get_label (labels alert) "service" "unknown")
       (namespace self)) = Raise e ->
  is_ApiException e = false ->
  fst (execute action alert now self) = Raise e.
Proof.
  intros Hdry Hty Hpod Hc He. unfold execute. rewrite Hty, Hpod.
  cbn [eq_str String.eqb Ascii.eqb Bool.eqb]. run_executor.
  rewrite Hdry. cbn. rewrite Hc. cbn. rewrite He. reflexivity.
Qed.

(** [_rollback] and [_investigate] catch every exception: on a well-formed
    action they always return a result. *)
Lemma rollback_returns (self : t) (service_name : string)
    (action : RemediationAction) :
  is_mapping (parameters action) ->
  returns (fst (_rollback service_name action self)).
Proof.
  intros [params Hpar]. unfold _rollback. rewrite Hpar, PyFacts.get_dict.
  run_executor. destruct (dry_run self); [eexists; reflexivity|].
  repeat (match goal with
          | |- context [match ?x with _ => _ end] => destruct x
          end; cbn; try (eexists; reflexivity)).
Qed.

Lemma investigate_returns (self : t) (service_name : string)
    (pod_name : option string) (action : RemediationAction) :
  returns (fst (_investigate service_name pod_name action self)).
Proof.
  unfold _investigate, try_M at 1.
  match goal with
  | |- context [match ?c self with _ => _ end] => destruct (c self) as [[a|e] s']
  end; cbn; eexists; reflexivity.
Qed.

End KubernetesRemediatorSpec.

(** ** The reasoner's replies *)

Module AIAnalyzerSpec.
Import Py PyFacts PatternMatcher AIAnalyzer Notions.

Lemma try_catch_all_returns {A} (c : outcome A) (hs : list (handler (outcome A)))
    (h : exn -> outcome A) :
  (forall e, Forall (fun ch => returns (snd ch e)) hs) ->
  (forall e, returns (h e)) ->
  returns (try_ c (hs ++ [(Exception, h)])).
Proof.
  intros Hhs Hh. destruct c as [a|e]; [eexists; reflexivity|]. simpl.
  specialize (Hhs e). induction hs as [|[catches h0] hs IH]; simpl.
  - apply Hh.
  - apply Forall_cons in Hhs as [H0 Hrest].
    destruct (catches e); [exact H0 | now apply IH].
Qed.

(** Taking the reply out of its code fence never fails. *)
Lemma response_text_returns (ai_response : string) :
  returns (response_text ai_response).
Proof.
  unfold response_text.
  destruct (startswith (strip ai_response) "```") eqn:Hs; [|eexists; reflexivity].
  destruct (split_startswith_fence _ Hs) as (inner & parts & ->).
  eexists; reflexivity.
Qed.

(** [_parse_ai_response] always returns an action. *)
Lemma parse_ai_response_returns (json_loads : string -> outcome pyval)
    (ai_response : string) (alert : Alert) :
  returns (_parse_ai_response json_loads ai_response alert).
Proof.
  unfold _parse_ai_response.
  apply (try_catch_all_returns _ [_]).
  - intros e. repeat constructor. eexists; reflexivity.
  - intros e. eexists; reflexivity.
Qed.

(** [analyze_alert] always returns: an action, or [None]. *)
Lemma analyze_alert_returns (json_loads : string -> outcome pyval) (self : AIAnalyzer.t)
    (alert : Alert) (recent_metrics : option (list pyval)) (pod_logs : option string) :
  returns (analyze_alert json_loads self alert recent_metrics pod_logs).
Proof.
  unfold analyze_alert. destruct (client self); [|eexists; reflexivity].
  apply (try_catch_all_returns _ []); [constructor|].
  intros e. eexists; reflexivity.
Qed.

(** A reply that is not JSON. *)
Lemma parse_not_json (json_loads : string -> outcome pyval) (ai_response : string)
    (alert : Alert) (txt msg : string) :
  response_text ai_response = Ret txt ->
  json_loads txt = Raise (JSONDecodeError msg) ->
  _parse_ai_response json_loads ai_response alert =
    Ret (mkAction (PStr "investigate") (PStr "pod")
           (PDict [("ai_response", PStr (slice_to 500 ai_response))])
           0.3
           [Lit "AI analysis inconclusive. Response: ";
            Lit (slice_to 200 ai_response); Lit "..."]).
Proof.
  intros Ht Hj. unfold _parse_ai_response. rewrite Ht. simpl. rewrite Hj. reflexivity.
Qed.

(** A reply that is a JSON object whose confidence [float] accepts. *)
Lemma parse_object (json_loads : string -> outcome pyval) (ai_response : string)
    (alert : Alert) (txt : string) (d : list (string * pyval)) (c : float) :
  response_text ai_response = Ret txt ->
  json_loads txt = Ret (PDict d) ->
  Num.float_of (default (PFloat 0.5) (dict_lookup d "confidence")) = Ret c ->
  _parse_ai_response json_loads ai_response alert =
    Ret (mkAction (default (PStr "investigate") (dict_lookup d "action_type"))
           (default (PStr "pod") (dict_lookup d "target"))
           (default (PDict []) (dict_lookup d "parameters"))
           c
           [Lit "AI Analysis: ";
            Fmt (default (PStr "No reason provided") (dict_lookup d "reason"))]).
Proof.
  intros Ht Hj Hc. unfold _parse_ai_response. rewrite Ht. simpl. rewrite Hj. simpl.
  rewrite Hc. reflexivity.
Qed.

(** A call of the reasoning service that raises. *)
Lemma analyze_alert_service_raises (json_loads : string -> outcome pyval)
    (self : AIAnalyzer.t) (alert : Alert) (recent_metrics : option (list pyval))
    (pod_logs : option string) (create : GroqClient) :
  client self = Some create ->
  (forall request, exists e, create request = Raise e) ->
  analyze_alert json_loads self alert recent_metrics pod_logs = Ret None.
Proof.
  intros Hc Hr. unfold analyze_alert. rewrite Hc.
  destruct (_build_context alert recent_metrics pod_logs) as [context|e]; [|reflexivity].
  simpl. destruct (Hr (mkChatRequest (model self) _get_system_prompt context
                         0.1 1000 0.9)) as [e ->]. reflexivity.
Qed.

End AIAnalyzerSpec.

(** ** The classification gateway *)

Module GatewaySpec.
Import Py PyFacts PatternMatcher HybridClassifier Notions.

Section WithDecoder.

Variable json_loads : string -> outcome pyval.

(** The three tiers of [classify], by what the rule table and the reasoner
    give. *)
Lemma classify_by_rule (self : HybridClassifier.t) (alert : Alert)
    (recent_metrics : option (list pyval)) (pod_logs : option string)
    (action : RemediationAction) :
  PatternMatcher.classify (pattern_matcher self) alert = Some action ->
  classify json_loads alert recent_metrics pod_logs self =
    (Ret action,
     set_stats incr_rule_based_matches (set_stats incr_total_alerts self)).
Proof.
  intros H. unfold classify, bind, modify, gets, ret; cbn. rewrite H. reflexivity.
Qed.

Lemma classify_by_reasoner (self : HybridClassifier.t) (alert : Alert)
    (recent_metrics : option (list pyval)) (pod_logs : option string)
    (action : RemediationAction) :
  PatternMatcher.classify (pattern_matcher self) alert = None ->
  AIAnalyzer.analyze_alert json_loads (ai_analyzer self) alert recent_metrics pod_logs
  = Ret (Some action) ->
  classify json_loads alert recent_metrics pod_logs self =
    (Ret action,
     set_stats incr_ai_analysis_used (set_stats incr_total_alerts self)).
Proof.
  intros Hn Ha.
  assert (Hav : AIAnalyzer.is_available (ai_analyzer self) = true).
  { unfold AIAnalyzer.analyze_alert, AIAnalyzer.is_available in *.
    destruct (AIAnalyzer.client (ai_analyzer self)); [reflexivity | discriminate]. }
  unfold classify, bind, modify, gets, ret, lift; cbn. rewrite Hn.
  cbn. rewrite Hav. cbn. rewrite Ha. reflexivity.
Qed.

Lemma classify_unavailable (self : HybridClassifier.t) (alert : Alert)
    (recent_metrics : option (list pyval)) (pod_logs : option string) :
  PatternMatcher.classify (pattern_matcher self) alert = None ->
  AIAnalyzer.client (ai_analyzer self) = None ->
  classify json_loads alert recent_metrics pod_logs self =
    (Ret manual_investigation,
     set_stats incr_manual_review (set_stats incr_total_alerts self)).
Proof.
  intros Hn Hc. unfold classify, bind, modify, gets, ret, lift; cbn. rewrite Hn.
  unfold AIAnalyzer.is_available. cbn. rewrite Hc. reflexivity.
Qed.

Lemma classify_reasoner_gives_nothing (self : HybridClassifier.t) (alert : Alert)
    (recent_metrics : option (list pyval)) (pod_logs : option string) :
  PatternMatcher.classify (pattern_matcher self) alert = None ->
  AIAnalyzer.is_available (ai_analyzer self) = true ->
  AIAnalyzer.analyze_alert json_loads (ai_analyzer self) alert recent_metrics pod_logs
  = Ret None ->
  classify json_loads alert recent_metrics pod_logs self =
    (Ret manual_investigation,
     set_stats incr_manual_review
       (set_stats incr_ai_analysis_used (set_stats incr_total_alerts self))).
Proof.
  intros Hn Hav Ha. unfold classify, bind, modify, gets, ret, lift; cbn. rewrite Hn.
  cbn. rewrite Hav. cbn. rewrite Ha. reflexivity.
Qed.

(** [classify] always returns an action, and touches the counters only. *)
Lemma classify_returns (self : HybridClassifier.t) (alert : Alert)
    (recent_metrics : option (list pyval)) (pod_logs : option string) :
  exists action st,
    classify json_loads alert recent_metrics pod_logs self =
      (Ret action, mk (pattern_matcher self) (ai_analyzer self) st).
Proof.
  destruct (PatternMatcher.classify (pattern_matcher self) alert) as [a|] eqn:Hr.
  { rewrite (classify_by_rule _ _ _ _ a Hr). eexists _, _. reflexivity. }
  destruct (AIAnalyzer.client (ai_analyzer self)) as [create|] eqn:Hc.
  2:{ rewrite (classify_unavailable _ _ _ _ Hr Hc). eexists _, _. reflexivity. }
  destruct (AIAnalyzerSpec.analyze_alert_returns json_loads (ai_analyzer self) alert
              recent_metrics pod_logs) as [[a|] Ha].
  - rewrite (classify_by_reasoner _ _ _ _ a Hr Ha). eexists _, _. reflexivity.
  - rewrite (classify_reasoner_gives_nothing _ _ _ _ Hr); trivial.
    + eexists _, _. reflexivity.
    + unfold AIAnalyzer.is_available. now rewrite Hc.
Qed.

End WithDecoder.

(** C5, as stated, fails for JSON that misses required keys: the reply
    [reply_without_keys] is parsed into an [investigate] action of confidence
    0.5, not 0.3, whose reason is the default text and holds nothing of the
    reply.  Every missing key takes the default of its [get]. *)
Lemma missing_keys_take_defaults :
  Json.loads Scenario.reply_without_keys = Ret (PDict [("target", PStr "pod")])
  /\ AIAnalyzer._parse_ai_response Json.loads Scenario.reply_without_keys
       Scenario.odd_alert
     = Ret (mkAction (PStr "investigate") (PStr "pod") (PDict []) 0.5
              [Lit "AI Analysis: "; Fmt (PStr "No reason provided")])
  /\ (0.5 =? 0.3)%float = false.
Proof. repeat split; vm_compute; reflexivity. Qed.

(** C5, amended.  For every decoder, reply and alert:
    - a reply that is not JSON yields an [investigate] action of confidence
      0.3 whose reason holds the first 200 characters of the reply;
    - a reply that is a JSON object without [action_type] and [confidence]
      yields an [investigate] action of confidence 0.5 (a missing key is no
      failure);
    - when the call of the reasoning service raises, [analyze_alert] returns
      nothing, and, no rule matching, classification returns the
      [investigate] action of confidence 0.0;
    - [_parse_ai_response], [analyze_alert] and [classify] always return. *)
Theorem reasoner_failures_degrade :
  forall (json_loads : string -> outcome pyval) (alert : Alert),
    (forall ai_response txt msg,
        AIAnalyzer.response_text ai_response = Ret txt ->
        json_loads txt = Raise (JSONDecodeError msg) ->
        exists action,
          AIAnalyzer._parse_ai_response json_loads ai_response alert = Ret action
          /\ action_type action = PStr "investigate"
          /\ confidence action = 0.3%float
          /\ render (reason action)
             = Some ("AI analysis inconclusive. Response: "
                     +:+ slice_to 200 ai_response +:+ "...")
          /\ String.prefix (slice_to 200 ai_response) ai_response = true)
    /\ (forall ai_response txt d,
        AIAnalyzer.response_text ai_response = Ret txt ->
        json_loads txt = Ret (PDict d) ->
        dict_lookup d "action_type" = None ->
        dict_lookup d "confidence" = None ->
        exists action,
          AIAnalyzer._parse_ai_response json_loads ai_response alert = Ret action
          /\ action_type action = PStr "investigate"
          /\ confidence action = 0.5%float)
    /\ (forall (self : HybridClassifier.t) create recent_metrics pod_logs,
        AIAnalyzer.client (ai_analyzer self) = Some create ->
        (forall request, exists e, create request = Raise e) ->
        AIAnalyzer.analyze_alert json_loads (ai_analyzer self) alert
          recent_metrics pod_logs = Ret None
        /\ (PatternMatcher.classify (pattern_matcher self) alert = None ->
            exists action,
              fst (classify json_loads alert recent_metrics pod_logs self) = Ret action
              /\ action_type action = PStr "investigate"
              /\ confidence action = 0.0%float))
    /\ (forall ai_response,
        returns (AIAnalyzer._parse_ai_response json_loads ai_response alert))
    /\ (forall (self : HybridClassifier.t) recent_metrics pod_logs,
        returns (AIAnalyzer.analyze_alert json_loads (ai_analyzer self) alert
                   recent_metrics pod_logs)
        /\ returns (fst (classify json_loads alert recent_metrics pod_logs self))).
Proof.
  intros json_loads alert. repeat apply conj.
  - intros ai_response txt msg Ht Hj. eexists. split.
    + apply (AIAnalyzerSpec.parse_not_json _ _ _ txt msg Ht Hj).
    + repeat split. apply slice_to_prefix.
  - intros ai_response txt d Ht Hj Ha Hc. eexists. split.
    + apply (AIAnalyzerSpec.parse_object _ _ _ txt d 0.5%float Ht Hj).
      rewrite Hc. reflexivity.
    + rewrite Ha. split; reflexivity.
  - intros self create rm pl Hc Hr.
    assert (Hnone := AIAnalyzerSpec.analyze_alert_service_raises json_loads
                       (ai_analyzer self) alert rm pl create Hc Hr).
    split; [exact Hnone|]. intros Hn.
    exists manual_investigation.
    rewrite (classify_reasoner_gives_nothing json_loads self alert rm pl Hn); trivial.
    + repeat split.
    + unfold AIAnalyzer.is_available. now rewrite Hc.
  - intros ai_response. apply AIAnalyzerSpec.parse_ai_response_returns.
  - intros self rm pl. split; [apply AIAnalyzerSpec.analyze_alert_returns|].
    destruct (classify_returns json_loads self alert rm pl) as (a & st & ->).
    eexists; reflexivity.
Qed.

(** The amended C5 on a reply in prose, and on a reasoning service that is
    down. *)
Lemma reasoner_failures_degrade_witness :
  (exists action,
      AIAnalyzer._parse_ai_response Json.loads "I would restart the pod."
        Scenario.odd_alert = Ret action
      /\ action_type action = PStr "investigate"
      /\ confidence action = 0.3%float
      /\ render (reason action)
         = Some ("AI analysis inconclusive. Response: "
                 +:+ slice_to 200 "I would restart the pod." +:+ "...")
      /\ String.prefix (slice_to 200 "I would restart the pod.")
           "I would restart the pod." = true)
  /\ AIAnalyzer.analyze_alert Json.loads
       (ai_analyzer (HybridClassifier.init (Some Scenario.groq_down)))
       Scenario.odd_alert None None = Ret None.
Proof.
  pose proof (reasoner_failures_degrade Json.loads
                Scenario.odd_alert) as (H1 & _ & H3 & _).
  split.
  - apply (H1 "I would restart the pod." "I would restart the pod." "Expecting value");
      vm_compute; reflexivity.
  - apply (H3 (HybridClassifier.init (Some Scenario.groq_down)) Scenario.groq_down).
    + reflexivity.
    + intros request. eexists. reflexivity.
Defined.

End GatewaySpec.

(** ** The orchestrator *)

Module MainSpec.
Import Py PyFacts PatternMatcher Notions Main.

Lemma alter_last {A} (f : A -> A) (l : list A) (x : A) :
  alter f (length l) (l ++ [x])%list = (l ++ [f x])%list.
Proof. now rewrite <- (Nat.add_0_r (length l)), alter_app_r. Qed.

(** The gate always answers, and touches the counters only. *)
Lemma should_auto_execute_returns (self : HybridClassifier.t)
    (action : RemediationAction) (dry_run : bool) :
  exists b st,
    HybridClassifier.should_auto_execute action dry_run self =
      (Ret b, HybridClassifier.mk (HybridClassifier.pattern_matcher self)
                (HybridClassifier.ai_analyzer self) st).
Proof.
  unfold HybridClassifier.should_auto_execute.
  destruct dry_run; [destruct self; eexists _, _; reflexivity|].
  destruct (eq_str _ _); [destruct self; eexists _, _; reflexivity|].
  unfold bind, gets, modify, ret; cbn.
  destruct (_ <=? _)%float; [|destruct self]; eexists _, _; reflexivity.
Qed.

Section WithDecoder.

Variable json_loads : string -> outcome pyval.

(** What [process_alert] leaves in the two histories, by what the gate
    decided and what the executor did.  It always returns; it appends one
    entry to the alert history; it appends an entry to the action history
    exactly when the gate said yes and [execute] returned a result. *)
Lemma process_alert_histories (g : Main.t) (alert : Alert) (clock : Clock) :
  exists res g' entry action c1,
    process_alert json_loads alert clock g = (Ret res, g')
    /\ alert_history g' = (alert_history g ++ [entry])%list
    /\ a_alert entry = alert
    /\ (a_status entry = "completed" \/ a_status entry = "failed")
    /\ HybridClassifier.classify json_loads alert None None (classifier g)
       = (Ret action, c1)
    /\ match decision c1 action (DRY_RUN g),
             fst (KubernetesRemediator.execute action alert (at_restart clock)
                    (remediator g)) with
       | Ret true, Ret r =>
           action_history g' =
             (action_history g ++
              [mkActionEntry (get_label (labels alert) "alertname" "Unknown")
                 (action_type action) r (at_execution clock)])%list
       | _, _ => action_history g' = action_history g
       end.
Proof.
  destruct (GatewaySpec.classify_returns json_loads (classifier g) alert None None)
    as (action & st & Hc).
  destruct (should_auto_execute_returns
              (HybridClassifier.mk (HybridClassifier.pattern_matcher (classifier g))
                 (HybridClassifier.ai_analyzer (classifier g)) st)
              action (DRY_RUN g)) as (auto & st' & Ha).
  unfold decision.
  run_main. proj. rewrite Hc. proj. rewrite Ha. proj.
  destruct auto; proj.
  - destruct (KubernetesRemediator.execute action alert (at_restart clock)
                (remediator g)) as [[r|e] rem'] eqn:Hx; proj.
    + destruct (SlackNotifier.send_alert_notification alert action (Some r) true
                  (notifier g)) as [[b|e] n'] eqn:Hs; proj;
        rewrite alter_last; eexists _, _, _, _, _;
        (split; [reflexivity|]); proj; rewrite ?Ha, ?Hx; repeat split; auto.
    + rewrite alter_last. eexists _, _, _, _, _.
      (split; [reflexivity|]); proj; rewrite ?Ha, ?Hx; repeat split; auto.
  - destruct (SlackNotifier.send_alert_notification alert action None false
                (notifier g)) as [[b|e] n'] eqn:Hs; proj;
      rewrite alter_last; eexists _, _, _, _, _;
      (split; [reflexivity|]); proj; rewrite ?Ha; repeat split; auto.
Qed.

(** A notification about an action whose type is a string never raises. *)
Lemma notification_returns (self : SlackNotifier.t) (alert : Alert)
    (action : RemediationAction) (kind : string)
    (execution_result : option KubernetesRemediator.Result) (auto_executed : bool) :
  action_type action = PStr kind ->
  exists b self',
    SlackNotifier.send_alert_notification alert action execution_result
      auto_executed self = (Ret b, self').
Proof.
  intros Hk. unfold SlackNotifier.send_alert_notification, bind, gets, lift; cbn.
  destruct (SlackNotifier.webhook self) as [post|]; [|eexists _, _; reflexivity].
  unfold SlackNotifier._build_alert_message. rewrite Hk. cbn.
  unfold SlackNotifier._send, try_M, bind, lift, modify, ret; cbn.
  destruct (post _) as [code|e]; cbn; [destruct (code =? 200)%Z|];
    eexists _, _; reflexivity.
Qed.

(** C9: for an alert that no rule matches, by name or by description, and
    with the reasoner unavailable, classification returns an [investigate]
    action of confidence 0.0; the gate refuses it, dry run or not;
    [process_alert] leaves the action history as it was and appends an alert
    entry marked [completed]. *)
Theorem unmatched_alert_is_left_to_a_human :
  forall (g : Main.t) (alert : Alert) (clock : Clock),
    Forall (fun rule =>
              alert_name rule <> get_label (labels alert) "alertname" EmptyString
              /\ Re.search_ignorecase (pattern rule)
                   (lower (get_label (annotations alert) "description" EmptyString))
                 = false)
           (patterns (HybridClassifier.pattern_matcher (classifier g))) ->
    AIAnalyzer.is_available (HybridClassifier.ai_analyzer (classifier g)) = false ->
    exists action g',
      fst (HybridClassifier.classify json_loads alert None None (classifier g))
      = Ret action
      /\ action_type action = PStr "investigate"
      /\ confidence action = 0.0%float
      /\ (forall c dry_run, decision c action dry_run = Ret false)
      /\ process_alert json_loads alert clock g
         = (Ret (Done (get_label (labels alert) "alertname" "Unknown")
                   (PStr "investigate") 0.0 false None), g')
      /\ action_history g' = action_history g
      /\ alert_history g'
         = (alert_history g ++
            [mkAlertEntry alert (at_receipt clock) "completed"
               (Some (mkActionSummary (PStr "investigate") 0.0 false None)) None])%list.
Proof.
  intros g alert clock Hrules Hav.
  assert (Hn : PatternMatcher.classify
                 (HybridClassifier.pattern_matcher (classifier g)) alert = None)
    by (apply PatternMatcherSpec.first_match_None, Hrules).
  assert (Hcl : AIAnalyzer.client (HybridClassifier.ai_analyzer (classifier g)) = None).
  { unfold AIAnalyzer.is_available in Hav.
    destruct (AIAnalyzer.client _); [discriminate Hav | reflexivity]. }
  pose proof (GatewaySpec.classify_unavailable json_loads (classifier g) alert
                None None Hn Hcl) as Hc.
  assert (Hd : forall c dry_run,
             HybridClassifier.should_auto_execute
               HybridClassifier.manual_investigation dry_run c = (Ret false, c))
    by (intros c [|]; reflexivity).
  destruct (notification_returns (notifier g) alert
              HybridClassifier.manual_investigation "investigate" None false eq_refl)
    as (b & n' & Hs).
  exists HybridClassifier.manual_investigation. eexists.
  split; [now rewrite Hc|]. split; [reflexivity|]. split; [reflexivity|].
  split; [intros c dry_run; unfold decision; now rewrite Hd|].
  run_main. proj. rewrite Hc. proj. rewrite Hd. proj. rewrite Hs. proj.
  rewrite alter_last. repeat split.
Qed.

End WithDecoder.

(** C9 on the agent at its start, without a reasoner. *)
Lemma unmatched_alert_is_left_to_a_human_witness :
  exists action g',
    fst (HybridClassifier.classify Json.loads
           Scenario.odd_alert None None
           (classifier (Scenario.agent false None "svc" 2)))
    = Ret action
    /\ action_type action = PStr "investigate"
    /\ confidence action = 0.0%float
    /\ (forall c dry_run, decision c action dry_run = Ret false)
    /\ process_alert Json.loads Scenario.odd_alert
         Scenario.clock (Scenario.agent false None "svc" 2)
       = (Ret (Done "Odd" (PStr "investigate") 0.0 false None), g')
    /\ action_history g' = []
    /\ alert_history g'
       = [mkAlertEntry Scenario.odd_alert
            "2024-01-15T10:30:00" "completed"
            (Some (mkActionSummary (PStr "investigate") 0.0 false None)) None].
Proof.
  apply (unmatched_alert_is_left_to_a_human Json.loads
           (Scenario.agent false None "svc" 2)
           Scenario.odd_alert Scenario.clock).
  - repeat constructor; try discriminate; vm_compute; reflexivity.
  - reflexivity.
Defined.

(** *** An executed action without its history entry (C4) *)

(** C4, on the code: an alert no rule matches, a reasoner that answers
    [reply_scale_by_string], a deployment with 2 replicas.  The gate says
    yes (and counts the action as auto-executed), [execute] raises, and
    [process_alert] ends with the alert entry marked [failed] and no entry
    in the action history. *)
Theorem auto_executed_without_action_entry :
  exists action c1 c2 g',
    HybridClassifier.classify Json.loads
      Scenario.odd_alert None None
      (classifier (Scenario.agent_replying Scenario.reply_scale_by_string))
    = (Ret action, c1)
    /\ HybridClassifier.should_auto_execute action false c1 = (Ret true, c2)
    /\ process_alert Json.loads Scenario.odd_alert
         Scenario.clock
         (Scenario.agent_replying Scenario.reply_scale_by_string)
       = (Ret (Error "Odd" "unsupported operand type(s) for +: 'int' and 'str'"), g')
    /\ HybridClassifier.auto_executed (HybridClassifier.stats (classifier g')) = 1
    /\ map a_status (alert_history g') = ["failed"]
    /\ action_history g' = [].
Proof.
  eexists _, _, _, _.
  split; [vm_compute; reflexivity|].
  split; [vm_compute; reflexivity|].
  split; [vm_compute; reflexivity|].
  repeat split.
Qed.

(** *** Action types of the reasoner (C10) *)

(** C10, as stated, fails: the reply [reply_null_confidence] parses as
    JSON and holds the key [action_type] with the value [restart], and the
    action built from it has the type [investigate]: [float(None)] raises,
    and the handler of [Exception] answers. *)
Lemma action_type_lost_when_confidence_is_null :
  exists d action,
    Json.loads Scenario.reply_null_confidence = Ret (PDict d)
    /\ dict_lookup d "action_type" = Some (PStr "restart")
    /\ AIAnalyzer._parse_ai_response Json.loads Scenario.reply_null_confidence
         Scenario.odd_alert = Ret action
    /\ action_type action = PStr "investigate"
    /\ action_type action <> PStr "restart".
Proof.
  eexists _, _. split; [vm_compute; reflexivity|]. split; [reflexivity|].
  split; [vm_compute; reflexivity|]. split; [reflexivity | discriminate].
Qed.

(** C10, amended: when the reply parses as a JSON object and [float]
    accepts its confidence (the value of the key, 0.5 without the key), the
    action's type is the value of the key [action_type], as it stands, and
    [investigate] without the key; no list of types is consulted.  And for
    the reply [reply_delete_namespace] the pipeline classifies, decides to
    execute, and gets from [execute] the [error] result of an unknown action
    type. *)
Theorem reply_action_type_is_not_validated :
  (forall (json_loads : string -> outcome pyval) (alert : Alert)
          (ai_response txt : string) (d : list (string * pyval)) (c : float),
      AIAnalyzer.response_text ai_response = Ret txt ->
      json_loads txt = Ret (PDict d) ->
      Num.float_of (default (PFloat 0.5) (dict_lookup d "confidence")) = Ret c ->
      exists action,
        AIAnalyzer._parse_ai_response json_loads ai_response alert = Ret action
        /\ action_type action
           = default (PStr "investigate") (dict_lookup d "action_type")
        /\ confidence action = c)
  /\ (exists g',
        process_alert Json.loads Scenario.odd_alert
          Scenario.clock
          (Scenario.agent_replying Scenario.reply_delete_namespace)
        = (Ret (Done "Odd" (PStr "delete_namespace") 0.95 true
                  (Some (KubernetesRemediator.result "error"
                           [Lit "Unknown action type: ";
                            Fmt (PStr "delete_namespace")]))), g')).
Proof.
  split.
  - intros json_loads alert ai_response txt d c Ht Hj Hc. eexists. split.
    + apply (AIAnalyzerSpec.parse_object _ _ _ txt d c Ht Hj Hc).
    + split; reflexivity.
  - eexists. vm_compute. reflexivity.
Qed.

(** The amended C10 on the reply [reply_delete_namespace]. *)
Lemma reply_action_type_is_not_validated_witness :
  exists action,
    AIAnalyzer._parse_ai_response Json.loads Scenario.reply_delete_namespace
      Scenario.odd_alert = Ret action
    /\ action_type action = PStr "delete_namespace"
    /\ confidence action = 0.95%float.
Proof.
  apply (proj1 reply_action_type_is_not_validated Json.loads
           Scenario.odd_alert
           Scenario.reply_delete_namespace Scenario.reply_delete_namespace
           [("action_type", PStr "delete_namespace"); ("confidence", PFloat 0.95)]
           0.95%float); vm_compute; reflexivity.
Defined.

End MainSpec.

(** ** The rule table: search order and the shape of its actions *)

Module RuleTableSpec.
Import Py PatternMatcher Notions.

Lemma first_match_Some (rules : list pattern_def) (n d : string)
    (a : RemediationAction) :
  first_match rules n d = Some a ->
  exists i rule, rules !! i = Some rule /\ a = action rule
    /\ fires rule n d = true
    /\ forall j r, j < i -> rules !! j = Some r -> fires r n d = false.
Proof.
  induction rules as [|r0 rest IH]; [discriminate|].
  rewrite PatternMatcherSpec.first_match_cons.
  destruct (fires r0 n d) eqn:Hf.
  - intros [= <-]. exists 0, r0. repeat split; trivial. intros j r Hj; lia.
  - intros H. destruct (IH H) as (i & rule & Hi & Ha & Hr & Hb).
    exists (S i), rule. repeat split; trivial.
    intros [|j] r Hj Hr'; [now injection Hr' as <-|].
    apply (Hb j); [lia | exact Hr'].
Qed.

Lemma classify_in_table (self : t) (alert : Alert) (a : RemediationAction) :
  classify self alert = Some a -> In a (map action (patterns self)).
Proof.
  unfold classify. intros H.
  destruct (first_match_Some _ _ _ _ H) as (i & rule & Hi & -> & _).
  apply in_map. apply list_elem_of_In. now apply list_elem_of_lookup_2 in Hi.
Qed.

(** X1: [classify] is a search for the first rule that fires, whatever the
    table.  A rule fires when its [alert_name] is the alert's [alertname]
    label or its pattern is found in the lower-cased description.  When
    [classify] returns an action, it is the action of a rule of the table
    that fires, and no rule before it in the table fires; when it returns
    nothing, no rule of the table fires. *)
Theorem classify_returns_first_firing_rule :
  forall (self : t) (alert : Alert),
    let n := get_label (labels alert) "alertname" EmptyString in
    let d := lower (get_label (annotations alert) "description" EmptyString) in
    match classify self alert with
    | Some a =>
        exists i rule,
          patterns self !! i = Some rule /\ a = action rule
          /\ fires rule n d = true
          /\ forall j r, j < i -> patterns self !! j = Some r -> fires r n d = false
    | None => forall rule, In rule (patterns self) -> fires rule n d = false
    end.
Proof.
  intros self alert n d. unfold classify. fold n d.
  destruct (first_match (patterns self) n d) as [a|] eqn:Hm.
  - now apply first_match_Some.
  - apply PatternMatcherSpec.first_match_None in Hm.
    intros rule Hin. rewrite Forall_forall in Hm.
    destruct (Hm rule) as [Hn Hs]; [now apply list_elem_of_In|].
    unfold fires. rewrite Hs, orb_false_r. now apply String.eqb_neq.
Qed.

(** X2: whatever the alert, an action that the rule classifier returns from
    the table of [_load_patterns] has one of the four action types the
    executor knows, a target that is [pod] or [deployment], parameters that
    are a mapping, and a confidence from 0.70 to 0.95. *)
Theorem rule_actions_are_well_formed :
  forall (alert : Alert) (a : RemediationAction),
    classify init alert = Some a ->
    In (action_type a) known_action_types
    /\ In (target a) [PStr "pod"; PStr "deployment"]
    /\ is_mapping (parameters a)
    /\ (0.70 <=? confidence a)%float = true
    /\ (confidence a <=? 0.95)%float = true.
Proof.
  intros alert a H. apply classify_in_table in H. simpl in H.
  repeat (destruct H as [<-|H];
          [unfold known_action_types, is_mapping; simpl;
           repeat split; eauto 10 |]).
  destruct H.
Qed.

(** X2 at an alert named [HighErrorRate], which gets the rollback action. *)
Lemma rule_actions_are_well_formed_witness :
  In (PStr "rollback") known_action_types
  /\ In (PStr "deployment") [PStr "pod"; PStr "deployment"]
  /\ is_mapping (PDict [("revisions_back", PInt 1)])
  /\ (0.70 <=? 0.88)%float = true
  /\ (0.88 <=? 0.95)%float = true.
Proof.
  apply (rule_actions_are_well_formed
           (Scenario.alert_named "HighErrorRate" "error rate above 5%" "svc")
           Scenario.rollback_by_one).
  vm_compute. reflexivity.
Defined.

End RuleTableSpec.

(** ** The counters of the classifier *)

Module CountersSpec.
Import Py PatternMatcher HybridClassifier Notions.

Section WithDecoder.

Variable json_loads : string -> outcome pyval.

(** One classification: the alert is counted, and so is the tier that
    answered. *)
Lemma classify_step (self : HybridClassifier.t) (alert : Alert)
    (recent_metrics : option (list pyval)) (pod_logs : option string) :
  exists st,
    snd (classify json_loads alert recent_metrics pod_logs self)
    = mk (pattern_matcher self) (ai_analyzer self) st
    /\ total_alerts st = S (total_alerts (stats self))
    /\ auto_executed st = auto_executed (stats self)
    /\ ((rule_based_matches st = S (rule_based_matches (stats self))
         /\ ai_analysis_used st = ai_analysis_used (stats self)
         /\ manual_review st = manual_review (stats self))
        \/ (rule_based_matches st = rule_based_matches (stats self)
            /\ ai_analysis_used st = S (ai_analysis_used (stats self))
            /\ manual_review st <= S (manual_review (stats self))
            /\ manual_review (stats self) <= manual_review st
            /\ AIAnalyzer.is_available (ai_analyzer self) = true)
        \/ (rule_based_matches st = rule_based_matches (stats self)
            /\ ai_analysis_used st = ai_analysis_used (stats self)
            /\ manual_review st = S (manual_review (stats self)))).
Proof.
  destruct (PatternMatcher.classify (pattern_matcher self) alert) as [a|] eqn:Hr.
  { rewrite (GatewaySpec.classify_by_rule json_loads _ _ _ _ a Hr).
    eexists. split; [reflexivity|]. simpl. repeat split. left. repeat split. }
  destruct (AIAnalyzer.client (ai_analyzer self)) as [create|] eqn:Hc.
  2:{ rewrite (GatewaySpec.classify_unavailable json_loads _ _ _ _ Hr Hc).
      eexists. split; [reflexivity|]. simpl. repeat split. right; right. repeat split. }
  assert (Hav : AIAnalyzer.is_available (ai_analyzer self) = true)
    by (unfold AIAnalyzer.is_available; now rewrite Hc).
  destruct (AIAnalyzerSpec.analyze_alert_returns json_loads (ai_analyzer self) alert
              recent_metrics pod_logs) as [[a|] Ha].
  - rewrite (GatewaySpec.classify_by_reasoner json_loads _ _ _ _ a Hr Ha).
    eexists. split; [reflexivity|]. simpl. split; [reflexivity|]. split; [reflexivity|].
    right; left. repeat split; trivial; lia.
  - rewrite (GatewaySpec.classify_reasoner_gives_nothing json_loads _ _ _ _ Hr Hav Ha).
    eexists. split; [reflexivity|]. simpl. split; [reflexivity|]. split; [reflexivity|].
    right; left. repeat split; trivial; lia.
Qed.


End WithDecoder.

(** X4: [should_auto_execute] always returns, and counts its approvals: it
    leaves the classifier as it was when it answers no, and adds one to
    [auto_executed], and nothing else, when it answers yes (before the
    action is executed, and whether or not the execution then succeeds). *)
Theorem should_auto_execute_counts_the_approvals :
  forall (self : HybridClassifier.t) (action : RemediationAction) (dry_run : bool),
    exists b : bool,
      should_auto_execute action dry_run self =
        (Ret b, if b then set_stats incr_auto_executed self else self).
Proof.
  intros self action dry_run. unfold should_auto_execute.
  destruct dry_run; [exists false; reflexivity|].
  destruct (eq_str _ _); [exists false; reflexivity|].
  unfold bind, gets, modify, ret, get_confidence_threshold; cbn.
  destruct (0.85 <=? confidence action)%float;
    [exists true | exists false]; reflexivity.
Qed.



End CountersSpec.

(** ** The statistics of the classifier and of the notifier *)

Module StatisticsSpec.
Import Py PatternMatcher Notions.

Lemma truediv_raises (a b : nat) (e : exn) :
  Num.truediv a b = Raise e ->
  b <> 0 -> exists msg, e = OverflowError msg.
Proof.
  unfold Num.truediv. destruct b as [|b]; [intros _ H; now destruct H|].
  destruct a as [|a]; [discriminate|]. cbv zeta.
  destruct (is_infinity _); [|discriminate].
  intros [= <-] _. eauto.
Qed.

(** X6: the statistics guard their divisions.  [get_stats] of the
    classifier returns the bare counters as long as no alert was classified,
    and a report with the three percentages after that; [get_stats] of the
    notifier reports the int 0 as success rate as long as nothing was sent
    or failed, and a float after that.  Neither divides by zero: the only
    exception either can raise is the [OverflowError] of a quotient beyond
    the range of a float. *)
Theorem statistics_guard_their_divisions :
  (forall self : HybridClassifier.t,
      (HybridClassifier.total_alerts (HybridClassifier.stats self) = 0 ->
       HybridClassifier.get_stats self
       = Ret (HybridClassifier.mkStatsReport (HybridClassifier.stats self)
                None None None))
      /\ (forall r, HybridClassifier.get_stats self = Ret r ->
          HybridClassifier.counters r = HybridClassifier.stats self
          /\ (HybridClassifier.total_alerts (HybridClassifier.stats self) <> 0 ->
              is_Some (HybridClassifier.rule_based_percentage r)
              /\ is_Some (HybridClassifier.ai_usage_percentage r)
              /\ is_Some (HybridClassifier.auto_execute_percentage r)))
      /\ (forall e, HybridClassifier.get_stats self = Raise e ->
          exists msg, e = OverflowError msg))
  /\ (forall self : SlackNotifier.t,
      (SlackNotifier.notifications_sent self = 0 ->
       SlackNotifier.notifications_failed self = 0 ->
       SlackNotifier.get_stats self
       = Ret (SlackNotifier.mkNotificationStats (SlackNotifier.is_enabled self)
                0 0 (PInt 0)))
      /\ (forall r, SlackNotifier.get_stats self = Ret r ->
          SlackNotifier.stats_sent r = SlackNotifier.notifications_sent self
          /\ SlackNotifier.stats_failed r = SlackNotifier.notifications_failed self
          /\ (SlackNotifier.notifications_sent self
              + SlackNotifier.notifications_failed self <> 0 ->
              exists f, SlackNotifier.success_rate r = PFloat f))
      /\ (forall e, SlackNotifier.get_stats self = Raise e ->
          exists msg, e = OverflowError msg)).
Proof.
  split; intros self.
  - unfold HybridClassifier.get_stats.
    destruct (HybridClassifier.total_alerts (HybridClassifier.stats self)) as [|n] eqn:Ht.
    { simpl. split; [reflexivity|]. split; [|intros e [=]].
      intros r [= <-]. simpl. split; [reflexivity|]. intros H; now destruct H. }
    cbn [Nat.eqb]. split; [discriminate|].
    destruct (Num.truediv (HybridClassifier.rule_based_matches _) (S n)) as [x|e1] eqn:H1;
      cbn [obind].
    2:{ split; [discriminate|]. intros e [= <-].
        now apply (truediv_raises _ _ _ H1). }
    destruct (Num.truediv (HybridClassifier.ai_analysis_used _) (S n)) as [y|e2] eqn:H2;
      cbn [obind].
    2:{ split; [discriminate|]. intros e [= <-].
        now apply (truediv_raises _ _ _ H2). }
    destruct (Num.truediv (HybridClassifier.auto_executed _) (S n)) as [z|e3] eqn:H3;
      cbn [obind].
    2:{ split; [discriminate|]. intros e [= <-].
        now apply (truediv_raises _ _ _ H3). }
    split; [|discriminate]. intros r [= <-]. simpl. eauto 10.
  - unfold SlackNotifier.get_stats. cbv zeta.
    destruct (SlackNotifier.notifications_sent self
              + SlackNotifier.notifications_failed self) as [|n] eqn:Ht.
    { cbn. assert (SlackNotifier.notifications_sent self = 0) as -> by lia.
      assert (SlackNotifier.notifications_failed self = 0) as -> by lia.
      split; [reflexivity|]. split; [|intros e [=]].
      intros r [= <-]. simpl. split; [reflexivity|]. split; [reflexivity|].
      intros H; now destruct H. }
    cbn [Nat.ltb Nat.leb].
    split; [intros H1 H2; rewrite H1, H2 in Ht; discriminate Ht|].
    destruct (Num.truediv (SlackNotifier.notifications_sent self) (S n)) as [x|e1] eqn:H1;
      cbn [obind].
    + split; [|discriminate]. intros r [= <-]. simpl. eauto.
    + split; [discriminate|]. intros e [= <-]. now apply (truediv_raises _ _ _ H1).
Qed.

(** X6 on a classifier and a notifier at their start. *)
Lemma statistics_guard_their_divisions_witness :
  HybridClassifier.get_stats (HybridClassifier.init None)
  = Ret (HybridClassifier.mkStatsReport (HybridClassifier.mkStats 0 0 0 0 0)
           None None None)
  /\ SlackNotifier.get_stats (SlackNotifier.init None)
     = Ret (SlackNotifier.mkNotificationStats false 0 0 (PInt 0)).
Proof.
  split.
  - apply (proj1 (proj1 statistics_guard_their_divisions
                    (HybridClassifier.init None))). reflexivity.
  - apply (proj1 (proj2 statistics_guard_their_divisions
                    (SlackNotifier.init None))); reflexivity.
Defined.

End StatisticsSpec.

(** ** Strings: [strip], [split] and reversal *)

Module StringFacts.
Import Py Notions.

Lemma app_assoc_s (a b c : string) : (a +:+ b) +:+ c = a +:+ (b +:+ c).
Proof. induction a as [|x a IH]; norm; [reflexivity | now f_equal]. Qed.

Lemma app_nil_r_s (a : string) : a +:+ EmptyString = a.
Proof. induction a as [|x a IH]; norm; [reflexivity | now f_equal]. Qed.

Lemma rev_app_append (s1 s2 : string) :
  String.rev_app s1 s2 = String.rev s1 +:+ s2.
Proof.
  unfold String.rev. revert s2; induction s1 as [|a s1 IH]; intros s2;
    cbn [String.rev_app]; [reflexivity|].
  rewrite (IH (String a EmptyString)), IH, app_assoc_s. reflexivity.
Qed.

Lemma rev_String (c : ascii) (s : string) :
  String.rev (String c s) = String.rev s +:+ String c EmptyString.
Proof. unfold String.rev at 1. cbn [String.rev_app]. apply rev_app_append. Qed.

Lemma rev_append (a b : string) :
  String.rev (a +:+ b) = String.rev b +:+ String.rev a.
Proof.
  induction a as [|x a IH]; norm.
  - change (String.rev EmptyString) with EmptyString. now rewrite app_nil_r_s.
  - now rewrite !rev_String, IH, app_assoc_s.
Qed.

Lemma rev_rev (s : string) : String.rev (String.rev s) = s.
Proof.
  induction s as [|x s IH]; [reflexivity|].
  rewrite rev_String, rev_append, IH. reflexivity.
Qed.

Lemma lstrip_app_nonspace (a b : string) (c : ascii) :
  isspace c = false -> lstrip (a +:+ String c b) = lstrip a +:+ String c b.
Proof.
  intros Hc. induction a as [|x a IH]; norm; cbn [lstrip]; [now rewrite Hc|].
  destruct (isspace x); [exact IH | reflexivity].
Qed.

Lemma lstrip_nonspace (b : string) (c : ascii) :
  isspace c = false -> lstrip (String c b) = String c b.
Proof. intros Hc. cbn [lstrip]. now rewrite Hc. Qed.

(** What [lstrip] returns is empty or starts with a character that is no
    blank. *)
Lemma lstrip_head (s : string) :
  lstrip s = EmptyString
  \/ exists c b, lstrip s = String c b /\ isspace c = false.
Proof.
  induction s as [|x s IH]; cbn [lstrip]; [now left|].
  destruct (isspace x) eqn:Hx; [exact IH | right; eauto].
Qed.

Lemma lstrip_idemp (s : string) : lstrip (lstrip s) = lstrip s.
Proof.
  destruct (lstrip_head s) as [->|(c & b & -> & Hc)]; [reflexivity|].
  now apply lstrip_nonspace.
Qed.

(** [strip] leaves a string that neither starts nor ends with a blank. *)
Lemma strip_trimmed (s : string) :
  lstrip s = s -> lstrip (String.rev s) = String.rev s -> strip s = s.
Proof. intros H1 H2. unfold strip. now rewrite H1, H2, rev_rev. Qed.

Lemma strip_idemp (s : string) : strip (strip s) = strip s.
Proof.
  apply strip_trimmed.
  - unfold strip.
    destruct (lstrip_head s) as [->|(c & b & -> & Hc)]; [reflexivity|].
    rewrite rev_String, (lstrip_app_nonspace _ _ _ Hc), rev_append.
    change (String.rev (String c EmptyString)) with (String c EmptyString). norm.
    now apply lstrip_nonspace.
  - unfold strip. rewrite rev_rev. apply lstrip_idemp.
Qed.

Lemma free_of_app (c : ascii) (a b : string) :
  free_of c (a +:+ b) = free_of c a && free_of c b.
Proof.
  induction a as [|x a IH]; norm; cbn [free_of]; [reflexivity|].
  now rewrite IH, andb_assoc.
Qed.

Lemma free_of_rev (c : ascii) (s : string) : free_of c (String.rev s) = free_of c s.
Proof.
  induction s as [|x s IH]; [reflexivity|].
  rewrite rev_String, free_of_app, IH. cbn [free_of].
  rewrite andb_true_r. apply andb_comm.
Qed.

Lemma free_of_lstrip (c : ascii) (s : string) :
  free_of c s = true -> free_of c (lstrip s) = true.
Proof.
  induction s as [|x s IH]; cbn [lstrip free_of]; [trivial|].
  intros H. destruct (isspace x); [|exact H].
  apply andb_true_iff in H as [_ H]. now apply IH.
Qed.

Lemma free_of_strip (c : ascii) (s : string) :
  free_of c s = true -> free_of c (strip s) = true.
Proof.
  intros H. unfold strip. rewrite free_of_rev. apply free_of_lstrip.
  rewrite free_of_rev. now apply free_of_lstrip.
Qed.

Lemma prefix_fence (rest : string) :
  String.prefix "```" (String "`" (String "`" (String "`" rest))) = true.
Proof. cbn. now destruct rest. Qed.

(** Up to the next fence [split] reads one part. *)
Lemma split_go_to_fence (pre rest cur : string) :
  free_of "`" pre = true ->
  split_go "```" (pre +:+ "```" +:+ rest) 0 cur
  = (String.rev cur +:+ pre) :: split_go "```" rest 0 EmptyString.
Proof.
  revert cur; induction pre as [|c pre IH]; intros cur Hf.
  - norm. cbn [split_go]. rewrite prefix_fence, app_nil_r_s.
    change (String.length "```" - 1) with 2. reflexivity.
  - cbn [free_of] in Hf. apply andb_true_iff in Hf as [Hc Hf].
    norm. cbn [split_go String.prefix].
    destruct (ascii_dec "`" c) as [<-|_]; [discriminate Hc|].
    rewrite (IH _ Hf), rev_String, app_assoc_s. reflexivity.
Qed.

(** [strip] keeps what stands between the first character that is no blank
    and a later one. *)
Lemma strip_between (lead middle rest : string) (c c' : ascii) :
  lstrip lead = EmptyString -> isspace c = false -> isspace c' = false ->
  strip (lead +:+ String c middle +:+ String c' rest)
  = String c middle +:+ String c' (String.rev (lstrip (String.rev rest))).
Proof.
  intros Hlead Hc Hc'. unfold strip. norm.
  rewrite (lstrip_app_nonspace _ _ _ Hc), Hlead. norm.
  change (String c (middle +:+ String c' rest))
    with (String c middle +:+ String c' rest).
  rewrite rev_append, (rev_String c' rest), app_assoc_s. norm.
  rewrite (lstrip_app_nonspace _ _ _ Hc'), rev_append, (rev_String c'), rev_rev.
  repeat first [rewrite app_assoc_s | progress norm]. reflexivity.
Qed.

Lemma prefix_json (rest : string) :
  String.prefix "json" (String "j" (String "s" (String "o" (String "n" rest)))) = true.
Proof. cbn. now destruct rest. Qed.

End StringFacts.

(** ** The prompt and the reply of the reasoner *)

Module PromptSpec.
Import Py PyFacts PatternMatcher AIAnalyzer Notions StringFacts.

Lemma length_drop_s (n : nat) (s : string) :
  String.length (drop_s n s) = String.length s - n.
Proof.
  revert s; induction n as [|n IH]; intros [|c s]; simpl; auto.
Qed.

Lemma slice_last_idemp (n : nat) (s : string) :
  slice_last n (slice_last n s) = slice_last n s.
Proof.
  unfold slice_last. rewrite length_drop_s.
  replace (String.length s - (String.length s - n) - n) with 0 by lia.
  now destruct (drop_s _ s).
Qed.

Lemma slice_last_empty (n : nat) (s : string) :
  0 < n -> slice_last n s = EmptyString -> s = EmptyString.
Proof.
  intros Hn H. apply (f_equal String.length) in H.
  unfold slice_last in H. rewrite length_drop_s in H. simpl in H.
  destruct s; [reflexivity | simpl in H; lia].
Qed.

(** X7: the prompt of [_build_context] depends on the first five metrics
    and the last 2000 characters of the logs only: it is the prompt built
    from these.  An empty list of metrics is as no metrics, empty logs are
    as no logs. *)
Theorem context_is_bounded_in_metrics_and_logs :
  forall (alert : Alert) (recent_metrics : option (list pyval))
         (pod_logs : option string),
    _build_context alert recent_metrics pod_logs
    = _build_context alert (option_map (take 5) recent_metrics)
        (option_map (slice_last 2000) pod_logs)
    /\ _build_context alert (Some []) pod_logs = _build_context alert None pod_logs
    /\ _build_context alert recent_metrics (Some EmptyString)
       = _build_context alert recent_metrics None.
Proof.
  intros alert rm pl. split; [|split; reflexivity].
  unfold _build_context.
  destruct rm as [[|m ms]|]; cbn [option_map take]; rewrite ?take_take;
    cbn [Nat.min];
    match goal with
    | |- obind ?c ?k = obind ?c ?k' => destruct c as [x|e]; [|reflexivity]
    end; cbn [obind]; f_equal; f_equal;
    (destruct pl as [[|c l]|]; try reflexivity; cbn [option_map];
     destruct (slice_last 2000 (String c l)) as [|c' l'] eqn:Hs;
     [ apply slice_last_empty in Hs; [discriminate Hs | lia]
     | rewrite <- Hs, slice_last_idemp; reflexivity ]).
Qed.

(** X8: a reply in a code fence reads as its body.  When the reply is,
    after blanks, a fence, an optional [json] tag, a body without a
    backquote, and a closing fence, the text handed to the decoder is the
    body without its surrounding blanks, whatever follows the closing fence;
    the same text as for the body sent bare.  (A body sent without tag must
    not itself start with [json].) *)
Theorem fenced_reply_reads_as_its_body :
  forall (lead body rest : string) (tagged : bool),
    lstrip lead = EmptyString ->
    free_of "`" body = true ->
    (tagged = false -> startswith body "json" = false) ->
    response_text
      (lead +:+ "```" +:+ (if tagged then "json" else EmptyString) +:+ body
       +:+ "```" +:+ rest)
    = Ret (strip body)
    /\ response_text body = Ret (strip body).
Proof.
  intros lead body rest tagged Hlead Hfree Htag. split.
  - set (tag := if tagged then "json" else EmptyString).
    assert (Hstrip : exists rest',
               strip (lead +:+ "```" +:+ tag +:+ body +:+ "```" +:+ rest)
               = String "`" (String "`" (String "`"
                   ((tag +:+ body) +:+ "```" +:+ rest')))).
    { exists (String.rev (lstrip (String.rev rest))).
      replace (lead +:+ "```" +:+ tag +:+ body +:+ "```" +:+ rest)
        with (lead +:+ String "`" ("``" +:+ (tag +:+ body) +:+ "``")
              +:+ String "`" rest) by (repeat first [rewrite app_assoc_s | progress norm]; reflexivity).
      rewrite (strip_between lead _ rest "`" "`" Hlead eq_refl eq_refl).
      repeat first [rewrite app_assoc_s | progress norm]. reflexivity. }
    destruct Hstrip as [rest' Hstrip].
    assert (Hfree' : free_of "`" (tag +:+ body) = true).
    { rewrite free_of_app, Hfree. now destruct tagged. }
    unfold response_text. rewrite Hstrip. unfold startswith at 1.
    rewrite prefix_fence. unfold split. cbn [split_go]. rewrite prefix_fence.
    change (String.length "```" - 1) with 2. cbn [split_go].
    rewrite (split_go_to_fence _ _ _ Hfree').
    change (String.rev EmptyString +:+ (tag +:+ body)) with (tag +:+ body).
    cbn [obind]. subst tag. destruct tagged.
    + norm. unfold startswith. rewrite prefix_json. reflexivity.
    + norm. now rewrite (Htag eq_refl).
  - unfold response_text.
    destruct (startswith (strip body) "```") eqn:Hs.
    + apply (free_of_strip "`") in Hfree. unfold startswith in Hs.
      destruct (strip body) as [|c s]; [discriminate Hs|].
      cbn [String.prefix] in Hs. destruct (ascii_dec "`" c) as [<-|_];
        [cbn in Hfree; discriminate Hfree | discriminate Hs].
    + cbn [obind]. now rewrite strip_idemp.
Qed.

(** X8 on the reply that holds [{}] in a fence tagged [json]. *)
Lemma fenced_reply_reads_as_its_body_witness :
  response_text
    (EmptyString +:+ "```" +:+ "json" +:+ "
{}
" +:+ "```" +:+ EmptyString) = Ret "{}"
  /\ response_text "
{}
" = Ret "{}".
Proof.
  apply (fenced_reply_reads_as_its_body EmptyString "
{}
" EmptyString true); [reflexivity | reflexivity | discriminate].
Defined.

End PromptSpec.

(** ** The executor: what it records, sends and returns *)

Module ExecutorSpec.
Import Py PatternMatcher KubernetesRemediator Notions.

Lemma bind_inv {S A B} (c : M S A) (k : A -> M S B) (s s' : S) (b : B) :
  bind c k s = (Ret b, s') ->
  exists a s1, c s = (Ret a, s1) /\ k a s1 = (Ret b, s').
Proof.
  unfold bind. destruct (c s) as [[a|e] s1]; [eauto | discriminate].
Qed.

(** What [_investigate] returns is an [investigation] or an [error]. *)
Lemma investigate_status (self : t) (service_name : string)
    (pod_name : option string) (action : RemediationAction) (r : Result) :
  fst (_investigate service_name pod_name action self) = Ret r ->
  (r_status r = "investigation" /\ r_action r = Some "investigate")
  \/ (r_status r = "error" /\ r_action r = None).
Proof.
  unfold _investigate, try_M at 1.
  match goal with
  | |- context [match ?c self with _ => _ end] =>
      destruct (c self) as [[a|e] s'] eqn:Hbody
  end; cbn.
  - intros [= <-]. left.
    repeat (apply bind_inv in Hbody as (? & ? & _ & Hbody)).
    injection Hbody as <- _. split; reflexivity.
  - intros [= <-]. right. split; reflexivity.
Qed.

(** What a call of [execute] does to the executor: its configuration stays,
    requests are added, and the action history stays as it is or gets the
    returned result, a [success], as its last entry. *)
Lemma execute_effect (self : t) (action : RemediationAction) (alert : Alert)
    (now : string) (res : outcome Result) (self' : t) :
  execute action alert now self = (res, self') ->
  namespace self' = namespace self /\ dry_run self' = dry_run self
  /\ cluster self' = cluster self
  /\ ((actions_taken self' = actions_taken self
       /\ forall r, res = Ret r -> r_status r <> "success")
      \/ exists r kind,
           res = Ret r /\ r_status r = "success" /\ r_action r = Some kind
           /\ In kind ["restart"; "scale"; "rollback"]
           /\ dry_run self = false
           /\ actions_taken self' = (actions_taken self ++ [r])%list).
Proof.
  intros Hrun. unfold execute in Hrun.
  destruct (eq_str (action_type action) "restart").
  { unfold _restart in Hrun. run_executor. cases_in Hrun;
      repeat split; try assumption;
      try (left; split; [reflexivity | intros ? [= <-]; discriminate]);
      try (right; eexists _, "restart"; repeat split; simpl; eauto; fail). }
  destruct (eq_str (action_type action) "scale").
  { unfold _scale in Hrun. run_executor. cases_in Hrun;
      repeat split; try assumption;
      try (left; split; [reflexivity | intros ? [= <-]; discriminate]);
      try (left; split; [reflexivity | intros ? [=]]);
      try (right; eexists _, "scale"; repeat split; simpl; eauto; fail). }
  destruct (eq_str (action_type action) "rollback").
  { unfold _rollback in Hrun. run_executor. cases_in Hrun;
      repeat split; try assumption;
      try (left; split; [reflexivity | intros ? [= <-]; discriminate]);
      try (left; split; [reflexivity | intros ? [=]]);
      try (right; eexists _, "rollback"; repeat split; simpl; eauto; fail). }
  destruct (eq_str (action_type action) "investigate").
  { pose proof (KubernetesRemediatorSpec.investigate_reads_only
                  (get_label (labels alert) "service" "unknown")
                  (labels alert !! "pod") action self) as Hf.
    pose proof (investigate_status self
                  (get_label (labels alert) "service" "unknown")
                  (labels alert !! "pod") action) as Hs.
    rewrite Hrun in Hf, Hs. simpl in Hf, Hs.
    destruct Hf as (Hn & Hd & Hc & Ha & _).
    repeat split; trivial. left. split; [exact Ha|].
    intros r ->. destruct (Hs r eq_refl) as [[-> _]|[-> _]]; discriminate. }
  injection Hrun as <- <-. repeat split. left. split; [reflexivity|].
  intros r [= <-]. discriminate.
Qed.

(** X9: [execute] records exactly its successes.  Whatever the action, the
    alert and the answers of the cluster, after a call the action history
    is the history before with the returned result appended when that
    result has the status [success], and the history before otherwise: when
    the result has another status, and when [execute] raises. *)
Theorem execute_records_exactly_the_successes :
  forall (self : t) (action : RemediationAction) (alert : Alert) (now : string),
    actions_taken (snd (execute action alert now self)) =
      match fst (execute action alert now self) with
      | Ret r =>
          if String.eqb (r_status r) "success"
          then (actions_taken self ++ [r])%list
          else actions_taken self
      | Raise _ => actions_taken self
      end.
Proof.
  intros self action alert now.
  destruct (execute action alert now self) as [res self'] eqn:Hrun.
  apply execute_effect in Hrun as (_ & _ & _ & [[Ha Hs]|(r & kind & -> & Hs & _ & _ & _ & Ha)]);
    simpl.
  - destruct res as [r|e]; [|exact Ha].
    destruct (String.eqb_spec (r_status r) "success") as [Heq|_]; [|exact Ha].
    now destruct (Hs r eq_refl).
  - now rewrite Hs.
Qed.

Lemma count_actions_app (kind : string) (l : list Result) (r : Result) :
  count_actions kind (l ++ [r]) =
    count_actions kind l + (if decide (r_action r = Some kind) then 1 else 0).
Proof.
  unfold count_actions. rewrite filter_app, length_app, filter_cons, filter_nil.
  destruct (decide (r_action r = Some kind)); reflexivity.
Qed.

Lemma after_executions_cons (a : RemediationAction) (al : Alert) (now : string)
    (calls : list (RemediationAction * Alert * string)) (self : t) :
  after_executions ((a, al, now) :: calls) self
  = after_executions calls (snd (execute a al now self)).
Proof. reflexivity. Qed.

(** What holds of the action history after any series of calls. *)
Lemma after_executions_history (calls : list (RemediationAction * Alert * string))
    (self : t) :
  let self' := after_executions calls self in
  dry_run self' = dry_run self
  /\ length (actions_taken self') <= length (actions_taken self) + length calls
  /\ (dry_run self = true -> actions_taken self' = actions_taken self)
  /\ count_actions "restart" (actions_taken self')
     + count_actions "scale" (actions_taken self')
     + count_actions "rollback" (actions_taken self')
     + length (actions_taken self)
     = count_actions "restart" (actions_taken self)
       + count_actions "scale" (actions_taken self)
       + count_actions "rollback" (actions_taken self)
       + length (actions_taken self').
Proof.
  revert self. induction calls as [|[[a al] now] calls IH]; intros self; cbn zeta.
  - simpl. repeat split; lia.
  - rewrite after_executions_cons.
    destruct (execute a al now self) as [res s1] eqn:Hrun. cbn [snd].
    specialize (IH s1). cbn zeta in IH. destruct IH as (Hd & Hl & Hdry & Hc).
    apply execute_effect in Hrun
      as (_ & Hd1 & _ & [[Ha _]|(r & kind & -> & _ & Hk & Hin & Hnd & Ha)]).
    + rewrite Ha in *. rewrite Hd1 in *. cbn [length]. repeat split; trivial; lia.
    + rewrite Hd1 in *. rewrite Hnd in *.
      split; [exact Hd|]. rewrite Ha in Hl, Hc. rewrite length_app in Hl, Hc.
      rewrite !count_actions_app, Hk in Hc. cbn [length] in *.
      split; [lia|]. split; [discriminate|].
      destruct Hin as [<-|[<-|[<-|[]]]]; simpl in Hc; lia.
Qed.

(** X10: [get_stats] after any series of calls of [execute] on an executor
    from its start: the counts of restart, scale and rollback actions add
    up to [total_actions] (an investigation is never counted); there are at
    most as many actions as calls; [dry_run_mode] is the flag the executor
    was made with; and in dry run [total_actions] stays 0. *)
Theorem get_stats_counts_add_up :
  forall (namespace_ : string) (dry : bool) (c : Cluster)
         (calls : list (RemediationAction * Alert * string)),
    let st := get_stats (after_executions calls (init namespace_ dry c)) in
    restart_actions st + scale_actions st + rollback_actions st = total_actions st
    /\ total_actions st <= length calls
    /\ dry_run_mode st = dry
    /\ (if dry then total_actions st = 0 else True).
Proof.
  intros ns dry c calls st.
  destruct (after_executions_history calls (init ns dry c)) as (Hd & Hl & Hdry & Hc).
  subst st. unfold get_stats; simpl in *.
  repeat split; try lia; trivial.
  destruct dry; [|exact I]. now rewrite Hdry.
Qed.

(** X11: with the dry-run flag set, and for an [investigate] action with
    or without the flag, [execute] only reads: every request it sends is a
    read, the action history and the configuration stay as they were,
    whether it returns or raises. *)
Theorem execute_only_reads_in_dry_run_or_investigation :
  forall (self : t) (action : RemediationAction) (alert : Alert) (now : string),
    dry_run self = true \/ action_type action = PStr "investigate" ->
    frame self (snd (execute action alert now self)).
Proof.
  intros self action alert now [Hdry|Hty].
  - now apply KubernetesRemediatorSpec.dry_run_never_mutates.
  - unfold execute. rewrite Hty. cbn [eq_str String.eqb Ascii.eqb Bool.eqb].
    apply KubernetesRemediatorSpec.investigate_reads_only.
Qed.

(** X11 on an investigation by an executor that is not in dry run. *)
Lemma execute_only_reads_in_dry_run_or_investigation_witness :
  frame Scenario.two_replicas
    (snd (execute HybridClassifier.manual_investigation
            Scenario.odd_alert "2024-01-15T10:30:01Z" Scenario.two_replicas)).
Proof.
  apply execute_only_reads_in_dry_run_or_investigation.
  right. reflexivity.
Defined.

(** X12: [_investigate] always returns, and tolerates the reads that fail.
    Without a pod name (none in the alert, or an empty one) the result is
    an [investigation] whose data hold no pod status and no logs, whatever
    the cluster answers.  With a pod name the result is an [investigation]
    with the status of the pod when the pod can be read, whatever becomes
    of the reads of the logs, the deployment and the events; and an
    [error], with the text of the exception and without data, when the read
    of the pod fails. *)
Theorem investigate_tolerates_failed_reads :
  forall (self : t) (service_name : string) (pod_name : option string)
         (action : RemediationAction),
    exists r,
      fst (_investigate service_name pod_name action self) = Ret r
      /\ match given pod_name with
         | None =>
             r_status r = "investigation"
             /\ exists d, r_data r = Some d /\ pod_status d = None
                          /\ recent_logs d = None
         | Some p =>
             match cluster self (requests self)
                     (read_namespaced_pod p (namespace self)) with
             | Ret (APod pod) =>
                 r_status r = "investigation"
                 /\ exists d, r_data r = Some d
                      /\ pod_status d
                         = Some (mkPodStatus (phase pod) (default [] (conditions pod))
                                   (default [] (container_statuses pod)))
             | Ret _ => r_status r = "error" /\ r_data r = None
             | Raise e =>
                 r_status r = "error" /\ r_error r = Some (exn_str e)
                 /\ r_data r = None
             end
         end.
Proof.
  intros self service_name pod_name action.
  unfold _investigate. run_executor.
  destruct (given pod_name) as [p|].
  - destruct (cluster self (requests self) (read_namespaced_pod p (namespace self)))
      as [rep|e] eqn:Hpod.
    + destruct rep; cases_of_goal; eexists; (split; [reflexivity|]); cbn; eauto.
    + cases_of_goal. eexists; (split; [reflexivity|]); cbn; eauto.
  - cases_of_goal; eexists; (split; [reflexivity|]); cbn; eauto.
Qed.

(** X13: a restart without a pod name is a rolling restart.  Not in dry
    run, for an alert without a [pod] label (or with an empty one), the
    only request of [execute] that changes the cluster is a patch of the
    deployment named by the [service] label, in the executor's namespace;
    its body is the deployment as read, with the same replica count and
    metadata, and template annotations that differ from those read in the
    key [kubectl.kubernetes.io/restartedAt] only, which holds the time of
    the call. *)
Theorem rolling_restart_keeps_replicas_and_annotations :
  forall (self : t) (action : RemediationAction) (alert : Alert) (now : string),
    dry_run self = false ->
    action_type action = PStr "restart" ->
    given (labels alert !! "pod") = None ->
    forall r,
      In r (sent self (snd (execute action alert now self))) ->
      mutating r = true ->
      exists d body annotations_,
        cluster self (requests self)
          (read_namespaced_deployment (get_label (labels alert) "service" "unknown")
             (namespace self)) = Ret (ADeployment d)
        /\ r = patch_namespaced_deployment
                 (get_label (labels alert) "service" "unknown") (namespace self) body
        /\ spec_replicas body = PInt (spec_replicas d)
        /\ metadata_annotations body = metadata_annotations d
        /\ template_annotations body = Some annotations_
        /\ annotations_ !! "kubectl.kubernetes.io/restartedAt" = Some now
        /\ forall k, k <> "kubectl.kubernetes.io/restartedAt" ->
             annotations_ !! k = default ∅ (template_annotations d) !! k.
Proof.
  intros self action alert now Hdry Hty Hpod r.
  unfold execute. rewrite Hty. cbn [eq_str String.eqb Ascii.eqb Bool.eqb].
  unfold _restart. rewrite Hpod. run_executor. rewrite Hdry. unfold sent.
  destruct (cluster self (requests self)
              (read_namespaced_deployment (get_label (labels alert) "service" "unknown")
                 (namespace self))) as [rep|e] eqn:Hread.
  2:{ cbn. destruct (is_ApiException e); cbn [requests snd];
        rewrite drop_app_length; intros [<-|[]]; discriminate. }
  destruct rep as [|d|p|lg|ev|rc se];
    try (cbn; cbn [requests snd]; rewrite drop_app_length;
         intros [<-|[]]; discriminate).
  cbn.
  match goal with
  | |- context [match ?x with _ => _ end] => destruct x as [rep|e]
  end; cbn; try destruct (is_ApiException e); cbn [requests snd];
    rewrite <- ?app_assoc, drop_app_length;
    (intros [<-|[<-|[]]]; [discriminate|]); intros _;
    eexists d, _, _; (split; [reflexivity|]); (split; [reflexivity|]);
    cbn; (split; [reflexivity|]); (split; [reflexivity|]);
    (split; [reflexivity|]);
    (split; [apply lookup_insert_eq | intros k Hk; now apply lookup_insert_ne]).
Qed.

(** X13 on a deployment with 2 replicas and no annotation. *)
Lemma rolling_restart_keeps_replicas_and_annotations_witness :
  exists d body annotations_,
    cluster Scenario.two_replicas (requests Scenario.two_replicas)
      (read_namespaced_deployment "svc" "helix-dev") = Ret (ADeployment d)
    /\ patch_namespaced_deployment "svc" "helix-dev"
         (set_template_annotations
            (set_replicas (Scenario.deployment_with 2) (PInt 2))
            (Some {[ "kubectl.kubernetes.io/restartedAt" := "2024-01-15T10:30:01Z" ]}))
       = patch_namespaced_deployment "svc" "helix-dev" body
    /\ spec_replicas body = PInt (spec_replicas d)
    /\ metadata_annotations body = metadata_annotations d
    /\ template_annotations body = Some annotations_
    /\ annotations_ !! "kubectl.kubernetes.io/restartedAt" = Some "2024-01-15T10:30:01Z"
    /\ forall k, k <> "kubectl.kubernetes.io/restartedAt" ->
         annotations_ !! k = default ∅ (template_annotations d) !! k.
Proof.
  apply (rolling_restart_keeps_replicas_and_annotations
           Scenario.two_replicas Scenario.restart_deployment
           (Scenario.alert_named "ServiceDown" "the endpoint is unreachable" "svc")
           "2024-01-15T10:30:01Z" eq_refl eq_refl eq_refl
           (patch_namespaced_deployment "svc" "helix-dev"
              (set_template_annotations
                 (set_replicas (Scenario.deployment_with 2) (PInt 2))
                 (Some {[ "kubectl.kubernetes.io/restartedAt" := "2024-01-15T10:30:01Z" ]})))).
  - vm_compute. right; left; reflexivity.
  - reflexivity.
Defined.

(** X14: a restart with a pod name deletes that pod and nothing else.  Not
    in dry run, for an alert whose [pod] label is not empty and an action
    whose parameters are a mapping, [execute] sends one request: the
    deletion of the pod, in the executor's namespace, with the grace period
    of the parameters (30 seconds when they give none); the deployment is
    neither read nor patched.  The result is a [success] when the cluster
    accepts, an [error] when it answers with an [ApiException], and any
    other exception of the cluster is raised. *)
Theorem pod_restart_deletes_that_pod_only :
  forall (self : t) (action : RemediationAction) (alert : Alert) (now : string)
         (pod_name : string) (params : list (string * pyval)),
    dry_run self = false ->
    action_type action = PStr "restart" ->
    given (labels alert !! "pod") = Some pod_name ->
    parameters action = PDict params ->
    let delete :=
      delete_namespaced_pod pod_name (namespace self)
        (default (PInt 30) (dict_lookup params "grace_period")) in
    sent self (snd (execute action alert now self)) = [delete]
    /\ fst (execute action alert now self) =
         match cluster self (requests self) delete with
         | Ret _ =>
             Ret (with_target pod_name (with_action "restart"
                    (result "success" [Lit "Restarted pod "; Lit pod_name])))
         | Raise e =>
             if is_ApiException e then Ret (api_error "restart" e) else Raise e
         end.
Proof.
  intros self action alert now pod_name params Hdry Hty Hpod Hpar delete.
  unfold execute. rewrite Hty. cbn [eq_str String.eqb Ascii.eqb Bool.eqb].
  unfold _restart. rewrite Hpod, Hpar, PyFacts.get_dict. run_executor.
  rewrite Hdry. unfold sent. fold delete.
  destruct (cluster self (requests self) delete) as [rep|e]; cbn;
    try destruct (is_ApiException e); cbn [requests snd fst];
    rewrite drop_app_length; split; reflexivity.
Qed.

(** X14 on a cluster without that pod: the deletion is sent and refused. *)
Lemma pod_restart_deletes_that_pod_only_witness :
  sent Scenario.two_replicas
    (snd (execute Scenario.restart_pod Scenario.crash_looping_pod "2024-01-15T10:30:01Z"
            Scenario.two_replicas))
  = [delete_namespaced_pod "svc-7d9f" "helix-dev" (PInt 30)]
  /\ fst (execute Scenario.restart_pod Scenario.crash_looping_pod "2024-01-15T10:30:01Z"
            Scenario.two_replicas)
     = Ret (api_error "restart" Scenario.not_found).
Proof.
  apply (pod_restart_deletes_that_pod_only Scenario.two_replicas
           Scenario.restart_pod Scenario.crash_looping_pod "2024-01-15T10:30:01Z" "svc-7d9f"
           [("grace_period", PInt 30)] eq_refl eq_refl eq_refl eq_refl).
Defined.

(** X15: scaling up adds the increment, without a bound.  Not in dry run,
    for a scale action whose direction is [up] (or not given), whose
    increment is the int [k] (1 when not given) and whose [to_spec] is not
    set, the only request of [execute] that changes the cluster is a patch
    of the deployment with the replica count read plus [k], and a [success]
    reports [to] = [from] + [k].  No maximum and no minimum applies: [k]
    may be any int. *)
Theorem scale_up_adds_the_increment :
  forall (self : t) (action : RemediationAction) (alert : Alert) (now : string)
         (params : list (string * pyval)) (k : Z),
    dry_run self = false ->
    action_type action = PStr "scale" ->
    parameters action = PDict params ->
    default (PStr "up") (dict_lookup params "direction") = PStr "up" ->
    default (PInt 1) (dict_lookup params "increment") = PInt k ->
    truthy (default (PBool false) (dict_lookup params "to_spec")) = false ->
    let name_ := get_label (labels alert) "service" "unknown" in
    (forall r,
        In r (sent self (snd (execute action alert now self))) ->
        mutating r = true ->
        exists d,
          cluster self (requests self)
            (read_namespaced_deployment name_ (namespace self)) = Ret (ADeployment d)
          /\ r = patch_namespaced_deployment name_ (namespace self)
                   (set_replicas d (PInt (spec_replicas d + k))))
    /\ (forall res,
          fst (execute action alert now self) = Ret res ->
          r_status res = "success" ->
          exists n, r_from res = Some n /\ r_to res = Some (PInt (n + k))).
Proof.
  intros self action alert now params k Hdry Hty Hpar Hdir Hinc Hspec name_.
  unfold execute. rewrite Hty. cbn [eq_str String.eqb Ascii.eqb Bool.eqb].
  unfold _scale. rewrite Hpar, !PyFacts.get_dict, Hdir, Hinc. run_executor.
  rewrite Hdry, Hspec. cbn [eq_str String.eqb Ascii.eqb Bool.eqb]. unfold sent.
  fold name_.
  destruct (cluster self (requests self)
              (read_namespaced_deployment name_ (namespace self))) as [rep|e] eqn:Hread.
  2:{ cbn. destruct (is_ApiException e); cbn [requests snd fst];
        rewrite drop_app_length;
        (split; [intros r [<-|[]]; discriminate | intros res [= <-]; discriminate]). }
  destruct rep as [|d|p|lg|ev|rc se];
    try (cbn; cbn [requests snd fst]; rewrite drop_app_length;
         split; [intros r [<-|[]]; discriminate | intros res [=]]).
  cbn.
  match goal with
  | |- context [match ?x with _ => _ end] => destruct x as [rep|e]
  end; cbn; try destruct (is_ApiException e); cbn [requests snd fst];
    rewrite <- ?app_assoc, drop_app_length;
    (split;
     [ intros r [<-|[<-|[]]]; [discriminate|]; intros _; exists d; split; reflexivity
     | intros res [= <-]; try discriminate; intros _; eexists; split; reflexivity ]).
Qed.

(** X15 on a deployment with 2 replicas, scaled up by one. *)
Lemma scale_up_adds_the_increment_witness :
  exists d,
    cluster Scenario.two_replicas (requests Scenario.two_replicas)
      (read_namespaced_deployment "svc" "helix-dev") = Ret (ADeployment d)
    /\ patch_namespaced_deployment "svc" "helix-dev"
         (set_replicas (Scenario.deployment_with 2) (PInt 3))
       = patch_namespaced_deployment "svc" "helix-dev"
           (set_replicas d (PInt (spec_replicas d + 1))).
Proof.
  apply (proj1 (scale_up_adds_the_increment Scenario.two_replicas
                  Scenario.scale_up_by_one
                  (Scenario.alert_named "HighCPUUsage" "cpu above 80" "svc")
                  "2024-01-15T10:30:01Z"
                  [("direction", PStr "up"); ("increment", PInt 1)] 1
                  eq_refl eq_refl eq_refl eq_refl eq_refl eq_refl)
           (patch_namespaced_deployment "svc" "helix-dev"
              (set_replicas (Scenario.deployment_with 2) (PInt 3)))).
  - vm_compute. right; left; reflexivity.
  - reflexivity.
Defined.

(** X16: the direction is compared with [up] only.  For a scale action
    whose direction is any value but the string [up] (such as [down],
    [Down] or a number) and whose [to_spec] is not set, every patch
    [execute] sends carries a replica count of at least 1, and so does the
    [to] field of a [success]: every such direction scales down, with the
    floor. *)
Theorem scale_in_another_direction_keeps_one_replica :
  forall (self : t) (action : RemediationAction) (alert : Alert) (now : string)
         (params : list (string * pyval)),
    action_type action = PStr "scale" ->
    parameters action = PDict params ->
    default (PStr "up") (dict_lookup params "direction") <> PStr "up" ->
    truthy (default (PBool false) (dict_lookup params "to_spec")) = false ->
    (forall name ns body,
        In (patch_namespaced_deployment name ns body)
           (sent self (snd (execute action alert now self))) ->
        at_least_one (spec_replicas body))
    /\ (forall r, fst (execute action alert now self) = Ret r ->
          r_status r = "success" ->
          exists v, r_to r = Some v /\ at_least_one v).
Proof.
  intros self action alert now params Hty Hpar Hdir Hspec.
  apply PyFacts.eq_str_false in Hdir.
  destruct (execute action alert now self) as [res self'] eqn:Hrun. cbn [fst snd].
  unfold execute in Hrun. rewrite Hty in Hrun.
  cbn [eq_str String.eqb Ascii.eqb Bool.eqb] in Hrun.
  unfold _scale in Hrun. rewrite Hpar, !PyFacts.get_dict in Hrun.
  run_executor.
  set (incr := default (PInt 1) (dict_lookup params "increment")) in *.
  set (svc := get_label (labels alert) "service" "unknown") in *.
  rewrite Hspec, Hdir in Hrun.
  unfold sent.
  destruct (dry_run self).
  { finished Hrun. split; [intros ? ? ? []|]. intros r [= <-]. discriminate. }
  destruct (cluster self (requests self)
              (read_namespaced_deployment svc (namespace self))) as [rep|e].
  2:{ finished Hrun;
      (split; [intros ? ? ? [[=]|[]] | intros r [= <-]; try discriminate]). }
  destruct rep as [|d|p|lg|ev|rc se];
    try (finished Hrun; (split; [intros ? ? ? [[=]|[]] | intros r [=]])).
  cbn in Hrun.
  destruct (int_sub (spec_replicas d) incr) as [diff|e]; cbn in Hrun.
  2:{ finished Hrun;
      (split; [intros ? ? ? [[=]|[]] | intros r [= <-]; try discriminate]). }
  destruct (max_1 diff) as [new|e] eqn:Hmax; cbn in Hrun.
  2:{ finished Hrun;
      (split; [intros ? ? ? [[=]|[]] | intros r [= <-]; try discriminate]). }
  apply KubernetesRemediatorSpec.max_1_at_least_one in Hmax.
  match type of Hrun with
  | context [match ?x with _ => _ end] => destruct x as [rep|e]
  end.
  - finished Hrun. split.
    + intros ? ? ? [[=]|[[= <- <- <-]|[]]]. exact Hmax.
    + intros r [= <-] _. exists new. split; [reflexivity | exact Hmax].
  - finished Hrun;
      (split; [intros ? ? ? [[=]|[[= <- <- <-]|[]]]; exact Hmax
              | intros r [= <-]; try discriminate]).
Qed.

(** X16 on a deployment with 3 replicas and the direction [Down]. *)
Lemma scale_in_another_direction_keeps_one_replica_witness :
  sent Scenario.three_replicas
    (snd (execute Scenario.scale_Down_by_five (Scenario.alert_named "Idle" "idle" "svc")
            "2024-01-15T10:30:01Z" Scenario.three_replicas))
  = [read_namespaced_deployment "svc" "helix-dev";
     patch_namespaced_deployment "svc" "helix-dev"
       (set_replicas (Scenario.deployment_with 3) (PInt 1))]
  /\ at_least_one (PInt 1).
Proof.
  split; [vm_compute; reflexivity|].
  apply (proj1 (scale_in_another_direction_keeps_one_replica
                  Scenario.three_replicas Scenario.scale_Down_by_five
                  (Scenario.alert_named "Idle" "idle" "svc") "2024-01-15T10:30:01Z"
                  [("direction", PStr "Down"); ("increment", PInt 5)]
                  eq_refl eq_refl ltac:(discriminate) eq_refl)
           "svc" "helix-dev" (set_replicas (Scenario.deployment_with 3) (PInt 1))).
  vm_compute. right; left; reflexivity.
Defined.

(** X17: a rollback runs [kubectl rollout undo] for the earlier revision.
    Not in dry run, when the deployment can be read and its revision
    annotation ([1] when it has none) reads as the int [rev], [_rollback]
    sends two requests: the read, and the command
    [kubectl rollout undo deployment/<name> -n <namespace>
    --to-revision=<rev - revisions_back>], with [revisions_back] 1 when the
    parameters give none.  It always returns: a [success] that names the
    revision left, and is recorded, when the command returns the code 0;
    an [error] with the command's [stderr], or with the text of the
    exception, otherwise, and then nothing is recorded. *)
Theorem rollback_runs_kubectl_for_the_earlier_revision :
  forall (self : t) (service_name : string) (action : RemediationAction)
         (params : list (string * pyval)) (d : Deployment)
         (a : gmap string string) (rev : Z) (to_revision : pyval),
    dry_run self = false ->
    parameters action = PDict params ->
    cluster self (requests self)
      (read_namespaced_deployment service_name (namespace self))
    = Ret (ADeployment d) ->
    metadata_annotations d = Some a ->
    Num.int_of_string (get_label a "deployment.kubernetes.io/revision" "1") = Ret rev ->
    int_sub rev (default (PInt 1) (dict_lookup params "revisions_back"))
    = Ret to_revision ->
    let read := read_namespaced_deployment service_name (namespace self) in
    let kubectl := rollout_undo service_name (namespace self) to_revision in
    sent self (snd (_rollback service_name action self)) = [read; kubectl]
    /\ exists r,
         fst (_rollback service_name action self) = Ret r
         /\ match cluster self (requests self ++ [read])%list kubectl with
            | Ret (Completed returncode stderr) =>
                if (returncode =? 0)%Z then
                  r_status r = "success"
                  /\ r_from_revision r
                     = Some (get_label a "deployment.kubernetes.io/revision" "1")
                  /\ actions_taken (snd (_rollback service_name action self))
                     = (actions_taken self ++ [r])%list
                else
                  r_status r = "error" /\ r_error r = Some stderr
                  /\ actions_taken (snd (_rollback service_name action self))
                     = actions_taken self
            | Ret _ =>
                r_status r = "error"
                /\ actions_taken (snd (_rollback service_name action self))
                   = actions_taken self
            | Raise e =>
                r_status r = "error" /\ r_error r = Some (exn_str e)
                /\ actions_taken (snd (_rollback service_name action self))
                   = actions_taken self
            end.
Proof.
  intros self service_name action params d a rev to_revision
    Hdry Hpar Hread Hmeta Hrev Hto read kubectl.
  subst read kubectl. unfold rollout_undo.
  unfold _rollback. rewrite Hpar, PyFacts.get_dict. run_executor. rewrite Hdry.
  rewrite Hread. cbn. rewrite Hmeta. cbn. rewrite Hrev. cbn.
  rewrite Hto. cbn. unfold sent.
  match goal with
  | |- context [cluster self ?h ?q] => destruct (cluster self h q) as [rep|e]
  end; cbn.
  - destruct rep as [|d'|p|lg|ev|rc se]; cbn; try destruct (rc =? 0)%Z; cbn;
      cbn [requests]; rewrite <- app_assoc, drop_app_length;
      (split; [reflexivity|]); eexists; (split; [reflexivity|]); repeat split.
  - cbn [requests]. rewrite <- app_assoc, drop_app_length.
    split; [reflexivity|]. eexists. split; [reflexivity|]. repeat split.
Qed.

(** X17 on a deployment at revision 3: the command asks for revision 2. *)
Lemma rollback_runs_kubectl_for_the_earlier_revision_witness :
  sent Scenario.at_revision_3 (snd (_rollback "svc" Scenario.rollback_by_one Scenario.at_revision_3))
  = [read_namespaced_deployment "svc" "helix-dev";
     rollout_undo "svc" "helix-dev" (PInt 2)]
  /\ exists r,
       fst (_rollback "svc" Scenario.rollback_by_one Scenario.at_revision_3) = Ret r
       /\ r_status r = "success"
       /\ r_from_revision r = Some "3"
       /\ actions_taken (snd (_rollback "svc" Scenario.rollback_by_one Scenario.at_revision_3))
          = ([] ++ [r])%list.
Proof.
  apply (rollback_runs_kubectl_for_the_earlier_revision Scenario.at_revision_3
           "svc" Scenario.rollback_by_one [("revisions_back", PInt 1)]
           (mkDeployment 2%Z None
              (Some {[ "deployment.kubernetes.io/revision" := "3" ]}) None None None)
           {[ "deployment.kubernetes.io/revision" := "3" ]} 3 (PInt 2)
           eq_refl eq_refl eq_refl eq_refl eq_refl eq_refl).
Defined.

Lemma api_read (c : Cluster) (history : list request) (name ns : string) :
  api_failures_only c ->
  (exists d, c history (read_namespaced_deployment name ns) = Ret (ADeployment d))
  \/ (exists e, c history (read_namespaced_deployment name ns) = Raise e
                /\ is_ApiException e = true).
Proof.
  intros H. specialize (H history (read_namespaced_deployment name ns)). cbn in H.
  destruct (c history (read_namespaced_deployment name ns)) as [rep|e].
  - destruct H as [d ->]. eauto.
  - eauto.
Qed.

Lemma api_raise (c : Cluster) (history : list request) (r : request) (e : exn) :
  api_failures_only c ->
  (forall cmd, r <> subprocess_run cmd) ->
  c history r = Raise e -> is_ApiException e = true.
Proof.
  intros H Hr Hc. specialize (H history r).
  destruct r; cbn in H; try (now destruct (Hr cmd)); rewrite Hc in H; trivial.
Qed.

(** X18: [execute] returns on a well-formed action.  When the action's
    parameters are a mapping, the increment of a scale action is an int (or
    not given), and the cluster API fails with [ApiException] only (and
    answers the read of a deployment with a deployment), [execute] returns
    a result and does not raise, whatever the action type, the alert and
    the state of the cluster. *)
Theorem execute_returns_on_a_well_formed_action :
  forall (self : t) (action : RemediationAction) (alert : Alert) (now : string)
         (params : list (string * pyval)),
    api_failures_only (cluster self) ->
    parameters action = PDict params ->
    (action_type action = PStr "scale" ->
     exists k, default (PInt 1) (dict_lookup params "increment") = PInt k) ->
    returns (fst (execute action alert now self)).
Proof.
  intros self action alert now params Hapi Hpar Hinc. unfold execute.
  destruct (eq_str (action_type action) "restart") eqn:Hr.
  { unfold _restart. rewrite Hpar. run_executor.
    destruct (dry_run self); [eexists; reflexivity|].
    destruct (given (labels alert !! "pod")) as [p|]; cbn.
    - match goal with
      | |- context [cluster self ?h ?q] =>
          destruct (cluster self h q) as [rep|e] eqn:Hc
      end; cbn; [eexists; reflexivity|].
      (let He := fresh in
     pose proof (fun H => api_raise _ _ _ _ Hapi H Hc) as He;
     rewrite He by (intros; discriminate)). eexists; reflexivity.
    - destruct (api_read (cluster self) (requests self)
                  (get_label (labels alert) "service" "unknown") (namespace self) Hapi)
        as [[d ->]|(e & -> & He)]; cbn; [|rewrite He; eexists; reflexivity].
      match goal with
      | |- context [cluster self ?h ?q] =>
          destruct (cluster self h q) as [rep|e] eqn:Hc
      end; cbn; [eexists; reflexivity|].
      (let He := fresh in
     pose proof (fun H => api_raise _ _ _ _ Hapi H Hc) as He;
     rewrite He by (intros; discriminate)). eexists; reflexivity. }
  destruct (eq_str (action_type action) "scale") eqn:Hs.
  { apply PyFacts.eq_str_true in Hs. destruct (Hinc Hs) as [k Hk].
    unfold _scale. rewrite Hpar, !PyFacts.get_dict, Hk. run_executor.
    destruct (dry_run self); [eexists; reflexivity|].
    destruct (api_read (cluster self) (requests self)
                (get_label (labels alert) "service" "unknown") (namespace self) Hapi)
      as [[d ->]|(e & -> & He)]; cbn; [|rewrite He; eexists; reflexivity].
    repeat (cbn;
            match goal with
            | |- context [cluster self ?h ?q] =>
                let Hc := fresh "Hc" in
                destruct (cluster self h q) as [?|?] eqn:Hc; [|(let He := fresh in
     pose proof (fun H => api_raise _ _ _ _ Hapi H Hc) as He;
     rewrite He by (intros; discriminate))]
            | |- context [match ?x with _ => _ end] =>
                lazymatch x with
                | context [match _ with _ => _ end] => fail
                | _ => destruct x eqn:?
                end
            end);
      cbn; eexists; reflexivity. }
  destruct (eq_str (action_type action) "rollback").
  { apply KubernetesRemediatorSpec.rollback_returns. eexists; exact Hpar. }
  destruct (eq_str (action_type action) "investigate").
  { apply KubernetesRemediatorSpec.investigate_returns. }
  eexists; reflexivity.
Qed.

Lemma cluster_of_api_failures_only
    (ds : gmap string Deployment) :
  api_failures_only (Scenario.cluster_of ds).
Proof.
  intros history r. unfold Scenario.cluster_of.
  destruct r as [n ns g|n ns|n ns body|n ns|n ns tl|ns fs|cmd]; trivial; cbn.
  - destruct (_ !! n); [eauto | reflexivity].
  - destruct (_ !! n); [|reflexivity].
    destruct (spec_replicas body); try reflexivity.
    destruct (0 <=? z)%Z; trivial.
Qed.

(** X18 on the scale action of the rule [high_cpu]. *)
Lemma execute_returns_on_a_well_formed_action_witness :
  returns (fst (execute Scenario.scale_up_by_one
                  (Scenario.alert_named "HighCPUUsage" "cpu above 80" "svc")
                  "2024-01-15T10:30:01Z" Scenario.two_replicas)).
Proof.
  apply (execute_returns_on_a_well_formed_action Scenario.two_replicas
           Scenario.scale_up_by_one
           (Scenario.alert_named "HighCPUUsage" "cpu above 80" "svc")
           "2024-01-15T10:30:01Z" [("direction", PStr "up"); ("increment", PInt 1)]).
  - apply cluster_of_api_failures_only.
  - reflexivity.
  - intros _. exists 1%Z. reflexivity.
Defined.

End ExecutorSpec.

(** ** The notifier *)

Module NotifierSpec.
Import Py PatternMatcher SlackNotifier Notions.

(** [_send] never raises, and counts the notification as sent or as
    failed. *)
Lemma send_outcome (post : Webhook) (message : Message) (self : SlackNotifier.t) :
  exists b : bool,
    _send post message self
    = (Ret b, if b then count_sent self else count_failed self)
    /\ (b = true <-> post message = Ret 200%Z).
Proof.
  unfold _send, try_M, bind, lift, modify, ret; cbn.
  destruct (post message) as [code|e] eqn:Hp; cbn.
  - destruct (code =? 200)%Z eqn:Hc.
    + apply Z.eqb_eq in Hc. subst code. exists true. split; [reflexivity|]. tauto.
    + exists false. split; [reflexivity|]. split; [discriminate|].
      intros [= ->]. discriminate Hc.
  - exists false. split; [reflexivity|]. split; discriminate.
Qed.

(** X19: a notification counts one outcome.  [_send] never raises: it
    returns [True] and counts the notification as sent exactly when the
    webhook answers 200, and otherwise (another status, or an exception of
    the request) returns [False] and counts it as failed.
    [send_alert_notification] returns [False] and leaves the notifier as it
    was when there is no webhook.  With a webhook it builds the message
    first, outside any [try]: when that raises, the exception leaves
    [send_alert_notification] and no counter moves; otherwise the outcome
    is that of [_send] on the message built. *)
Theorem notification_counts_one_outcome :
  (forall (post : Webhook) (message : Message) (self : SlackNotifier.t),
      exists b : bool,
        _send post message self
        = (Ret b, if b then count_sent self else count_failed self)
        /\ (b = true <-> post message = Ret 200%Z))
  /\ (forall (self : SlackNotifier.t) (alert : Alert) (action : RemediationAction)
             (execution_result : option KubernetesRemediator.Result)
             (auto_executed : bool),
        match webhook self with
        | None =>
            send_alert_notification alert action execution_result auto_executed self
            = (Ret false, self)
        | Some post =>
            match _build_alert_message alert action execution_result auto_executed with
            | Raise e =>
                send_alert_notification alert action execution_result auto_executed
                  self = (Raise e, self)
            | Ret message =>
                send_alert_notification alert action execution_result auto_executed
                  self = _send post message self
            end
        end).
Proof.
  split; [exact send_outcome|].
  intros self alert action res auto.
  unfold send_alert_notification, bind, gets, lift; cbn.
  destruct (webhook self) as [post|]; [|reflexivity].
  destruct (_build_alert_message alert action res auto); reflexivity.
Qed.

End NotifierSpec.

(** ** The orchestrator: one alert *)

Module OrchestratorSpec.
Import Py PyFacts PatternMatcher Notions Main.

Section WithDecoder.

Variable json_loads : string -> outcome pyval.

(** One run of [process_alert], by the decision of the gate, the outcome of
    the executor and the outcome of the notification. *)
Lemma process_alert_run (g : Main.t) (alert : Alert) (clock : Clock) :
  exists action c1 b c2,
    HybridClassifier.classify json_loads alert None None (classifier g)
    = (Ret action, c1)
    /\ HybridClassifier.should_auto_execute action (DRY_RUN g) c1 = (Ret b, c2)
    /\ let name_ := get_label (labels alert) "alertname" "Unknown" in
       let entry := mkAlertEntry alert (at_receipt clock) "processing" None None in
       let summary := mkActionSummary (action_type action) (confidence action) b in
       if b then
         match KubernetesRemediator.execute action alert (at_restart clock)
                 (remediator g) with
         | (Ret r, rem') =>
             let actions :=
               (action_history g ++
                [mkActionEntry name_ (action_type action) r (at_execution clock)])%list in
             match SlackNotifier.send_alert_notification alert action (Some r) true
                     (notifier g) with
             | (Ret _, n') =>
                 process_alert json_loads alert clock g
                 = (Ret (Done name_ (action_type action) (confidence action) true
                           (Some r)),
                    mk (DRY_RUN g) c2 rem' n'
                       (alert_history g ++ [completed (summary (Some r)) entry])%list
                       actions)
             | (Raise e, n') =>
                 process_alert json_loads alert clock g
                 = (Ret (Error name_ (exn_str e)),
                    mk (DRY_RUN g) c2 rem' n'
                       (alert_history g ++ [failed (exn_str e) entry])%list actions)
             end
         | (Raise e, rem') =>
             process_alert json_loads alert clock g
             = (Ret (Error name_ (exn_str e)),
                mk (DRY_RUN g) c2 rem' (notifier g)
                   (alert_history g ++ [failed (exn_str e) entry])%list
                   (action_history g))
         end
       else
         match SlackNotifier.send_alert_notification alert action None false
                 (notifier g) with
         | (Ret _, n') =>
             process_alert json_loads alert clock g
             = (Ret (Done name_ (action_type action) (confidence action) false None),
                mk (DRY_RUN g) c2 (remediator g) n'
                   (alert_history g ++ [completed (summary None) entry])%list
                   (action_history g))
         | (Raise e, n') =>
             process_alert json_loads alert clock g
             = (Ret (Error name_ (exn_str e)),
                mk (DRY_RUN g) c2 (remediator g) n'
                   (alert_history g ++ [failed (exn_str e) entry])%list
                   (action_history g))
         end.
Proof.
  destruct (GatewaySpec.classify_returns json_loads (classifier g) alert None None)
    as (action & st & Hc).
  destruct (MainSpec.should_auto_execute_returns
              (HybridClassifier.mk (HybridClassifier.pattern_matcher (classifier g))
                 (HybridClassifier.ai_analyzer (classifier g)) st)
              action (DRY_RUN g)) as (auto & st' & Ha).
  eexists action, _, auto, _. split; [exact Hc|]. split; [exact Ha|].
  cbn zeta. run_main. proj. rewrite Hc. proj. rewrite Ha. proj.
  destruct auto; proj.
  - destruct (KubernetesRemediator.execute action alert (at_restart clock)
                (remediator g)) as [[r|e] rem'] eqn:Hx; proj.
    + destruct (SlackNotifier.send_alert_notification alert action (Some r) true
                  (notifier g)) as [[b|e] n'] eqn:Hs; proj;
        rewrite MainSpec.alter_last; reflexivity.
    + rewrite MainSpec.alter_last. reflexivity.
  - destruct (SlackNotifier.send_alert_notification alert action None false
                (notifier g)) as [[b|e] n'] eqn:Hs; proj;
      rewrite MainSpec.alter_last; reflexivity.
Qed.

(** X20: [process_alert] settles the entry it made.  On an alert as
    [Alert] has it (an object whose labels and annotations are mappings of
    strings) it returns, appends one entry to the alert history, for this
    alert and with the time of receipt, and leaves the entries before it
    and the dry-run setting as they were.  When it returns the dict of a
    processed alert, the entry is [completed] and holds the same action
    type, confidence, decision and result (a result exactly when the action
    was auto-executed) and no error; when it returns an error dict, the
    entry is [failed] and holds the same error text and no action; no entry
    is left [processing].  On a value that is no object, and on an object
    whose labels are no object, it raises [AttributeError] from its first
    statement, before the entry is made: the agent stays as it was. *)
Theorem process_alert_settles_its_alert_entry :
  forall (g : Main.t) (raw : RawAlert) (clock : Clock),
    match raw with
    | AnAlert alert =>
        exists res g' entry,
          process_raw_alert json_loads (AnAlert alert) clock g = (Ret res, g')
          /\ alert_history g' = (alert_history g ++ [entry])%list
          /\ a_alert entry = alert
          /\ a_timestamp entry = at_receipt clock
          /\ DRY_RUN g' = DRY_RUN g
          /\ match res with
             | Done _ type_ confidence_ auto r =>
                 a_status entry = "completed"
                 /\ a_action entry = Some (mkActionSummary type_ confidence_ auto r)
                 /\ a_error entry = None
                 /\ (auto = true <-> is_Some r)
             | Error _ msg =>
                 a_status entry = "failed"
                 /\ a_action entry = None
                 /\ a_error entry = Some msg
             end
    | NoObject v =>
        process_raw_alert json_loads (NoObject v) clock g
        = (Raise (no_get (value_of v)), g)
    | LabelsNoObject labels_ =>
        process_raw_alert json_loads (LabelsNoObject labels_) clock g
        = (Raise (no_get (value_of labels_)), g)
    end.
Proof.
  intros g [alert|v|v] clock; [|reflexivity|reflexivity].
  cbn [process_raw_alert].
  destruct (process_alert_run g alert clock)
    as (action & c1 & b & c2 & _ & _ & Hrun).
  cbn zeta in Hrun. destruct b.
  - destruct (KubernetesRemediator.execute _ _ _ _) as [[r|e] rem'].
    + destruct (SlackNotifier.send_alert_notification _ _ _ _ _) as [[x|e] n'];
        rewrite Hrun; eexists _, _, _; (split; [reflexivity|]);
        cbn; repeat split; eauto.
    + rewrite Hrun. eexists _, _, _. split; [reflexivity|]. cbn. repeat split.
  - destruct (SlackNotifier.send_alert_notification _ _ _ _ _) as [[x|e] n'];
      rewrite Hrun; eexists _, _, _; (split; [reflexivity|]);
      cbn; repeat split; try discriminate. intros [? [=]].
Qed.

(** X21: in dry run the orchestrator does not reach the executor.  With
    [DRY_RUN] set, whatever the alert, the reasoner's reply and the
    confidence, [process_alert] leaves the executor as it was (no request
    is sent to the cluster, not even a read), the action history and the
    counter [auto_executed] as they were, and a processed alert is reported
    as not auto-executed and without execution result. *)
Theorem dry_run_does_not_reach_the_executor :
  forall (g : Main.t) (alert : Alert) (clock : Clock),
    DRY_RUN g = true ->
    exists res g',
      process_alert json_loads alert clock g = (Ret res, g')
      /\ remediator g' = remediator g
      /\ action_history g' = action_history g
      /\ HybridClassifier.auto_executed (HybridClassifier.stats (classifier g'))
         = HybridClassifier.auto_executed (HybridClassifier.stats (classifier g))
      /\ match res with
         | Done _ _ _ auto r => auto = false /\ r = None
         | Error _ _ => True
         end.
Proof.
  intros g alert clock Hdry.
  destruct (process_alert_run g alert clock) as (action & c1 & b & c2 & Hc & Ha & Hrun).
  rewrite Hdry in Ha. cbn in Ha. injection Ha as <- <-.
  assert (Hauto : HybridClassifier.auto_executed (HybridClassifier.stats c1)
                  = HybridClassifier.auto_executed
                      (HybridClassifier.stats (classifier g))).
  { destruct (CountersSpec.classify_step json_loads (classifier g) alert None None)
      as (st & Hst & _ & Hauto & _).
    rewrite Hc in Hst. cbn in Hst. now subst c1. }
  cbn zeta in Hrun.
  destruct (SlackNotifier.send_alert_notification _ _ _ _ _) as [[x|e] n'];
    rewrite Hrun; eexists _, _; (split; [reflexivity|]); cbn; repeat split; trivial.
Qed.

(** X22: an execution that raises is neither recorded nor notified.  When
    the gate approves the action and [execute] raises, [process_alert]
    returns the error dict with the text of the exception; the alert entry
    is [failed] with that text; no entry is added to the action history;
    the notifier is not called; the requests sent before the exception stay
    sent; and [auto_executed] has counted the action. *)
Theorem execution_that_raises_is_neither_recorded_nor_notified :
  forall (g : Main.t) (alert : Alert) (clock : Clock) (action : RemediationAction)
         (c1 c2 : HybridClassifier.t) (e : exn) (rem' : KubernetesRemediator.t),
    HybridClassifier.classify json_loads alert None None (classifier g)
    = (Ret action, c1) ->
    HybridClassifier.should_auto_execute action (DRY_RUN g) c1 = (Ret true, c2) ->
    KubernetesRemediator.execute action alert (at_restart clock) (remediator g)
    = (Raise e, rem') ->
    exists g',
      process_alert json_loads alert clock g
      = (Ret (Error (get_label (labels alert) "alertname" "Unknown") (exn_str e)), g')
      /\ action_history g' = action_history g
      /\ notifier g' = notifier g
      /\ remediator g' = rem'
      /\ alert_history g'
         = (alert_history g ++
            [mkAlertEntry alert (at_receipt clock) "failed" None (Some (exn_str e))])%list
      /\ HybridClassifier.auto_executed (HybridClassifier.stats (classifier g'))
         = S (HybridClassifier.auto_executed (HybridClassifier.stats c1)).
Proof.
  intros g alert clock action c1 c2 e rem' Hc Ha Hx.
  destruct (process_alert_run g alert clock)
    as (action' & c1' & b & c2' & Hc' & Ha' & Hrun).
  rewrite Hc in Hc'. injection Hc' as <- <-.
  rewrite Ha in Ha'. injection Ha' as <- <-.
  cbn zeta in Hrun. rewrite Hx in Hrun. rewrite Hrun.
  eexists. split; [reflexivity|]. cbn. repeat split.
  pose proof (HybridClassifierSpec.should_auto_execute_counts c1 action (DRY_RUN g)) as Hs.
  unfold decision in Hs. rewrite Ha in Hs. cbn in Hs. subst c2. reflexivity.
Qed.

End WithDecoder.

(** X21 on the alert [TooFewReplicas], which a rule matches with confidence
    0.95. *)
Lemma dry_run_does_not_reach_the_executor_witness :
  exists res g',
    process_alert Json.loads Scenario.too_few_replicas Scenario.clock
      (Scenario.agent true None "svc" 2) = (Ret res, g')
    /\ remediator g' = remediator (Scenario.agent true None "svc" 2)
    /\ action_history g' = action_history (Scenario.agent true None "svc" 2)
    /\ HybridClassifier.auto_executed (HybridClassifier.stats (classifier g'))
       = HybridClassifier.auto_executed
           (HybridClassifier.stats (classifier (Scenario.agent true None "svc" 2)))
    /\ match res with
       | Done _ _ _ auto r => auto = false /\ r = None
       | Error _ _ => True
       end.
Proof.
  apply (dry_run_does_not_reach_the_executor Json.loads
           (Scenario.agent true None "svc" 2) Scenario.too_few_replicas
           Scenario.clock eq_refl).
Defined.

(** X22 on a reply of the reasoner that asks to scale by the string [2]. *)
Lemma execution_that_raises_is_neither_recorded_nor_notified_witness :
  exists g',
    process_alert Json.loads Scenario.odd_alert Scenario.clock
      (Scenario.agent_replying Scenario.reply_scale_by_string)
    = (Ret (Error "Odd" "unsupported operand type(s) for +: 'int' and 'str'"), g')
    /\ action_history g' = []
    /\ notifier g'
       = notifier (Scenario.agent_replying Scenario.reply_scale_by_string)
    /\ remediator g'
       = snd (KubernetesRemediator.execute Scenario.scale_by_string Scenario.odd_alert
                "2024-01-15T10:30:01Z" Scenario.two_replicas)
    /\ alert_history g'
       = [mkAlertEntry Scenario.odd_alert "2024-01-15T10:30:00" "failed" None
            (Some "unsupported operand type(s) for +: 'int' and 'str'")]
    /\ HybridClassifier.auto_executed (HybridClassifier.stats (classifier g')) = 1.
Proof.
  apply (execution_that_raises_is_neither_recorded_nor_notified
           Json.loads (Scenario.agent_replying Scenario.reply_scale_by_string)
           Scenario.odd_alert Scenario.clock Scenario.scale_by_string
           (snd (HybridClassifier.classify Json.loads Scenario.odd_alert None None
                   (classifier
                      (Scenario.agent_replying Scenario.reply_scale_by_string))))
           (snd (HybridClassifier.should_auto_execute Scenario.scale_by_string false
                   (snd (HybridClassifier.classify Json.loads Scenario.odd_alert
                           None None
                           (classifier
                              (Scenario.agent_replying
                                 Scenario.reply_scale_by_string))))))
           (TypeError "unsupported operand type(s) for +: 'int' and 'str'")
           (snd (KubernetesRemediator.execute Scenario.scale_by_string
                   Scenario.odd_alert "2024-01-15T10:30:01Z" Scenario.two_replicas)));
    vm_compute; reflexivity.
Defined.

End OrchestratorSpec.

(** ** The endpoints: the webhook and the two histories *)

Module EndpointSpec.
Import Py PyFacts PatternMatcher Notions Main.

Lemma slice_from_minus_spec {A} (limit : Z) (l : list A) :
  (exists older, l = (older ++ slice_from_minus limit l)%list)
  /\ ((0 < limit)%Z ->
      slice_from_minus limit l = drop (length l - Z.to_nat limit) l
      /\ length (slice_from_minus limit l) = Nat.min (Z.to_nat limit) (length l))
  /\ (limit = 0%Z -> slice_from_minus limit l = l)
  /\ ((limit < 0)%Z -> slice_from_minus limit l = drop (Z.to_nat (- limit)) l).
Proof.
  unfold slice_from_minus. cbv zeta. split; [|split; [|split]].
  - eexists. symmetry. apply take_drop.
  - intros Hl. destruct (Z.ltb_spec (- limit) 0) as [_|H]; [|lia].
    assert (Z.to_nat (Z.max (Z.of_nat (length l) + - limit) 0)
            = length l - Z.to_nat limit) as -> by lia.
    split; [reflexivity|]. rewrite length_drop. lia.
  - intros ->. change (- 0)%Z with 0%Z. cbn [Z.ltb Z.compare].
    rewrite Z.min_l by lia. reflexivity.
  - intros Hl. destruct (Z.ltb_spec (- limit) 0) as [H|_]; [lia|].
    destruct (Z.min_spec (- limit) (Z.of_nat (length l))) as [[_ ->]|[Hle ->]];
      [reflexivity|].
    rewrite Nat2Z.id, !drop_ge; trivial; lia.
Qed.

(** X23: [get_alerts] and [get_actions] show the tail of their history.
    Both answer with the status 200 and with [total] the length of the
    whole history; what they show is a suffix of the history, in the
    history's order.  For a limit [n] > 0 (50 when the query gives none)
    they show the last [n] entries, all of them when there are fewer; for
    the limit 0 they show the whole history, since [history[-0:]] is
    [history[0:]]; for a limit [n] < 0 they show the history without its
    first [-n] entries. *)
Theorem history_page_is_the_tail_of_the_history :
  forall (limit : option Z) (g : Main.t),
    let n := default 50%Z limit in
    let alerts := fst (get_alerts limit g) in
    let actions := fst (get_actions limit g) in
    snd (get_alerts limit g) = 200%Z /\ snd (get_actions limit g) = 200%Z
    /\ total alerts = length (alert_history g)
    /\ total actions = length (action_history g)
    /\ (exists older, alert_history g = (older ++ shown alerts)%list)
    /\ (exists older, action_history g = (older ++ shown actions)%list)
    /\ ((0 < n)%Z ->
        length (shown alerts) = Nat.min (Z.to_nat n) (length (alert_history g))
        /\ length (shown actions) = Nat.min (Z.to_nat n) (length (action_history g)))
    /\ (n = 0%Z ->
        shown alerts = alert_history g /\ shown actions = action_history g)
    /\ ((n < 0)%Z ->
        shown alerts = drop (Z.to_nat (- n)) (alert_history g)
        /\ shown actions = drop (Z.to_nat (- n)) (action_history g)).
Proof.
  intros limit g n alerts actions. subst alerts actions. unfold get_alerts, get_actions.
  cbn [fst snd shown total]. fold n.
  destruct (slice_from_minus_spec n (alert_history g)) as (H1 & H2 & H3 & H4).
  destruct (slice_from_minus_spec n (action_history g)) as (H1' & H2' & H3' & H4').
  repeat split; trivial; try (now apply H2); try (now apply H2'); auto.
Qed.

(** X23 at the limit 0, after one alert. *)
Lemma history_page_is_the_tail_of_the_history_witness :
  shown (fst (get_alerts (Some 0%Z)
                     (snd (process_alert Json.loads Scenario.odd_alert
                             Scenario.clock (Scenario.agent false None "svc" 2)))))
  = alert_history
      (snd (process_alert Json.loads Scenario.odd_alert Scenario.clock
              (Scenario.agent false None "svc" 2)))
  /\ shown (fst (get_actions (Some 0%Z)
                        (snd (process_alert Json.loads Scenario.odd_alert
                                Scenario.clock (Scenario.agent false None "svc" 2)))))
     = action_history
         (snd (process_alert Json.loads Scenario.odd_alert Scenario.clock
                 (Scenario.agent false None "svc" 2))).
Proof.
  destruct (history_page_is_the_tail_of_the_history (Some 0%Z)
              (snd (process_alert Json.loads Scenario.odd_alert Scenario.clock
                      (Scenario.agent false None "svc" 2))))
    as (_ & _ & _ & _ & _ & _ & _ & Hzero & _).
  apply Hzero. reflexivity.
Defined.

Section WithDecoder.

Variable json_loads : string -> outcome pyval.

(** The loop of [webhook] stops at the first item on which [process_alert]
    raises, with that exception; it adds an entry for each alert before it,
    in the order of the alerts, and returns a result for each item when it
    does not stop. *)
Lemma process_each_run (items : list RawAlert) (clocks : nat -> Clock) (i : nat)
    (g : Main.t) :
  exists g' new,
    alert_history g' = (alert_history g ++ new)%list
    /\ map a_alert new = alerts_before_failure items
    /\ Forall settled new
    /\ match first_failure items with
       | None =>
           exists results,
             process_each json_loads items clocks i g = (Ret results, g')
             /\ length results = length items
       | Some e => process_each json_loads items clocks i g = (Raise e, g')
       end.
Proof.
  revert i g; induction items as [|[alert|v|v] rest IH]; intros i g.
  - exists g, []. cbn. rewrite app_nil_r. repeat split; [constructor|].
    exists []. split; reflexivity.
  - cbn [process_each process_raw_alert alerts_before_failure first_failure].
    unfold bind.
    destruct (MainSpec.process_alert_histories json_loads g alert (clocks i))
      as (res & g1 & entry & action & c1 & -> & Hh & Ha & Hs & _).
    destruct (IH (S i) g1) as (g' & new & Hh' & Hm & Hf & Hrun).
    exists g', (entry :: new).
    split; [rewrite Hh', Hh, <- app_assoc; reflexivity|].
    split; [cbn; now rewrite Ha, Hm|].
    split; [constructor; [exact Hs | exact Hf]|].
    destruct (first_failure rest) as [e|].
    + now rewrite Hrun.
    + destruct Hrun as (results & -> & Hl). exists (res :: results).
      split; [reflexivity|]. cbn. now rewrite Hl.
  - exists g, []. cbn. rewrite app_nil_r. repeat split. constructor.
  - exists g, []. cbn. rewrite app_nil_r. repeat split. constructor.
Qed.

(** [webhook] on an object whose [alerts] have a length. *)
Lemma webhook_went_through (others : bool) (alerts : option AlertsValue)
    (items : list RawAlert) (clocks : nat -> Clock) (g : Main.t) :
  payload_truthy (Object others alerts) = true ->
  (exists n, len (default (AlertList []) alerts) = Ret n) ->
  iterate (default (AlertList []) alerts) = Ret items ->
  exists body code g',
    webhook json_loads (Ret (Object others alerts)) clocks g = (Ret (body, code), g')
    /\ went_through items g g' body code.
Proof.
  intros Ht [n Hn] Hi. unfold webhook, try_M, bind, lift, ret.
  cbn [payload_alerts]. rewrite Ht. cbn [negb]. rewrite Hn, Hi.
  destruct (process_each_run items clocks 0 g) as (g' & new & Hh & Hm & Hf & Hrun).
  unfold went_through.
  destruct (first_failure items) as [e|] eqn:He.
  - rewrite Hrun. cbn. eexists _, _, _. split; [reflexivity|].
    exists new. repeat split; assumption.
  - destruct Hrun as (results & -> & Hl). cbn. eexists _, _, _.
    split; [reflexivity|]. exists new.
    split; [assumption|]. split; [assumption|]. split; [assumption|].
    split; [reflexivity|]. exists results. now rewrite Hl.
Qed.

(** X24: [webhook] never raises, and goes through the alerts of the payload
    in order.  When the body cannot be read it answers 500 with the text of
    the exception, and for an empty payload (no body, an empty object, or
    another value that is false) 400 with [Empty payload]; for a payload
    that is true and no object, and for an object whose [alerts] have no
    length ([null], a bool or a number), it answers 500 with the text of
    the [AttributeError] or [TypeError]; in all these cases the agent stays
    as it was.  Otherwise it goes through the items of [alerts] (the items
    of a list, the characters of a string, the keys of an object; none
    without the key): the alert history grows by one settled entry
    ([completed] or [failed]) for each alert before the first item on which
    [process_alert] raises, in the payload's order; with no such item the
    answer is 200 and reports as many alerts processed as there are items,
    with a result for each; with one, the answer is 500 with the text of
    its exception, and the entries of the alerts before it stay. *)
Theorem webhook_processes_the_alerts_in_order :
  forall (request_json : outcome Payload) (clocks : nat -> Clock) (g : Main.t),
    exists body code g',
      webhook json_loads request_json clocks g = (Ret (body, code), g')
      /\ match request_json with
         | Raise e => refused e g g' body code
         | Ret payload =>
             if payload_truthy payload then
               match payload with
               | NotAnObject v => refused (no_get (value_of v)) g g' body code
               | Object _ alerts =>
                   match default (AlertList []) alerts with
                   | AlertList items => went_through items g g' body code
                   | AlertString s =>
                       went_through
                         (map (fun c => NoObject (Str (String c EmptyString)))
                            (list_ascii_of_string s)) g g' body code
                   | AlertObject keys =>
                       went_through (map (fun k => NoObject (Str k)) keys)
                         g g' body code
                   | AlertAtom a =>
                       refused
                         (TypeError ("object of type '" +:+ type_name (atom_value a)
                                     +:+ "' has no len()")) g g' body code
                   end
               end
             else code = 400%Z /\ body = Failure "Empty payload" /\ g' = g
         end.
Proof.
  intros request_json clocks g.
  destruct request_json as [payload|e];
    [|unfold webhook, try_M, bind, lift, ret; cbn; eexists _, _, _; repeat split].
  destruct (payload_truthy payload) eqn:Ht;
    [|unfold webhook, try_M, bind, lift, ret; cbn; rewrite Ht; cbn;
      eexists _, _, _; repeat split].
  destruct payload as [others alerts|v];
    [|unfold webhook, try_M, bind, lift, ret; cbn [payload_alerts]; rewrite Ht; cbn;
      eexists _, _, _; repeat split].
  destruct (default (AlertList []) alerts) as [items|s|keys|a] eqn:Hd.
  - apply webhook_went_through; rewrite ?Hd; cbn; eauto.
  - apply webhook_went_through; rewrite ?Hd; cbn; eauto.
  - apply webhook_went_through; rewrite ?Hd; cbn; eauto.
  - unfold webhook, try_M, bind, lift, ret. cbn [payload_alerts]. rewrite Ht, Hd.
    cbn. eexists _, _, _. repeat split.
Qed.

End WithDecoder.

(** A payload whose second alert is the number 5: the first alert is
    processed and recorded, then the request fails. *)
Example webhook_fails_after_the_first_alert :
  exists g',
    webhook Json.loads
      (Ret (Object false
              (Some (AlertList [AnAlert Scenario.odd_alert;
                                NoObject (Atomic (Integer 5))]))))
      (fun _ => Scenario.clock) (Scenario.agent true None "svc" 2)
    = (Ret (Failure "'int' object has no attribute 'get'", 500%Z), g')
    /\ map a_alert (alert_history g') = [Scenario.odd_alert]
    /\ Forall settled (alert_history g').
Proof.
  eexists. split; [vm_compute; reflexivity|].
  split; [vm_compute; reflexivity|].
  repeat constructor.
Qed.

End EndpointSpec.

(** ** The metrics client *)

Module PrometheusSpec.
Import Py PyFacts PatternMatcher Notions PrometheusClient.

(** [query] never raises. *)
Lemma query_returns (self : PrometheusClient.t) (q : string) :
  returns (query self q).
Proof.
  unfold query. destruct (http self _ q) as [response|e]; cbn;
    [|eexists; reflexivity].
  destruct (status_code response =? 200)%Z; cbn; [|eexists; reflexivity].
  destruct (json response); cbn; eexists; reflexivity.
Qed.

(** A query that fails gives [None]. *)
Lemma query_failed (self : PrometheusClient.t) (q : string) :
  match http self (url self +:+ "/api/v1/query") q with
  | Ret response => status_code response <> 200%Z \/ exists e, json response = Raise e
  | Raise _ => True
  end ->
  query self q = Ret PNone.
Proof.
  unfold query. destruct (http self _ q) as [response|e]; cbn; [|reflexivity].
  intros [H|[e H]].
  - apply Z.eqb_neq in H. now rewrite H.
  - destruct (status_code response =? 200)%Z; [|reflexivity]. now rewrite H.
Qed.

(** X25: no metrics when Prometheus cannot be queried.  When every request
    to the query endpoint raises, comes back with a status other than 200,
    or carries a body that is no JSON, [get_service_metrics] returns the
    empty list and does not raise. *)
Theorem no_metrics_when_the_queries_fail :
  forall (self : PrometheusClient.t) (service namespace : string),
    (forall q,
        match http self (url self +:+ "/api/v1/query") q with
        | Ret response =>
            status_code response <> 200%Z \/ exists e, json response = Raise e
        | Raise _ => True
        end) ->
    get_service_metrics self service namespace = Ret [].
Proof.
  intros self service namespace H. unfold get_service_metrics.
  rewrite !query_failed by apply H. reflexivity.
Qed.

(** X25 on a Prometheus that refuses the connection. *)
Lemma no_metrics_when_the_queries_fail_witness :
  get_service_metrics Scenario.prometheus_down "svc" "helix-dev" = Ret [].
Proof.
  apply (no_metrics_when_the_queries_fail Scenario.prometheus_down
           "svc" "helix-dev").
  intros q. exact I.
Defined.

(** X26: what [get_service_metrics] makes of an answer without samples.  For
    an answer to the error-rate query that is a JSON object with a key:
    when its [data] hold an empty [result] list (a query that matches no
    series), [get_service_metrics] raises the [IndexError] of [[][0]], which
    it does not catch; when it has no [data] at all, the defaults apply and
    the error rate reads as the string [0]. *)
Theorem metrics_of_an_answer_without_samples :
  forall (self : PrometheusClient.t) (service namespace : string)
         (d data : list (string * pyval)),
    query self (error_rate_query service namespace) = Ret (PDict d) ->
    d <> [] ->
    (dict_lookup d "data" = Some (PDict data) ->
     dict_lookup data "result" = Some (PList []) ->
     get_service_metrics self service namespace
     = Raise (IndexError "list index out of range"))
    /\ (dict_lookup d "data" = None ->
        query self (cpu_query service namespace) = Ret PNone ->
        get_service_metrics self service namespace
        = Ret [metric (PStr "error_rate") (PStr "0")]).
Proof.
  intros self service namespace d data Hq Hd. unfold get_service_metrics.
  rewrite Hq. cbn [obind truthy].
  destruct d as [|kv d]; [now destruct Hd|]. split.
  - intros H1 H2. unfold sample_value. cbn [get]. rewrite H1.
    cbn. rewrite H2. reflexivity.
  - intros H1 H2. unfold sample_value. cbn [get]. rewrite H1, H2. reflexivity.
Qed.

(** X26 on an answer with an empty vector. *)
Lemma metrics_of_an_answer_without_samples_witness :
  get_service_metrics (Scenario.prometheus_answering []) "svc" "helix-dev"
  = Raise (IndexError "list index out of range").
Proof.
  apply (proj1 (metrics_of_an_answer_without_samples
                  (Scenario.prometheus_answering []) "svc" "helix-dev"
                  [("status", PStr "success");
                   ("data", PDict [("resultType", PStr "vector");
                                   ("result", PList [])])]
                  [("resultType", PStr "vector"); ("result", PList [])]
                  eq_refl ltac:(discriminate))); reflexivity.
Defined.

(** The metrics returned, by the queries that were answered. *)
Lemma metrics_shape (self : PrometheusClient.t) (service namespace : string)
    (metrics : list pyval) :
  get_service_metrics self service namespace = Ret metrics ->
  exists v1 v2,
    metrics = [] \/ metrics = [metric (PStr "error_rate") v1]
    \/ metrics = [metric (PStr "cpu_usage") v2]
    \/ metrics = [metric (PStr "error_rate") v1; metric (PStr "cpu_usage") v2].
Proof.
  unfold get_service_metrics.
  destruct (query self (error_rate_query service namespace)) as [r1|e];
    [|discriminate].
  cbn [obind]. destruct (truthy r1).
  - destruct (sample_value r1) as [v1|e]; [|discriminate]. cbn [obind app].
    destruct (query self (cpu_query service namespace)) as [r2|e]; [|discriminate].
    cbn [obind]. destruct (truthy r2).
    + destruct (sample_value r2) as [v2|e]; [|discriminate]. cbn [obind app].
      intros [= <-]. exists v1, v2. auto.
    + intros [= <-]. exists v1, PNone. auto.
  - cbn [obind].
    destruct (query self (cpu_query service namespace)) as [r2|e]; [|discriminate].
    cbn [obind]. destruct (truthy r2).
    + destruct (sample_value r2) as [v2|e]; [|discriminate]. cbn [obind app].
      intros [= <-]. exists PNone, v2. auto.
    + intros [= <-]. exists PNone, PNone. auto.
Qed.

(** X27: the metrics of [get_service_metrics] fit the prompt.  When it
    returns, it returns at most two metrics, each a dict with the name
    [error_rate] or [cpu_usage] and a value; and [_build_context] of the
    reasoner, given these metrics, returns a prompt and does not raise,
    whatever the alert and the logs. *)
Theorem metrics_fit_the_prompt :
  forall (self : PrometheusClient.t) (service namespace : string)
         (metrics : list pyval) (alert : Alert) (pod_logs : option string),
    get_service_metrics self service namespace = Ret metrics ->
    length metrics <= 2
    /\ Forall (fun m => exists v, m = metric (PStr "error_rate") v
                                  \/ m = metric (PStr "cpu_usage") v) metrics
    /\ returns (AIAnalyzer._build_context alert (Some metrics) pod_logs).
Proof.
  intros self service namespace metrics alert pod_logs H.
  destruct (metrics_shape _ _ _ _ H) as (v1 & v2 & [Hm|[Hm|[Hm|Hm]]]); subst metrics;
    (split; [simpl; lia|]);
    (split; [repeat constructor; eauto|]);
    unfold AIAnalyzer._build_context; cbn; destruct pod_logs as [[|c l]|];
    eexists; reflexivity.
Qed.

(** X27 on answers with one sample of value [0.5]. *)
Lemma metrics_fit_the_prompt_witness :
  length [metric (PStr "error_rate") (PStr "0.5");
          metric (PStr "cpu_usage") (PStr "0.5")] <= 2
  /\ Forall (fun m => exists v, m = metric (PStr "error_rate") v
                                \/ m = metric (PStr "cpu_usage") v)
       [metric (PStr "error_rate") (PStr "0.5");
        metric (PStr "cpu_usage") (PStr "0.5")]
  /\ returns (AIAnalyzer._build_context Scenario.odd_alert
                (Some [metric (PStr "error_rate") (PStr "0.5");
                       metric (PStr "cpu_usage") (PStr "0.5")])
                None).
Proof.
  apply (metrics_fit_the_prompt (Scenario.prometheus_answering [Scenario.sample "0.5"])
           "svc" "helix-dev").
  vm_compute. reflexivity.
Defined.

End PrometheusSpec.
